(** * Analysis pipeline of the forecasting backend

    A shallow embedding of [backend/app/utils/forecasting.py]:
    [normalize_columns], [calculate_metrics], [detect_anomalies] (with its
    inner [classify_severity]) and [generate_insights], together with the
    column check and the metrics step of [generate_forecast] and the text
    cleaning of [generate_pdf_report] in [backend/app/utils/reporting.py].

    NumPy and pandas compute on IEEE 754 binary64 values.  They are modelled
    by [spec_float] with the binary64 parameters (53 bits of precision,
    exponent bound 1024), so NaN, the two infinities and the two zeros are
    all present and every operation rounds to nearest even. *)

From Stdlib Require Import ZArith List Bool String Ascii Lia Sorted.
From Stdlib Require Import Floats.SpecFloat.
Import ListNotations.

Local Open Scope Z_scope.

(** ** Binary64 arithmetic *)

Definition float : Type := spec_float.

Module F64.

Definition prec : Z := 53.
Definition emax : Z := 1024.

Definition nan : float := S754_nan.
Definition inf : float := S754_infinity false.
Definition neg_inf : float := S754_infinity true.
Definition zero : float := S754_zero false.
Definition neg_zero : float := S754_zero true.

(** Conversion of an integer literal ([20], [100], [len(a)]). *)
Definition of_Z (n : Z) : float := binary_normalize prec emax n 0 false.

Definition add : float -> float -> float := SFadd prec emax.
Definition sub : float -> float -> float := SFsub prec emax.
Definition mul : float -> float -> float := SFmul prec emax.
Definition div : float -> float -> float := SFdiv prec emax.
Definition sqrt : float -> float := SFsqrt prec emax.
Definition abs : float -> float := SFabs.

Definition ltb : float -> float -> bool := SFltb.
Definition leb : float -> float -> bool := SFleb.
Definition eqb : float -> float -> bool := SFeqb.
(** [x > y] is [y < x]; both are false as soon as one side is NaN. *)
Definition gtb (x y : float) : bool := SFltb y x.

Definition isnan (x : float) : bool :=
  match x with S754_nan => true | _ => false end.

Definition isinf (x : float) : bool :=
  match x with S754_infinity _ => true | _ => false end.

Definition is_finite (x : float) : bool :=
  match x with S754_zero _ | S754_finite _ _ _ => true | _ => false end.

Definition is_zero (x : float) : bool :=
  match x with S754_zero _ => true | _ => false end.

(** [np.rint]: round to the nearest integer, ties to even, keeping the
    sign of a result that rounds to zero. *)
Definition rint (x : float) : float :=
  match x with
  | S754_finite s m e =>
      if 0 <=? e then x
      else
        let d := 2 ^ (- e) in
        let q := Zpos m / d in
        let r := Zpos m mod d in
        let n := match 2 * r ?= d with
                 | Lt => q
                 | Gt => q + 1
                 | Eq => if Z.even q then q else q + 1
                 end in
        match n with
        | Z0 => S754_zero s
        | _ => binary_normalize prec emax (if s then - n else n) 0 s
        end
  | _ => x
  end.

(** [round(x, d)] on a [numpy.float64]: NumPy multiplies by [10**d],
    applies [rint] and divides again. *)
Definition np_round (x : float) (decimals : Z) : float :=
  let factor := of_Z (10 ^ decimals) in
  div (rint (mul x factor)) factor.

(** [np.sum] of a one-dimensional float64 array is NumPy's pairwise
    summation.  [unrolled_sum] is its block loop: eight accumulators, which
    start as the first eight terms, take the following terms eight at a
    time; they are then added two by two, and the terms left over after the
    last full group of eight are added one by one. *)
Fixpoint unrolled_sum (r0 r1 r2 r3 r4 r5 r6 r7 : float) (a : list float)
  : float :=
  match a with
  | a0 :: a1 :: a2 :: a3 :: a4 :: a5 :: a6 :: a7 :: a' =>
      unrolled_sum (add r0 a0) (add r1 a1) (add r2 a2) (add r3 a3)
                   (add r4 a4) (add r5 a5) (add r6 a6) (add r7 a7) a'
  | _ =>
      fold_left add a
        (add (add (add r0 r1) (add r2 r3)) (add (add r4 r5) (add r6 r7)))
  end.

Definition pw_blocksize : nat := 128.

(** Where an array longer than [pw_blocksize] is cut: at half its length,
    rounded down to a multiple of eight. *)
Definition pw_split (n : nat) : nat := (n / 2 - (n / 2) mod 8)%nat.

(** Fewer than eight terms are added from left to right, starting at [0.0];
    up to [pw_blocksize] terms go through the block loop; a longer array is
    cut in two and the sums of the two parts are added.  [depth] bounds the
    number of nested cuts; [pairwise_sum_eq] below shows that the length of
    the array is always enough. *)
Fixpoint pairwise_sum (depth : nat) (a : list float) : float :=
  match a with
  | a0 :: a1 :: a2 :: a3 :: a4 :: a5 :: a6 :: a7 :: a' =>
      if Nat.leb (List.length a) pw_blocksize then
        unrolled_sum a0 a1 a2 a3 a4 a5 a6 a7 a'
      else
        match depth with
        | S depth =>
            let n2 := pw_split (List.length a) in
            add (pairwise_sum depth (firstn n2 a))
                (pairwise_sum depth (skipn n2 a))
        | O => unrolled_sum a0 a1 a2 a3 a4 a5 a6 a7 a'
        end
  | _ => fold_left add a zero
  end.

(** The reduction [np.add.reduce] starts from the identity [0.0] of the
    addition and adds the pairwise sum of the array to it.  (The sign of a
    zero sum depends on the sign of the zeros the sum starts from; it plays
    no part for arrays of absolute values and of squares, which are the
    arrays summed here.) *)
Definition np_sum (a : list float) : float :=
  add zero (pairwise_sum (List.length a) a).

(** [np.mean]: the sum divided by the number of elements. *)
Definition np_mean (a : list float) : float :=
  div (np_sum a) (of_Z (Z.of_nat (List.length a))).

End F64.

(** ** Anomaly detection *)

Inductive severity_level := Low | Medium | High.

(** The inner function of [detect_anomalies]. *)
Definition classify_severity (pct : float) : severity_level :=
  if F64.gtb pct (F64.of_Z 20) then High
  else if F64.gtb pct (F64.of_Z 10) then Medium
  else Low.

(** A row of the [actuals] frame, of the [forecast] frame and of their
    inner join on [ds].  Timestamps are instants counted as integers. *)
Record actual_row := { a_ds : Z; a_y : float }.

Record forecast_row :=
  { f_ds : Z; f_yhat : float; f_yhat_lower : float; f_yhat_upper : float }.

Record merged_row :=
  { m_ds : Z; m_y : float;
    m_yhat_lower : float; m_yhat_upper : float; m_yhat : float }.

Record anomaly :=
  { an_ds : Z; an_y : float; an_yhat : float;
    an_yhat_lower : float; an_yhat_upper : float;
    an_severity : float; an_severity_level : severity_level }.

(** [pd.merge(actuals, forecast[...], on='ds', how='inner')]: every pair of
    rows with the same timestamp, in the order of the left frame. *)
Definition merge (actuals : list actual_row) (forecast : list forecast_row)
  : list merged_row :=
  flat_map
    (fun a =>
       map (fun f => {| m_ds := a_ds a; m_y := a_y a;
                        m_yhat_lower := f_yhat_lower f;
                        m_yhat_upper := f_yhat_upper f;
                        m_yhat := f_yhat f |})
           (filter (fun f => a_ds a =? f_ds f) forecast))
    actuals.

Definition is_anomaly (r : merged_row) : bool :=
  F64.ltb (m_y r) (m_yhat_lower r) || F64.gtb (m_y r) (m_yhat_upper r).

Definition severity_pct (y yhat : float) : float :=
  F64.mul (F64.div (F64.abs (F64.sub y yhat)) yhat) (F64.of_Z 100).

Definition anomaly_of (r : merged_row) : anomaly :=
  {| an_ds := m_ds r; an_y := m_y r; an_yhat := m_yhat r;
     an_yhat_lower := m_yhat_lower r; an_yhat_upper := m_yhat_upper r;
     an_severity := F64.abs (F64.sub (m_y r) (m_yhat r));
     an_severity_level := classify_severity (severity_pct (m_y r) (m_yhat r)) |}.

(** When no row is flagged the source returns an empty frame with the same
    seven columns, which is the empty list here as well. *)
Definition detect_anomalies (forecast : list forecast_row)
  (actuals : list actual_row) : list anomaly :=
  let merged := merge actuals forecast in
  let anomalies := filter is_anomaly merged in
  map anomaly_of anomalies.

(** The contract of the forecasting model on a forecast point. *)
Definition interval_ok (r : merged_row) : Prop :=
  F64.leb (m_yhat_lower r) (m_yhat r) = true /\
  F64.leb (m_yhat r) (m_yhat_upper r) = true.

(** ** Accuracy metrics *)

Record metrics := { MAE : float; RMSE : float; MAPE : float }.

(** Boolean-mask indexing [a[mask]]. *)
Definition select_rows {A : Type} (mask : list bool) (a : list A) : list A :=
  map fst (filter snd (combine a mask)).

(** Element-wise operation on two arrays of the same length. *)
Definition zip_with {A B C : Type} (f : A -> B -> C) (a : list A) (b : list B)
  : list C :=
  map (fun p => f (fst p) (snd p)) (combine a b).

(** The element-wise [&] of two one-dimensional boolean arrays under NumPy's
    broadcasting: arrays of the same length are paired up, an array of
    length 1 is stretched to the length of the other, anything else
    raises. *)
Definition broadcast_and (a b : list bool) : option (list bool) :=
  if Nat.eqb (List.length a) (List.length b) then Some (zip_with andb a b)
  else
    match a, b with
    | [x], _ => Some (map (fun y => x && y) b)
    | _, [y] => Some (map (fun x => x && y) a)
    | _, _ => None
    end.

(** [a[mask]] with its length check: the mask has to be as long as the
    array, except that an empty mask selects nothing from any array. *)
Definition bool_index {A : Type} (mask : list bool) (a : list A)
  : option (list A) :=
  if Nat.eqb (List.length mask) (List.length a) then Some (select_rows mask a)
  else
    match mask with
    | [] => Some []
    | _ => None
    end.

(** [calculate_metrics(y_true, y_pred)] on float64 arrays; [None] is a
    raised exception.  An integer array next to a float64 array is promoted
    to float64 by every operation of the function, which is the case
    modelled; two integer arrays, whose difference is taken in wrap-around
    integer arithmetic, are not.  The final [round] is NumPy's on a
    [numpy.float64]; on the Python float [0.0] of the MAPE guard the built-in
    [round] returns [0.0], and so does [np_round]. *)
Definition calculate_metrics (y_true y_pred : list float) : option metrics :=
  match broadcast_and (map (fun t => negb (F64.isnan t)) y_true)
                      (map (fun p => negb (F64.isnan p)) y_pred) with
  | None => None
  | Some mask =>
      match bool_index mask y_true with
      | None => None
      | Some y_true =>
          match bool_index mask y_pred with
          | None => None
          | Some y_pred =>
              if Nat.eqb (List.length y_true) 0 then
                Some {| MAE := F64.zero; RMSE := F64.zero; MAPE := F64.zero |}
              else
                let diff := zip_with F64.sub y_true y_pred in
                let mae := F64.np_mean (map F64.abs diff) in
                let rmse :=
                  F64.sqrt (F64.np_mean (map (fun d => F64.mul d d) diff)) in
                let mape :=
                  F64.mul
                    (F64.np_mean (map F64.abs (zip_with F64.div diff y_true)))
                    (F64.of_Z 100) in
                let mape :=
                  if F64.isinf mape || F64.isnan mape then F64.zero else mape in
                Some {| MAE := F64.np_round mae 4;
                        RMSE := F64.np_round rmse 4;
                        MAPE := F64.np_round mape 2 |}
          end
      end
  end.

(** The pairs that survive the mask of [calculate_metrics], and the metrics
    written over them; [calculate_metrics_pairs] below shows that this is
    what the function returns. *)
Definition valid_pair (tp : float * float) : bool :=
  negb (F64.isnan (fst tp)) && negb (F64.isnan (snd tp)).

Definition valid_pairs (y_true y_pred : list float) : list (float * float) :=
  filter valid_pair (combine y_true y_pred).

Definition abs_error (tp : float * float) : float :=
  F64.abs (F64.sub (fst tp) (snd tp)).

Definition squared_error (tp : float * float) : float :=
  F64.mul (F64.sub (fst tp) (snd tp)) (F64.sub (fst tp) (snd tp)).

Definition abs_pct_error (tp : float * float) : float :=
  F64.abs (F64.div (F64.sub (fst tp) (snd tp)) (fst tp)).

Definition zero_metrics : metrics :=
  {| MAE := F64.zero; RMSE := F64.zero; MAPE := F64.zero |}.

(** ** Column normalisation *)

Local Open Scope string_scope.

(** A pandas frame: the row labels and the columns in their order, a name
    with its data.  Names may repeat, as pandas allows.  A column is either
    numeric-typed (missing values are NaN) or of object type. *)
Inductive cell :=
| CNum (x : float)
| CStr (s : string)
| CNone.

Inductive column :=
| NumCol (vals : list float)
| ObjCol (vals : list cell).

Record DataFrame :=
  { index : list Z; columns : list (string * column) }.

Inductive error :=
| NoDateColumn    (* ValueError: could not detect a date column *)
| NoTargetColumn  (* ValueError: could not detect a numeric target column *)
| KeyError
| TypeError.

Inductive result (A : Type) :=
| Ok (a : A)
| Raise (e : error).
Arguments Ok {A} a.
Arguments Raise {A} e.

Definition bind {A B : Type} (r : result A) (k : A -> result B) : result B :=
  match r with
  | Ok a => k a
  | Raise e => Raise e
  end.

Notation "x <- r ;; k" := (bind r (fun x => k))
  (at level 61, r at next level, right associativity).

(** [str.lower] on the ASCII letters of a column name. *)
Definition lower_ascii (c : ascii) : ascii :=
  let n := nat_of_ascii c in
  if (Nat.leb 65 n && Nat.leb n 90)%bool then ascii_of_nat (n + 32) else c.

Fixpoint lower (s : string) : string :=
  match s with
  | EmptyString => EmptyString
  | String c s' => String (lower_ascii c) (lower s')
  end.

(** [x in names]. *)
Definition mem (x : string) (names : list string) : bool :=
  existsb (String.eqb x) names.

(** [not v] for a variable holding [None] or a string. *)
Definition falsy (v : option string) : bool :=
  match v with
  | None => true
  | Some s => String.eqb s ""
  end.

Definition column_names (df : DataFrame) : list string :=
  map fst (columns df).

(** [df[names]]: for each requested name, every column carrying it. *)
Definition select_columns (cols : list (string * column)) (names : list string)
  : list (string * column) :=
  flat_map (fun n => filter (fun c => String.eqb (fst c) n) cols) names.

Definition is_numeric (c : column) : bool :=
  match c with NumCol _ => true | ObjCol _ => false end.

(** [select_dtypes(include=['number', 'float', 'int']).columns]. *)
Definition select_dtypes_number (cols : list (string * column)) : list string :=
  map fst (filter (fun c => is_numeric (snd c)) cols).

Definition date_names : list string := ["date"; "ds"; "timestamp"; "time"].

Definition common_names : list string :=
  ["value"; "sales"; "revenue"; "quantity"; "amount"; "close"; "price"].

(** Step 1 of [normalize_columns]. *)
Definition detect_date_col (df : DataFrame) : option string :=
  if mem "ds" (column_names df) then Some "ds"
  else find (fun col => mem (lower col) date_names) (column_names df).

(** Step 2 of [normalize_columns]. *)
Definition detect_target_col (df : DataFrame) (date_col : string)
  : option string :=
  if mem "y" (column_names df) then Some "y"
  else
    let potential_targets :=
      filter (fun c => negb (String.eqb c date_col)) (column_names df) in
    let target_col :=
      find (fun col => String.eqb (lower col) "y") potential_targets in
    if falsy target_col then
      let target_col :=
        match find (fun col => mem (lower col) common_names) potential_targets with
        | Some col => Some col
        | None => target_col
        end in
      if falsy target_col then
        let numeric_cols :=
          select_dtypes_number (select_columns (columns df) potential_targets) in
        match numeric_cols with
        | col :: _ => Some col
        | [] => target_col
        end
      else target_col
    else target_col.

(** [df.rename(columns={date_col: 'ds', target_col: 'y'})]. *)
Definition rename (date_col target_col : string) (name : string) : string :=
  if String.eqb name target_col then "y"
  else if String.eqb name date_col then "ds"
  else name.

Section Normalize.

(** The numeric parser behind [pd.to_numeric]: the value a string denotes,
    if it denotes one. *)
Variable parse_number : string -> option float.

(** [errors='coerce']: what cannot be read as a number becomes NaN. *)
Definition coerce (c : cell) : float :=
  match c with
  | CNum x => x
  | CStr s => match parse_number s with Some x => x | None => F64.nan end
  | CNone => F64.nan
  end.

Definition to_numeric (c : column) : list float :=
  match c with
  | NumCol vals => vals
  | ObjCol vals => map coerce vals
  end.

Definition filter_column (mask : list bool) (c : column) : column :=
  match c with
  | NumCol vals => NumCol (select_rows mask vals)
  | ObjCol vals => ObjCol (select_rows mask vals)
  end.

(** [df['y'] = pd.to_numeric(df['y'], errors='coerce')] followed by
    [df.dropna(subset=['y'])].  With two columns named [y] the selection
    is a frame and [pd.to_numeric] raises. *)
Definition coerce_and_dropna (idx : list Z) (cols : list (string * column))
  : result DataFrame :=
  match filter (fun c => String.eqb (fst c) "y") cols with
  | [] => Raise KeyError
  | [(_, ycol)] =>
      let y := to_numeric ycol in
      let cols :=
        map (fun c => if String.eqb (fst c) "y" then (fst c, NumCol y) else c)
            cols in
      let mask := map (fun v => negb (F64.isnan v)) y in
      Ok {| index := select_rows mask idx;
            columns := map (fun c => (fst c, filter_column mask (snd c))) cols |}
  | _ => Raise TypeError
  end.

Definition normalize_columns (df : DataFrame) : result DataFrame :=
  date_col <-
    (let date_col := detect_date_col df in
     if falsy date_col then Raise NoDateColumn
     else match date_col with Some c => Ok c | None => Raise NoDateColumn end) ;;
  target_col <-
    (let target_col := detect_target_col df date_col in
     if falsy target_col then Raise NoTargetColumn
     else match target_col with Some c => Ok c | None => Raise NoTargetColumn end) ;;
  let cols :=
    map (fun c => (rename date_col target_col (fst c), snd c)) (columns df) in
  df' <- coerce_and_dropna (index df) cols ;;
  Ok {| index := index df';
        columns := select_columns (columns df') ["ds"; "y"] |}.

End Normalize.

(** The shape of a frame returned by [normalize_columns]: columns named
    [ds], then one numeric column [y] without NaN, no column and no index
    longer than [y]. *)
Definition column_length (c : column) : nat :=
  match c with
  | NumCol vals => List.length vals
  | ObjCol vals => List.length vals
  end.

Definition normalized (df : DataFrame) : Prop :=
  exists (ds_cols : list (string * column)) (y : list float),
    columns df = (ds_cols ++ [("y", NumCol y)])%list /\
    ds_cols <> [] /\
    Forall (fun c => fst c = "ds" /\
                     (column_length (snd c) <= List.length y)%nat) ds_cols /\
    Forall (fun v => F64.isnan v = false) y /\
    (List.length (index df) <= List.length y)%nat.

(** The target selection in the words of the specification, over the columns
    other than the date column: a column named exactly [y]; else one whose
    lower-cased name is [y]; else the first whose lower-cased name is a common
    value name; else the first numeric-typed column. *)
Definition target_by_priority (df : DataFrame) (date_col : string)
  : option string :=
  let others :=
    filter (fun c => negb (String.eqb (fst c) date_col)) (columns df) in
  match find (fun c => String.eqb (fst c) "y") others with
  | Some c => Some (fst c)
  | None =>
      match find (fun c => String.eqb (lower (fst c)) "y") others with
      | Some c => Some (fst c)
      | None =>
          match find (fun c => mem (lower (fst c)) common_names) others with
          | Some c => Some (fst c)
          | None => option_map fst (find (fun c => is_numeric (snd c)) others)
          end
      end
  end.

(** ** Insight generation *)

Inductive direction := growth | decline.
Inductive intensity := Significant | Moderate | Minimal.

(** The seven insight sentences and the six recommendation sentences, with
    the values their templates interpolate. *)
Inductive insight :=
| TrendInsight (i : intensity) (d : direction) (abs_trend_pct : float)
| ForecastPeak (peak_val : float) (peak_time : Z)
| CriticalVolatility (high_count : nat)
| StatisticalStability (total_anomalies : nat)
| OperationalStability
| HighConfidence
| VariableForecast.

Inductive recommendation :=
| ScaleOperations
| MonitorSteadyGrowth
| CostOptimization
| PeakReadiness (peak_time : Z)
| RiskMitigation
| DataRefinement.

(** [s.iloc[-1]]; [None] is the [IndexError] of an empty frame. *)
Fixpoint iloc_last {A : Type} (l : list A) : option A :=
  match l with
  | [] => None
  | [x] => Some x
  | _ :: l' => iloc_last l'
  end.

(** [history['ds'].max()], from a first value on. *)
Definition ds_max (first : Z) (rest : list Z) : Z := fold_left Z.max rest first.

(** [idxmax] of the [yhat] column: the first row holding the largest value,
    NaN skipped; no row at all when every value is NaN, and the lookup by
    that label then raises. *)
Fixpoint idxmax (best : option forecast_row) (rows : list forecast_row)
  : option forecast_row :=
  match rows with
  | [] => best
  | r :: rows' =>
      if F64.isnan (f_yhat r) then idxmax best rows'
      else
        match best with
        | None => idxmax (Some r) rows'
        | Some b =>
            if F64.gtb (f_yhat r) (f_yhat b) then idxmax (Some r) rows'
            else idxmax best rows'
        end
  end.

Definition is_high (a : anomaly) : bool :=
  match an_severity_level a with High => true | _ => false end.

(** The two output lists, appended to by each rule in turn. *)
Definition output : Type := list insight * list recommendation.

Definition emit_insight (i : insight) (o : output) : output :=
  ((fst o ++ [i])%list, snd o).

Definition emit_recommendation (r : recommendation) (o : output) : output :=
  (fst o, (snd o ++ [r])%list).

(** Rule 1, trend analysis. *)
Definition trend_rule (forecast : list forecast_row)
  (history : list actual_row) (o : output) : option output :=
  match iloc_last history, iloc_last forecast with
  | Some h, Some f =>
      let current_val := a_y h in
      let future_val := f_yhat f in
      let trend_pct :=
        F64.mul (F64.div (F64.sub future_val current_val) current_val)
                (F64.of_Z 100) in
      let dir := if F64.gtb trend_pct (F64.of_Z 0) then growth else decline in
      let int :=
        if F64.gtb (F64.abs trend_pct) (F64.of_Z 10) then Significant
        else if F64.gtb (F64.abs trend_pct) (F64.of_Z 3) then Moderate
        else Minimal in
      let o := emit_insight (TrendInsight int dir (F64.abs trend_pct)) o in
      Some
        match dir with
        | growth =>
            if F64.gtb (F64.abs trend_pct) (F64.of_Z 10)
            then emit_recommendation ScaleOperations o
            else emit_recommendation MonitorSteadyGrowth o
        | decline => emit_recommendation CostOptimization o
        end
  | _, _ => None
  end.

(** Rule 2, the peak of the forecast after the last historical day. *)
Definition peak_rule (forecast : list forecast_row)
  (history : list actual_row) (o : output) : option output :=
  match map a_ds history with
  | [] => None
  | d :: ds =>
      let future_forecast :=
        filter (fun f => f_ds f >? ds_max d ds) forecast in
      match future_forecast with
      | [] => Some o
      | _ :: _ =>
          match idxmax None future_forecast with
          | None => None
          | Some peak =>
              let peak_time := f_ds peak in
              let peak_val := f_yhat peak in
              Some (emit_recommendation (PeakReadiness peak_time)
                      (emit_insight (ForecastPeak peak_val peak_time) o))
          end
      end
  end.

(** Rule 3, anomaly and volatility summary. *)
Definition anomaly_rule (anomalies : list anomaly) (o : output) : output :=
  match anomalies with
  | _ :: _ =>
      let high_severity := filter is_high anomalies in
      let o :=
        match high_severity with
        | _ :: _ =>
            emit_recommendation RiskMitigation
              (emit_insight (CriticalVolatility (List.length high_severity)) o)
        | [] => o
        end in
      let total_anomalies := List.length anomalies in
      emit_insight (StatisticalStability total_anomalies) o
  | [] => emit_insight OperationalStability o
  end.

(** Rule 4, width of the last prediction interval. *)
Definition confidence_rule (forecast : list forecast_row) (o : output)
  : option output :=
  match iloc_last forecast with
  | None => None
  | Some last_point =>
      let spread :=
        F64.mul
          (F64.div (F64.sub (f_yhat_upper last_point) (f_yhat_lower last_point))
                   (f_yhat last_point))
          (F64.of_Z 100) in
      if F64.ltb spread (F64.of_Z 15) then Some (emit_insight HighConfidence o)
      else Some (emit_recommendation DataRefinement
                   (emit_insight VariableForecast o))
  end.

Definition option_bind {A B : Type} (x : option A) (k : A -> option B)
  : option B :=
  match x with Some a => k a | None => None end.

(** [generate_insights(forecast, anomalies, history)]; [None] when the
    source raises. *)
Definition generate_insights (forecast : list forecast_row)
  (anomalies : list anomaly) (history : list actual_row) : option output :=
  option_bind (trend_rule forecast history ([], [])) (fun o =>
  option_bind (peak_rule forecast history o) (fun o =>
  let o := anomaly_rule anomalies o in
  confidence_rule forecast o)).

(** The insights and recommendations of rule 3 alone. *)
Definition summary_part (anomalies : list anomaly) : output :=
  anomaly_rule anomalies ([], []).

(** *** The sentences *)

Section Render.

(** Python's [{:.1f}] and [{:.2f}] formats, [strftime('%Y-%m-%d')] and
    [str] on a length. *)
Variables (fmt_1f fmt_2f : float -> string)
          (strftime : Z -> string)
          (str_of_nat : nat -> string).

Definition direction_name (d : direction) : string :=
  match d with growth => "growth" | decline => "decline" end.

Definition direction_capitalized (d : direction) : string :=
  match d with growth => "Growth" | decline => "Decline" end.

Definition intensity_name (i : intensity) : string :=
  match i with
  | Significant => "Significant"
  | Moderate => "Moderate"
  | Minimal => "Minimal"
  end.

Definition render_insight (i : insight) : string :=
  match i with
  | TrendInsight int dir pct =>
      "<b>" ++ intensity_name int ++ " " ++ direction_capitalized dir
      ++ "</b>: Expect a " ++ fmt_1f pct ++ "% " ++ direction_name dir
      ++ " in values over the next forecast cycle."
  | ForecastPeak v t =>
      "<b>Forecast Peak</b>: The model projects a high of <b>" ++ fmt_2f v
      ++ "</b> around <b>" ++ strftime t ++ "</b>."
  | CriticalVolatility n =>
      "<b>Critical Volatility</b>: Detected " ++ str_of_nat n
      ++ " <b>High Severity</b> anomalies requiring immediate review."
  | StatisticalStability n =>
      "<b>Statistical Stability</b>: Over " ++ str_of_nat n
      ++ " historical anomalies identified, helping refine model sensitivity."
  | OperationalStability =>
      "<b>Operational Stability</b>: No significant anomalies detected in recent historical data."
  | HighConfidence =>
      "<b>High Confidence</b>: The model shows high convergence with a narrow prediction interval."
  | VariableForecast =>
      "<b>Variable Forecast</b>: Noted a wider uncertainty margin, suggesting potential external market influence."
  end.

Definition render_recommendation (r : recommendation) : string :=
  match r with
  | ScaleOperations =>
      "<b>Scale Operations</b>: Increase capacity and inventory to meet projected high demand."
  | MonitorSteadyGrowth =>
      "<b>Monitor Steady Growth</b>: Continue current growth strategies with regular performance checks."
  | CostOptimization =>
      "<b>Cost Optimization</b>: Identify potential operational efficiencies to offset the projected decline."
  | PeakReadiness t =>
      "<b>Peak Readiness</b>: Plan marketing or maintenance activities around the <b>"
      ++ strftime t ++ "</b> peak."
  | RiskMitigation =>
      "<b>Risk Mitigation</b>: Audit the high-severity data points to identify root causes and prevent recurrence."
  | DataRefinement =>
      "<b>Data Refinement</b>: Consider adding additional context columns (holidays, promos) to reduce forecast variance."
  end.

(** The dictionary returned to the caller: the two lists of sentences. *)
Definition insights_dict (o : output) : list string * list string :=
  (map render_insight (fst o), map render_recommendation (snd o)).

End Render.

Definition is_trend (i : insight) : bool :=
  match i with TrendInsight _ _ _ => true | _ => false end.

Definition is_peak (i : insight) : bool :=
  match i with ForecastPeak _ _ => true | _ => false end.

Definition is_critical (i : insight) : bool :=
  match i with CriticalVolatility _ => true | _ => false end.

Definition is_anomaly_summary (i : insight) : bool :=
  match i with
  | StatisticalStability _ | OperationalStability => true
  | _ => false
  end.

Definition is_confidence (i : insight) : bool :=
  match i with HighConfidence | VariableForecast => true | _ => false end.

Definition is_trend_recommendation (r : recommendation) : bool :=
  match r with
  | ScaleOperations | MonitorSteadyGrowth | CostOptimization => true
  | _ => false
  end.

(** ** Vocabulary of the further properties *)

(** [x] carries the sign [s], or is NaN. *)
Definition signed (s : bool) (x : float) : Prop :=
  match x with
  | S754_zero s' | S754_infinity s' | S754_finite s' _ _ => s' = s
  | S754_nan => True
  end.

(** The three levels in increasing order. *)
Definition severity_rank (l : severity_level) : nat :=
  match l with Low => 0 | Medium => 1 | High => 2 end.

(** The value is [+0.0] or NaN. *)
Definition zero_or_nan (x : float) : Prop := x = F64.zero \/ x = F64.nan.

(** A frame as pandas keeps it: every column has one value per row label. *)
Definition well_formed (df : DataFrame) : Prop :=
  Forall (fun c => column_length (snd c) = List.length (index df)) (columns df).

(** The forecast rows dated after every historical row, as rule 2 of
    [generate_insights] selects them. *)
Definition future_of (forecast : list forecast_row)
  (history : list actual_row) : list forecast_row :=
  match map a_ds history with
  | [] => []
  | d :: ds => filter (fun f => f_ds f >? ds_max d ds) forecast
  end.

(** ** The forecast entry point, around the model *)

(** The metrics step of [generate_forecast]: the forecast rows whose
    timestamp occurs in the history ([isin]), joined again with the history on
    [ds], and the two columns [y] and [yhat] of the join handed to
    [calculate_metrics]. *)
Definition history_metrics (forecast : list forecast_row)
  (df : list actual_row) : option metrics :=
  let history_forecast :=
    filter (fun f => existsb (Z.eqb (f_ds f)) (map a_ds df)) forecast in
  let metrics_df := merge df history_forecast in
  calculate_metrics (map m_y metrics_df) (map m_yhat metrics_df).

(** What the column check of [generate_forecast] raises: its own
    [ValueError], or an exception of [normalize_columns] that is not a
    [ValueError] and passes through the [except] clause. *)
Inductive forecast_error :=
| MissingColumns  (* ValueError: input dataframe must contain ds and y *)
| Uncaught (e : error).

(** The column check of [generate_forecast]: a frame that lacks [ds] or [y]
    is normalized, a frame that has both is taken as it is. *)
Definition ensure_columns (parse_number : string -> option float)
  (df : DataFrame) : DataFrame + forecast_error :=
  if negb (mem "ds" (column_names df)) || negb (mem "y" (column_names df)) then
    match normalize_columns parse_number df with
    | Ok df' => inl df'
    | Raise NoDateColumn | Raise NoTargetColumn => inr MissingColumns
    | Raise e => inr (Uncaught e)
    end
  else inl df.

(** ** The report *)

Definition is_star (c : ascii) : bool := Ascii.eqb c "*"%char.

(** [insight.replace("**", "")], the text [generate_pdf_report] prints for
    an insight: every pair of stars met from left to right is dropped. *)
Fixpoint clean_text (insight : string) : string :=
  match insight with
  | EmptyString => EmptyString
  | String c rest =>
      match rest with
      | EmptyString => String c EmptyString
      | String c' rest' =>
          if is_star c && is_star c' then clean_text rest'
          else String c (clean_text rest)
      end
  end.

(** Whether two stars stand next to each other somewhere in the text. *)
Fixpoint has_double_star (s : string) : bool :=
  match s with
  | EmptyString => false
  | String c rest =>
      match rest with
      | EmptyString => false
      | String c' _ => (is_star c && is_star c') || has_double_star rest
      end
  end.

(** ** Sample inputs *)

Module Sample.

Definition fr (ds yhat lower upper : Z) : forecast_row :=
  {| f_ds := ds; f_yhat := F64.of_Z yhat;
     f_yhat_lower := F64.of_Z lower; f_yhat_upper := F64.of_Z upper |}.

Definition ar (ds y : Z) : actual_row := {| a_ds := ds; a_y := F64.of_Z y |}.

(** Two days of history, the second far above its interval. *)
Definition forecast : list forecast_row := [fr 1 10 9 11; fr 2 12 10 20].
Definition actuals : list actual_row := [ar 1 10; ar 2 25].

Definition spike : merged_row :=
  {| m_ds := 2; m_y := F64.of_Z 25; m_yhat_lower := F64.of_Z 10;
     m_yhat_upper := F64.of_Z 20; m_yhat := F64.of_Z 12 |}.

Definition on_target : merged_row :=
  {| m_ds := 1; m_y := F64.of_Z 10; m_yhat_lower := F64.of_Z 9;
     m_yhat_upper := F64.of_Z 11; m_yhat := F64.of_Z 10 |}.

(** An infinite estimate: the percentage is [inf / inf]. *)
Definition forecast_inf : list forecast_row :=
  [{| f_ds := 1; f_yhat := F64.inf;
      f_yhat_lower := F64.of_Z 0; f_yhat_upper := F64.inf |}].
Definition actuals_below : list actual_row := [ar 1 (-1)].

(** Estimates of [+0.0] and of [-0.0] inside the interval [-1, 1], with an
    actual value of 5. *)
Definition forecast_zero (s : bool) : list forecast_row :=
  [{| f_ds := 1; f_yhat := S754_zero s;
      f_yhat_lower := F64.of_Z (-1); f_yhat_upper := F64.of_Z 1 |}].
Definition actuals_five : list actual_row := [ar 1 5].

Definition zero_estimate (s : bool) : merged_row :=
  {| m_ds := 1; m_y := F64.of_Z 5; m_yhat_lower := F64.of_Z (-1);
     m_yhat_upper := F64.of_Z 1; m_yhat := S754_zero s |}.

End Sample.

Module SampleMetrics.

(** One pair with an infinite actual value. *)
Definition y_true_inf : list float := [F64.inf].
Definition y_pred_one : list float := [F64.of_Z 1].

(** A zero actual value whose prediction is NaN, next to an ordinary
    pair. *)
Definition y_true_zero_masked : list float := [F64.of_Z 0; F64.of_Z 1].
Definition y_pred_nan : list float := [F64.nan; F64.of_Z 2].

(** A zero actual value with an ordinary prediction. *)
Definition y_true_zero : list float := [F64.of_Z 0; F64.of_Z 1].
Definition y_pred : list float := [F64.of_Z 3; F64.of_Z 2].

(** Every pair holds a NaN. *)
Definition y_true_nan : list float := [F64.nan; F64.of_Z 1].
Definition y_pred_nan' : list float := [F64.of_Z 3; F64.nan].

End SampleMetrics.

Module SampleInsights.

(** Two days of history, one forecast day beyond it, and the anomalies the
    detector finds in that history (one, of High severity). *)
Definition history : list actual_row := Sample.actuals.
Definition forecast : list forecast_row :=
  [Sample.fr 1 10 9 11; Sample.fr 2 12 10 20; Sample.fr 3 30 29 31].
Definition anomalies : list anomaly := detect_anomalies forecast history.

End SampleInsights.

Module SampleFrames.

Local Open Scope string_scope.

(** No string is read as a number. *)
Definition parse_nothing (s : string) : option float := None.

(** A date column, a numeric column with a missing value and a text
    column. *)
Definition sales : DataFrame :=
  {| index := [0; 1; 2];
     columns :=
       [("Date", ObjCol [CStr "2024-01-01"; CStr "2024-01-02"; CStr "2024-01-03"]);
        ("Sales", NumCol [F64.of_Z 3; F64.nan; F64.of_Z 5]);
        ("note", ObjCol [CStr "a"; CNone; CStr "c"])] |}.

Definition sales_normalized : DataFrame :=
  {| index := [0; 2];
     columns :=
       [("ds", ObjCol [CStr "2024-01-01"; CStr "2024-01-03"]);
        ("y", NumCol [F64.of_Z 3; F64.of_Z 5])] |}.

(** A date column and one numeric column whose name is the empty
    string. *)
Definition unnamed_numeric : DataFrame :=
  {| index := [0; 1];
     columns :=
       [("ds", ObjCol [CStr "2024-01-01"; CStr "2024-01-02"]);
        ("", NumCol [F64.of_Z 1; F64.of_Z 2])] |}.

End SampleFrames.

Module SampleNegative.

(** A series below zero: the estimate is -10 within [-12, -8] and the actual
    value is -50, four times the estimate away from it. *)
Definition forecast : list forecast_row := [Sample.fr 1 (-10) (-12) (-8)].
Definition actuals : list actual_row := [Sample.ar 1 (-50)].

Definition plunge : merged_row :=
  {| m_ds := 1; m_y := F64.of_Z (-50); m_yhat_lower := F64.of_Z (-12);
     m_yhat_upper := F64.of_Z (-8); m_yhat := F64.of_Z (-10) |}.

End SampleNegative.

Module SamplePerfect.

(** A forecast that reproduces the history, zero included. *)
Definition y_true : list float := [F64.of_Z 3; F64.of_Z 0; F64.of_Z (-7)].
Definition y_pred : list float := [F64.of_Z 3; F64.of_Z 0; F64.of_Z (-7)].

End SamplePerfect.

Module SampleDuplicates.

Local Open Scope string_scope.


(** No column name looks like a date. *)
Definition no_date : DataFrame :=
  {| index := [0; 1];
     columns :=
       [("day", ObjCol [CStr "2024-01-01"; CStr "2024-01-02"]);
        ("sales", NumCol [F64.of_Z 1; F64.of_Z 2])] |}.

End SampleDuplicates.

Module SampleEdges.

(** The history ends on a zero of either sign; the forecast ends on 5. *)
Definition history_zero (s : bool) : list actual_row :=
  [Sample.ar 1 4; {| a_ds := 2; a_y := S754_zero s |}].
Definition forecast_up : list forecast_row :=
  [Sample.fr 1 4 3 5; Sample.fr 2 1 0 2; Sample.fr 3 5 4 6].


(** The forecast stops with the history. *)
Definition forecast_no_future : list forecast_row :=
  [Sample.fr 1 4 3 5; Sample.fr 2 1 0 2].

End SampleEdges.

(** * Properties *)

Local Close Scope string_scope.

(** ** Order on binary64 values *)

Lemma compare_cont_Eq_antisym (p q : positive) :
  Pos.compare_cont Eq q p = CompOpp (Pos.compare_cont Eq p q).
Proof. exact (Pos.compare_antisym p q). Qed.

(** Swapping the operands of a comparison mirrors its outcome. *)
Lemma SFcompare_antisym (x y : float) (c : comparison) :
  SFcompare x y = Some c -> SFcompare y x = Some (CompOpp c).
Proof.
  destruct x as [sx | sx | | sx mx ex], y as [sy | sy | | sy my ey];
    simpl; try discriminate; intros [= <-]; f_equal;
    try (destruct sx; try destruct sy; reflexivity).
  destruct sx, sy; simpl; try reflexivity;
    rewrite (Z.compare_antisym ex ey);
    destruct (ex ?= ey); simpl; try reflexivity;
    rewrite compare_cont_Eq_antisym;
    destruct (Pos.compare_cont Eq mx my); reflexivity.
Qed.

(** On two values that compare, [x > y] fails exactly when [x <= y]. *)
Lemma gtb_false_iff_leb (x y : float) :
  F64.isnan x = false -> F64.isnan y = false ->
  (F64.gtb x y = false <-> F64.leb x y = true).
Proof.
  intros Hx Hy. unfold F64.gtb, F64.leb, SFltb, SFleb.
  destruct (SFcompare x y) as [c |] eqn:E.
  - rewrite (SFcompare_antisym _ _ _ E).
    destruct c; simpl; split; congruence.
  - destruct x, y; simpl in *; discriminate.
Qed.

Lemma gtb_true_not_nan (x y : float) :
  F64.gtb x y = true -> F64.isnan x = false.
Proof.
  unfold F64.gtb, SFltb. destruct x; try reflexivity.
  destruct y; simpl; discriminate.
Qed.

Lemma leb_true_not_nan (x y : float) :
  F64.leb x y = true -> F64.isnan x = false.
Proof.
  unfold F64.leb, SFleb. destruct x; try reflexivity. simpl. discriminate.
Qed.

(** Two values that are [==] are the same value, or two zeros. *)
Lemma eqb_true_inv (x y : float) :
  F64.eqb x y = true ->
  x = y \/ (F64.is_zero x = true /\ F64.is_zero y = true).
Proof.
  unfold F64.eqb, SFeqb.
  destruct x as [sx | sx | | sx mx ex], y as [sy | sy | | sy my ey];
    simpl; intros H; try discriminate; try (right; split; reflexivity);
    repeat match goal with s : bool |- _ => destruct s end;
    try discriminate; try (left; reflexivity);
    destruct (ex ?= ey) eqn:Ee; try discriminate;
    destruct (Pos.compare_cont Eq mx my) eqn:Em; try discriminate;
    apply Z.compare_eq in Ee; apply Pos.compare_eq in Em; subst;
    left; reflexivity.
Qed.

(** The sign of a zero is invisible to comparisons. *)
Lemma SFcompare_zero_l (s s' : bool) (z : float) :
  SFcompare (S754_zero s) z = SFcompare (S754_zero s') z.
Proof. destruct z; reflexivity. Qed.

Lemma SFcompare_zero_r (s s' : bool) (z : float) :
  SFcompare z (S754_zero s) = SFcompare z (S754_zero s').
Proof. destruct z; reflexivity. Qed.

Lemma eqb_compare_l (x y z : float) :
  F64.eqb x y = true -> SFcompare x z = SFcompare y z.
Proof.
  intros H. destruct (eqb_true_inv _ _ H) as [-> | [Hx Hy]]; [reflexivity |].
  destruct x, y; try discriminate. apply SFcompare_zero_l.
Qed.

Lemma eqb_compare_r (x y z : float) :
  F64.eqb x y = true -> SFcompare z x = SFcompare z y.
Proof.
  intros H. destruct (eqb_true_inv _ _ H) as [-> | [Hx Hy]]; [reflexivity |].
  destruct x, y; try discriminate. apply SFcompare_zero_r.
Qed.

(** [x <= y] excludes [y < x]. *)
Lemma leb_not_gtb (x y : float) : F64.leb x y = true -> F64.ltb y x = false.
Proof.
  unfold F64.leb, F64.ltb, SFleb, SFltb.
  destruct (SFcompare x y) as [c |] eqn:E; [| discriminate].
  rewrite (SFcompare_antisym _ _ _ E). destruct c; simpl; congruence.
Qed.

(** ** Severity classification *)

Lemma classify_severity_High (pct : float) :
  classify_severity pct = High <-> F64.gtb pct (F64.of_Z 20) = true.
Proof.
  unfold classify_severity.
  destruct (F64.gtb pct (F64.of_Z 20)); [tauto |].
  destruct (F64.gtb pct (F64.of_Z 10)); split; discriminate.
Qed.

Lemma of_Z_20 : F64.of_Z 20 = S754_finite false 5629499534213120 (-48).
Proof. reflexivity. Qed.

Lemma of_Z_10 : F64.of_Z 10 = S754_finite false 5629499534213120 (-49).
Proof. reflexivity. Qed.

(** A value above 20 is above 10. *)
Lemma gtb_20_gtb_10 (pct : float) :
  F64.gtb pct (F64.of_Z 20) = true -> F64.gtb pct (F64.of_Z 10) = true.
Proof.
  rewrite of_Z_20, of_Z_10. unfold F64.gtb, SFltb.
  destruct pct as [s | s | | s m e]; cbv beta iota delta [SFcompare];
    try tauto; try (destruct s; tauto).
  destruct s; [discriminate |].
  destruct (-48 ?= e) eqn:E48.
  - apply Z.compare_eq in E48. subst e. simpl. tauto.
  - rewrite Z.compare_lt_iff in E48.
    assert (H : (-49 ?= e) = Lt) by (rewrite Z.compare_lt_iff; lia).
    rewrite H. reflexivity.
  - discriminate.
Qed.

Lemma classify_severity_Medium (pct : float) :
  classify_severity pct = Medium <->
  F64.gtb pct (F64.of_Z 10) = true /\ F64.leb pct (F64.of_Z 20) = true.
Proof.
  unfold classify_severity.
  destruct (F64.gtb pct (F64.of_Z 20)) eqn:E20.
  - split; [discriminate |]. intros [_ H].
    apply gtb_false_iff_leb in H;
      [congruence | eapply gtb_true_not_nan; eassumption | reflexivity].
  - destruct (F64.gtb pct (F64.of_Z 10)) eqn:E10.
    + split; [| reflexivity]. intros _. split; [reflexivity |].
      apply gtb_false_iff_leb;
        [eapply gtb_true_not_nan; eassumption | reflexivity | assumption].
    + split; [discriminate |]. intros [H _]. discriminate.
Qed.

Lemma classify_severity_Low (pct : float) :
  classify_severity pct = Low <->
  F64.leb pct (F64.of_Z 10) = true \/ F64.isnan pct = true.
Proof.
  unfold classify_severity.
  destruct (F64.isnan pct) eqn:En.
  - destruct pct; try discriminate. simpl. tauto.
  - destruct (F64.gtb pct (F64.of_Z 10)) eqn:E10.
    + assert (Hn : F64.leb pct (F64.of_Z 10) <> true).
      { intros H. apply gtb_false_iff_leb in H; [congruence | assumption | reflexivity]. }
      destruct (F64.gtb pct (F64.of_Z 20)); split;
        try discriminate; intros [H | H]; congruence.
    + assert (E20 : F64.gtb pct (F64.of_Z 20) = false).
      { destruct (F64.gtb pct (F64.of_Z 20)) eqn:E; [| reflexivity].
        apply gtb_20_gtb_10 in E. congruence. }
      rewrite E20. split; [| reflexivity]. intros _. left.
      apply gtb_false_iff_leb; [assumption | reflexivity | assumption].
Qed.

(** ** Anomaly detection *)

Lemma in_merge_iff (actuals : list actual_row) (forecast : list forecast_row)
  (r : merged_row) :
  In r (merge actuals forecast) <->
  exists a f, In a actuals /\ In f forecast /\ a_ds a = f_ds f /\
    r = {| m_ds := a_ds a; m_y := a_y a; m_yhat_lower := f_yhat_lower f;
           m_yhat_upper := f_yhat_upper f; m_yhat := f_yhat f |}.
Proof.
  unfold merge. rewrite in_flat_map. split.
  - intros (a & Ha & Hr). apply in_map_iff in Hr. destruct Hr as (f & <- & Hf).
    apply filter_In in Hf. destruct Hf as [Hf He].
    exists a, f. repeat split; try assumption. now apply Z.eqb_eq.
  - intros (a & f & Ha & Hf & He & ->). exists a. split; [assumption |].
    apply in_map_iff. exists f. split; [reflexivity |].
    apply filter_In. split; [assumption | now apply Z.eqb_eq].
Qed.

Lemma anomaly_of_inj (r r' : merged_row) :
  anomaly_of r = anomaly_of r' -> r = r'.
Proof.
  destruct r, r'. unfold anomaly_of. simpl. intros H.
  injection H as -> -> -> -> -> _ _. reflexivity.
Qed.

(** The rows of the result are the flagged rows of the join. *)
Lemma in_detect_anomalies (forecast : list forecast_row)
  (actuals : list actual_row) (r : merged_row) :
  In (anomaly_of r) (detect_anomalies forecast actuals) <->
  In r (merge actuals forecast) /\ is_anomaly r = true.
Proof.
  unfold detect_anomalies. rewrite in_map_iff. split.
  - intros (r' & He & Hr'). apply anomaly_of_inj in He. subst r'.
    now apply filter_In.
  - intros H. exists r. split; [reflexivity | now apply filter_In].
Qed.

Lemma detect_anomalies_inv (forecast : list forecast_row)
  (actuals : list actual_row) (a : anomaly) :
  In a (detect_anomalies forecast actuals) ->
  exists r, In r (merge actuals forecast) /\ is_anomaly r = true /\
            a = anomaly_of r.
Proof.
  unfold detect_anomalies. rewrite in_map_iff.
  intros (r & <- & Hr). apply filter_In in Hr. destruct Hr.
  exists r. auto.
Qed.

(** C1, as amended.  For every anomaly returned by [detect_anomalies], with
    [pct] its severity percentage: the level is High exactly when [pct > 20],
    Medium exactly when [10 < pct <= 20], and Low exactly when [pct <= 10] or
    [pct] is NaN; [pct == 20] gives Medium and [pct == 10] gives Low. *)
Theorem severity_level_thresholds (forecast : list forecast_row)
  (actuals : list actual_row) (a : anomaly) :
  In a (detect_anomalies forecast actuals) ->
  let pct := severity_pct (an_y a) (an_yhat a) in
  (an_severity_level a = High <-> F64.gtb pct (F64.of_Z 20) = true) /\
  (an_severity_level a = Medium <->
     F64.gtb pct (F64.of_Z 10) = true /\ F64.leb pct (F64.of_Z 20) = true) /\
  (an_severity_level a = Low <->
     F64.leb pct (F64.of_Z 10) = true \/ F64.isnan pct = true) /\
  (F64.eqb pct (F64.of_Z 20) = true -> an_severity_level a = Medium) /\
  (F64.eqb pct (F64.of_Z 10) = true -> an_severity_level a = Low).
Proof.
  intros Hin. destruct (detect_anomalies_inv _ _ _ Hin) as (r & _ & _ & ->).
  simpl. split; [apply classify_severity_High |].
  split; [apply classify_severity_Medium |].
  split; [apply classify_severity_Low |].
  split; intros H; apply eqb_true_inv in H;
    destruct H as [-> | [_ H]]; try reflexivity; discriminate.
Qed.

Lemma severity_level_thresholds_witness :
  In (anomaly_of Sample.spike)
     (detect_anomalies Sample.forecast Sample.actuals) /\
  (an_severity_level (anomaly_of Sample.spike) = High <->
   F64.gtb (severity_pct (an_y (anomaly_of Sample.spike))
                         (an_yhat (anomaly_of Sample.spike)))
           (F64.of_Z 20) = true).
Proof.
  assert (Hin : In (anomaly_of Sample.spike)
                   (detect_anomalies Sample.forecast Sample.actuals))
    by (vm_compute; left; reflexivity).
  split; [exact Hin |].
  exact (proj1 (severity_level_thresholds _ _ _ Hin)).
Defined.

(** C1 as stated fails: an anomaly whose estimate is infinite has a NaN
    percentage, which is classified Low although [pct <= 10] is false. *)
Lemma severity_level_thresholds_counterexample :
  ~ (forall forecast actuals a,
       In a (detect_anomalies forecast actuals) ->
       (an_severity_level a = Low <->
        F64.leb (severity_pct (an_y a) (an_yhat a)) (F64.of_Z 10) = true)).
Proof.
  intros H.
  destruct (detect_anomalies Sample.forecast_inf Sample.actuals_below)
    as [| a l] eqn:E; [discriminate E |].
  assert (Hin : In a (detect_anomalies Sample.forecast_inf Sample.actuals_below))
    by (rewrite E; left; reflexivity).
  specialize (H _ _ _ Hin).
  vm_compute in E. injection E as <- _.
  destruct H as [H _]. specialize (H eq_refl). vm_compute in H. discriminate H.
Qed.

(** C2.  A joined point is flagged, and returned as an anomaly, exactly when
    its actual value is below the lower bound or above the upper bound; a
    point whose actual value equals the estimate, the estimate lying within
    its interval as the forecast-point invariant requires, is never flagged,
    whatever the width of the interval. *)
Theorem anomaly_flag_iff (forecast : list forecast_row)
  (actuals : list actual_row) (r : merged_row) :
  In r (merge actuals forecast) ->
  (is_anomaly r = true <->
     F64.ltb (m_y r) (m_yhat_lower r) = true \/
     F64.gtb (m_y r) (m_yhat_upper r) = true) /\
  (In (anomaly_of r) (detect_anomalies forecast actuals) <->
     F64.ltb (m_y r) (m_yhat_lower r) = true \/
     F64.gtb (m_y r) (m_yhat_upper r) = true) /\
  (interval_ok r -> F64.eqb (m_y r) (m_yhat r) = true ->
     is_anomaly r = false /\
     ~ In (anomaly_of r) (detect_anomalies forecast actuals)).
Proof.
  intros Hin.
  assert (Hflag : is_anomaly r = true <->
            F64.ltb (m_y r) (m_yhat_lower r) = true \/
            F64.gtb (m_y r) (m_yhat_upper r) = true)
    by (unfold is_anomaly; apply orb_true_iff).
  split; [exact Hflag |]. split.
  - rewrite in_detect_anomalies. tauto.
  - intros [Hlo Hup] Heq.
    assert (Hno : is_anomaly r = false).
    { unfold is_anomaly, F64.gtb, F64.ltb, SFltb.
      rewrite (eqb_compare_l _ _ _ Heq), (eqb_compare_r _ _ _ Heq).
      apply leb_not_gtb in Hlo. apply leb_not_gtb in Hup.
      unfold F64.ltb, SFltb in Hlo, Hup. rewrite Hlo, Hup. reflexivity. }
    split; [exact Hno |].
    rewrite in_detect_anomalies. intros [_ H]. congruence.
Qed.

Lemma anomaly_flag_iff_witness :
  is_anomaly Sample.on_target = false /\
  ~ In (anomaly_of Sample.on_target)
       (detect_anomalies Sample.forecast Sample.actuals).
Proof.
  apply (anomaly_flag_iff Sample.forecast Sample.actuals Sample.on_target).
  - vm_compute. left. reflexivity.
  - split; vm_compute; reflexivity.
  - vm_compute. reflexivity.
Defined.

(** The invariant is needed: an estimate outside its own interval is flagged
    even when the actual value equals it. *)
Remark equal_to_estimate_outside_interval :
  let r := {| m_ds := 1; m_y := F64.of_Z 5; m_yhat_lower := F64.of_Z 6;
              m_yhat_upper := F64.of_Z 7; m_yhat := F64.of_Z 5 |} in
  F64.eqb (m_y r) (m_yhat r) = true /\ is_anomaly r = true.
Proof. split; reflexivity. Qed.

(** A flagged value is not NaN. *)
Lemma is_anomaly_not_nan (r : merged_row) :
  is_anomaly r = true -> F64.isnan (m_y r) = false.
Proof.
  unfold is_anomaly, F64.gtb, F64.ltb, SFltb.
  destruct (m_y r); try reflexivity.
  destruct (m_yhat_lower r), (m_yhat_upper r); simpl; discriminate.
Qed.

(** C8, as amended.  For every flagged point whose estimate is a zero and
    whose actual value is not, the severity percentage is the infinity that
    has the sign of that zero: an estimate of [+0.0] gives [+inf] and the
    level High, an estimate of [-0.0] gives [-inf] and the level Low. *)
Theorem zero_estimate_severity (forecast : list forecast_row)
  (actuals : list actual_row) (r : merged_row) (s : bool) :
  In r (merge actuals forecast) ->
  is_anomaly r = true ->
  m_yhat r = S754_zero s ->
  F64.is_zero (m_y r) = false ->
  In (anomaly_of r) (detect_anomalies forecast actuals) /\
  severity_pct (m_y r) (m_yhat r) = S754_infinity s /\
  an_severity_level (anomaly_of r) = (if s then Low else High).
Proof.
  intros Hin Hflag Hz Hnz.
  split; [apply in_detect_anomalies; split; assumption |].
  assert (Hpct : severity_pct (m_y r) (m_yhat r) = S754_infinity s).
  { pose proof (is_anomaly_not_nan _ Hflag) as Hnan.
    unfold severity_pct. rewrite Hz.
    destruct (m_y r) as [sy | sy | | sy my ey]; try discriminate;
      destruct s; reflexivity. }
  split; [exact Hpct |].
  unfold anomaly_of. simpl. rewrite Hpct. destruct s; reflexivity.
Qed.

Lemma zero_estimate_severity_witness :
  severity_pct (F64.of_Z 5) F64.zero = F64.inf /\
  an_severity_level (anomaly_of (Sample.zero_estimate false)) = High.
Proof.
  apply (zero_estimate_severity (Sample.forecast_zero false) Sample.actuals_five
           (Sample.zero_estimate false) false).
  - vm_compute. left. reflexivity.
  - vm_compute. reflexivity.
  - reflexivity.
  - vm_compute. reflexivity.
Defined.

(** C8 as stated fails: with an estimate of [-0.0], which is equal to zero,
    the percentage is [-inf] and the level is Low. *)
Lemma zero_estimate_severity_counterexample :
  ~ (forall forecast actuals r,
       In r (merge actuals forecast) ->
       is_anomaly r = true ->
       F64.eqb (m_yhat r) (F64.of_Z 0) = true ->
       F64.eqb (m_y r) (F64.of_Z 0) = false ->
       F64.isinf (severity_pct (m_y r) (m_yhat r)) = true /\
       an_severity_level (anomaly_of r) = High).
Proof.
  intros H.
  destruct (H (Sample.forecast_zero true) Sample.actuals_five
              (Sample.zero_estimate true)) as [_ Hlevel].
  - vm_compute. left. reflexivity.
  - vm_compute. reflexivity.
  - vm_compute. reflexivity.
  - vm_compute. reflexivity.
  - vm_compute in Hlevel. discriminate Hlevel.
Qed.

(** ** Accuracy metrics *)

Lemma select_rows_fst {A B : Type} (g : A -> B -> bool) (a : list A)
  (b : list B) :
  select_rows (zip_with g a b) a =
  map fst (filter (fun p => g (fst p) (snd p)) (combine a b)).
Proof.
  unfold select_rows, zip_with. revert b.
  induction a as [| x a IH]; intros [| y b]; simpl; try reflexivity.
  destruct (g x y); simpl; rewrite IH; reflexivity.
Qed.

Lemma select_rows_snd {A B : Type} (g : A -> B -> bool) (a : list A)
  (b : list B) :
  List.length a = List.length b ->
  select_rows (zip_with g a b) b =
  map snd (filter (fun p => g (fst p) (snd p)) (combine a b)).
Proof.
  unfold select_rows, zip_with. revert b.
  induction a as [| x a IH]; intros [| y b]; simpl; try reflexivity;
    try discriminate.
  intros [= Hlen]. destruct (g x y); simpl; rewrite (IH _ Hlen); reflexivity.
Qed.

Lemma zip_with_map {A B C D : Type} (f : B -> C -> D) (g : A -> B)
  (h : A -> C) (l : list A) :
  zip_with f (map g l) (map h l) = map (fun x => f (g x) (h x)) l.
Proof.
  unfold zip_with. induction l as [| x l IH]; simpl; [reflexivity |].
  rewrite IH. reflexivity.
Qed.

Lemma broadcast_and_aligned {A B : Type} (f : A -> bool) (g : B -> bool)
  (a : list A) (b : list B) :
  List.length a = List.length b ->
  broadcast_and (map f a) (map g b) =
  Some (zip_with (fun x y => f x && g y) a b).
Proof.
  intros Hlen. unfold broadcast_and.
  rewrite !length_map, Hlen, Nat.eqb_refl. f_equal.
  unfold zip_with. clear Hlen. revert b.
  induction a as [| x a IH]; intros [| y b]; simpl; try reflexivity.
  rewrite IH. reflexivity.
Qed.

Lemma zip_with_length {A B C : Type} (f : A -> B -> C) (a : list A)
  (b : list B) :
  List.length a = List.length b ->
  List.length (zip_with f a b) = List.length a.
Proof.
  intros Hlen. unfold zip_with. rewrite length_map, length_combine. lia.
Qed.

Lemma bool_index_aligned {A : Type} (mask : list bool) (a : list A) :
  List.length mask = List.length a ->
  bool_index mask a = Some (select_rows mask a).
Proof.
  intros Hlen. unfold bool_index. rewrite Hlen, Nat.eqb_refl. reflexivity.
Qed.

(** What [calculate_metrics] returns, over the pairs that pass the mask. *)
Lemma calculate_metrics_pairs (y_true y_pred : list float) :
  List.length y_true = List.length y_pred ->
  calculate_metrics y_true y_pred =
  Some
    match valid_pairs y_true y_pred with
    | [] => zero_metrics
    | l =>
        let mape := F64.mul (F64.np_mean (map abs_pct_error l)) (F64.of_Z 100) in
        {| MAE := F64.np_round (F64.np_mean (map abs_error l)) 4;
           RMSE :=
             F64.np_round (F64.sqrt (F64.np_mean (map squared_error l))) 4;
           MAPE :=
             F64.np_round
               (if F64.isinf mape || F64.isnan mape then F64.zero else mape) 2 |}
    end.
Proof.
  intros Hlen. unfold calculate_metrics.
  rewrite (broadcast_and_aligned _ _ _ _ Hlen).
  rewrite !bool_index_aligned
    by (rewrite zip_with_length by exact Hlen; congruence).
  rewrite select_rows_fst, (select_rows_snd _ _ _ Hlen).
  fold valid_pair. fold (valid_pairs y_true y_pred).
  destruct (valid_pairs y_true y_pred) as [| tp l] eqn:E; [reflexivity |].
  rewrite length_map. cbn [List.length Nat.eqb].
  rewrite !zip_with_map, !map_map.
  reflexivity.
Qed.

(** Arrays of different lengths: the mask cannot be formed or does not fit
    the arrays, and the call raises, unless one array is empty and the other
    has a single element; the mask is then empty, selects nothing from
    either array, and the metrics are all [0.0]. *)
Lemma calculate_metrics_mismatch (y_true y_pred : list float) :
  List.length y_true <> List.length y_pred ->
  calculate_metrics y_true y_pred =
  match y_true, y_pred with
  | [], [_] | [_], [] => Some zero_metrics
  | _, _ => None
  end.
Proof.
  intros Hlen. unfold calculate_metrics, broadcast_and, bool_index.
  destruct y_true as [| t [| t' y_true]]; destruct y_pred as [| p [| p' y_pred]];
    try (exfalso; apply Hlen; reflexivity); try reflexivity.
  - cbn [map List.length Nat.eqb]. rewrite !length_map, Nat.eqb_refl.
    reflexivity.
  - cbn [map List.length Nat.eqb]. rewrite !length_map.
    simpl in Hlen.
    destruct (Nat.eqb_spec (List.length y_true) (List.length y_pred));
      [exfalso; apply Hlen; congruence | reflexivity].
Qed.

(** Whatever [calculate_metrics] returns is the metrics of the retained
    pairs. *)
Lemma calculate_metrics_some (y_true y_pred : list float) (m : metrics) :
  calculate_metrics y_true y_pred = Some m ->
  m = match valid_pairs y_true y_pred with
      | [] => zero_metrics
      | l =>
          let mape :=
            F64.mul (F64.np_mean (map abs_pct_error l)) (F64.of_Z 100) in
          {| MAE := F64.np_round (F64.np_mean (map abs_error l)) 4;
             RMSE :=
               F64.np_round (F64.sqrt (F64.np_mean (map squared_error l))) 4;
             MAPE :=
               F64.np_round
                 (if F64.isinf mape || F64.isnan mape then F64.zero else mape)
                 2 |}
      end.
Proof.
  destruct (Nat.eq_dec (List.length y_true) (List.length y_pred)) as [E | E].
  - rewrite (calculate_metrics_pairs _ _ E). now intros [= <-].
  - rewrite (calculate_metrics_mismatch _ _ E).
    destruct y_true as [| t [| t' y_true]];
      destruct y_pred as [| p [| p' y_pred]];
      try discriminate; now intros [= <-].
Qed.

(** C4, as amended.  Exactly the pairs with a NaN on either side are left
    out, so that a pair with an infinite value stays, and the three metrics
    are those of the remaining pairs: the mean of their absolute errors
    rounded to four places, the root of the mean of their squared errors
    rounded to four places, and a hundred times the mean of their absolute
    relative errors, replaced by [0.0] when infinite or NaN, rounded to two
    places.  When no pair remains the three metrics are [0.0]. *)
Theorem nan_pairs_excluded (y_true y_pred : list float) :
  List.length y_true = List.length y_pred ->
  let retained :=
    filter (fun tp => negb (F64.isnan (fst tp)) && negb (F64.isnan (snd tp)))
           (combine y_true y_pred) in
  calculate_metrics y_true y_pred =
  Some
    match retained with
    | [] => {| MAE := F64.zero; RMSE := F64.zero; MAPE := F64.zero |}
    | _ :: _ =>
        let error := fun tp : float * float => F64.sub (fst tp) (snd tp) in
        let mae := F64.np_mean (map (fun tp => F64.abs (error tp)) retained) in
        let mse :=
          F64.np_mean (map (fun tp => F64.mul (error tp) (error tp)) retained) in
        let mape :=
          F64.mul
            (F64.np_mean
               (map (fun tp => F64.abs (F64.div (error tp) (fst tp))) retained))
            (F64.of_Z 100) in
        {| MAE := F64.np_round mae 4;
           RMSE := F64.np_round (F64.sqrt mse) 4;
           MAPE :=
             F64.np_round
               (if F64.isinf mape || F64.isnan mape then F64.zero else mape) 2 |}
    end.
Proof.
  intros Hlen. cbv zeta. rewrite (calculate_metrics_pairs _ _ Hlen).
  unfold valid_pairs, valid_pair.
  destruct (filter _ (combine y_true y_pred)); reflexivity.
Qed.

Lemma nan_pairs_excluded_witness :
  calculate_metrics SampleMetrics.y_true_nan SampleMetrics.y_pred_nan' =
    Some {| MAE := F64.zero; RMSE := F64.zero; MAPE := F64.zero |} /\
  calculate_metrics SampleMetrics.y_true_inf SampleMetrics.y_pred_one =
    Some {| MAE := F64.inf; RMSE := F64.inf; MAPE := F64.zero |}.
Proof.
  split.
  - exact (nan_pairs_excluded SampleMetrics.y_true_nan
             SampleMetrics.y_pred_nan' eq_refl).
  - exact (nan_pairs_excluded SampleMetrics.y_true_inf
             SampleMetrics.y_pred_one eq_refl).
Defined.

(** C4 as stated fails: an infinite value is not finite, yet its pair is
    kept, and the metrics of a lone such pair are not [0.0]. *)
Lemma nan_pairs_excluded_counterexample :
  ~ (forall y_true y_pred,
       List.length y_true = List.length y_pred ->
       Forall (fun tp => F64.is_finite (fst tp) = false \/
                         F64.is_finite (snd tp) = false)
              (combine y_true y_pred) ->
       calculate_metrics y_true y_pred = Some zero_metrics).
Proof.
  intros H.
  specialize (H SampleMetrics.y_true_inf SampleMetrics.y_pred_one eq_refl).
  assert (Hall : Forall (fun tp => F64.is_finite (fst tp) = false \/
                                   F64.is_finite (snd tp) = false)
                   (combine SampleMetrics.y_true_inf SampleMetrics.y_pred_one)).
  { repeat constructor. }
  specialize (H Hall). vm_compute in H. discriminate H.
Qed.

(** *** Pairwise summation *)

Lemma unrolled_sum_short (r0 r1 r2 r3 r4 r5 r6 r7 : float) (a : list float) :
  (List.length a < 8)%nat ->
  F64.unrolled_sum r0 r1 r2 r3 r4 r5 r6 r7 a =
  fold_left F64.add a
    (F64.add (F64.add (F64.add r0 r1) (F64.add r2 r3))
             (F64.add (F64.add r4 r5) (F64.add r6 r7))).
Proof.
  intros H. do 8 (destruct a as [| ? a]; [reflexivity |]). simpl in H. lia.
Qed.

Lemma pairwise_sum_short (depth : nat) (a : list float) :
  (List.length a < 8)%nat ->
  F64.pairwise_sum depth a = fold_left F64.add a F64.zero.
Proof.
  intros H. destruct depth;
    do 8 (destruct a as [| ? a]; [reflexivity |]); simpl in H; lia.
Qed.

Lemma pairwise_sum_block (depth : nat) (a0 a1 a2 a3 a4 a5 a6 a7 : float)
  (a' : list float) :
  (List.length a' + 8 <= F64.pw_blocksize)%nat ->
  F64.pairwise_sum depth (a0 :: a1 :: a2 :: a3 :: a4 :: a5 :: a6 :: a7 :: a') =
  F64.unrolled_sum a0 a1 a2 a3 a4 a5 a6 a7 a'.
Proof.
  intros H.
  assert (E : Nat.leb
                (List.length (a0 :: a1 :: a2 :: a3 :: a4 :: a5 :: a6 :: a7 :: a'))
                F64.pw_blocksize = true)
    by (apply Nat.leb_le; simpl List.length; lia).
  destruct depth; cbn [F64.pairwise_sum]; rewrite E; reflexivity.
Qed.

Lemma pairwise_sum_bottom (a0 a1 a2 a3 a4 a5 a6 a7 : float) (a' : list float) :
  F64.pairwise_sum 0 (a0 :: a1 :: a2 :: a3 :: a4 :: a5 :: a6 :: a7 :: a') =
  F64.unrolled_sum a0 a1 a2 a3 a4 a5 a6 a7 a'.
Proof.
  cbn [F64.pairwise_sum]. destruct (Nat.leb _ _); reflexivity.
Qed.

Lemma pairwise_sum_cut (depth : nat) (a : list float) :
  (F64.pw_blocksize < List.length a)%nat ->
  F64.pairwise_sum (S depth) a =
  F64.add
    (F64.pairwise_sum depth (firstn (F64.pw_split (List.length a)) a))
    (F64.pairwise_sum depth (skipn (F64.pw_split (List.length a)) a)).
Proof.
  intros H.
  assert (E : Nat.leb (List.length a) F64.pw_blocksize = false)
    by (apply Nat.leb_gt; exact H).
  do 8 (destruct a as [| ? a];
        [simpl in H; unfold F64.pw_blocksize in H; lia |]).
  cbn [F64.pairwise_sum]. rewrite E. reflexivity.
Qed.

(** An array is either shorter than eight terms or starts with eight. *)
Lemma list_eight {A : Type} (a : list A) :
  (List.length a < 8)%nat \/
  exists a0 a1 a2 a3 a4 a5 a6 a7 a',
    a = a0 :: a1 :: a2 :: a3 :: a4 :: a5 :: a6 :: a7 :: a'.
Proof.
  do 8 (destruct a as [| ? a]; [left; simpl; lia |]).
  right. repeat eexists.
Qed.

Lemma list_ind8 {A : Type} (P : list A -> Prop) :
  (forall a, (List.length a < 8)%nat -> P a) ->
  (forall a0 a1 a2 a3 a4 a5 a6 a7 a',
      P a' -> P (a0 :: a1 :: a2 :: a3 :: a4 :: a5 :: a6 :: a7 :: a')) ->
  forall a, P a.
Proof.
  intros Hshort Hstep a.
  assert (H : forall n a, (List.length a <= n)%nat -> P a).
  { induction n as [| n IH]; intros l Hl.
    - apply Hshort. lia.
    - destruct (list_eight l) as [Hs | (a0 & a1 & a2 & a3 & a4 & a5 & a6 & a7
                                          & a' & ->)].
      + apply Hshort, Hs.
      + apply Hstep, IH. simpl in Hl. lia. }
  apply (H (List.length a)). lia.
Qed.

Lemma pw_split_bounds (n : nat) :
  (F64.pw_blocksize < n)%nat ->
  (0 < F64.pw_split n /\ F64.pw_split n < n)%nat.
Proof.
  unfold F64.pw_blocksize, F64.pw_split. intros H.
  assert (H1 : (64 <= n / 2)%nat) by (apply Nat.div_le_lower_bound; lia).
  assert (H2 : (n / 2 < n)%nat) by (apply Nat.div_lt; lia).
  assert (H3 : ((n / 2) mod 8 < 8)%nat) by (apply Nat.mod_upper_bound; lia).
  lia.
Qed.

(** The depth given to [pairwise_sum] is immaterial once it reaches the
    length of the array: the cuts never run out. *)
Lemma pairwise_sum_depth (d d' : nat) (a : list float) :
  (List.length a <= d)%nat -> (List.length a <= d')%nat ->
  F64.pairwise_sum d a = F64.pairwise_sum d' a.
Proof.
  revert d' a. induction d as [| d IH]; intros d' a Hd Hd'.
  - destruct a; [| simpl in Hd; lia].
    rewrite !pairwise_sum_short by (simpl; lia). reflexivity.
  - destruct (list_eight a) as [Hs | (a0 & a1 & a2 & a3 & a4 & a5 & a6 & a7
                                        & a' & E)].
    + rewrite !pairwise_sum_short by exact Hs. reflexivity.
    + destruct (le_lt_dec (List.length a) F64.pw_blocksize) as [Hb | Hb].
      * subst a. simpl List.length in Hb.
        rewrite !pairwise_sum_block by lia. reflexivity.
      * destruct d' as [| d'];
          [unfold F64.pw_blocksize in Hb; lia |].
        rewrite !pairwise_sum_cut by exact Hb.
        destruct (pw_split_bounds _ Hb) as [H0 Hn].
        f_equal; apply IH;
          rewrite ?length_firstn, ?length_skipn; lia.
Qed.

(** The sum of a long array is the sum of its two parts, each summed as an
    array of its own. *)
Lemma pairwise_sum_eq (a : list float) :
  (F64.pw_blocksize < List.length a)%nat ->
  let head := firstn (F64.pw_split (List.length a)) a in
  let tail := skipn (F64.pw_split (List.length a)) a in
  F64.pairwise_sum (List.length a) a =
  F64.add (F64.pairwise_sum (List.length head) head)
          (F64.pairwise_sum (List.length tail) tail).
Proof.
  intros Hb head tail. unfold head, tail.
  rewrite (pairwise_sum_depth (List.length a) (S (List.length a)) a) by lia.
  rewrite pairwise_sum_cut by exact Hb.
  destruct (pw_split_bounds _ Hb) as [H0 Hn].
  f_equal; apply pairwise_sum_depth;
    rewrite ?length_firstn, ?length_skipn; lia.
Qed.

Section SumClosed.

(** A property of [0.0] that additions keep is a property of every sum of
    terms that have it. *)
Variable P : float -> Prop.
Hypothesis P_zero : P F64.zero.
Hypothesis P_add : forall x y, P x -> P y -> P (F64.add x y).

Lemma fold_add_closed (l : list float) (acc : float) :
  P acc -> Forall P l -> P (fold_left F64.add l acc).
Proof.
  revert acc. induction l as [| x l IH]; intros acc Hacc Hl; simpl.
  - exact Hacc.
  - inversion Hl; subst. apply IH; auto.
Qed.

Lemma unrolled_sum_closed (a : list float) :
  forall r0 r1 r2 r3 r4 r5 r6 r7,
    P r0 -> P r1 -> P r2 -> P r3 -> P r4 -> P r5 -> P r6 -> P r7 ->
    Forall P a ->
    P (F64.unrolled_sum r0 r1 r2 r3 r4 r5 r6 r7 a).
Proof.
  induction a as [a Hs | a0 a1 a2 a3 a4 a5 a6 a7 a' IH] using list_ind8;
    intros r0 r1 r2 r3 r4 r5 r6 r7 H0 H1 H2 H3 H4 H5 H6 H7 Ha.
  - rewrite unrolled_sum_short by exact Hs.
    apply fold_add_closed; auto.
  - repeat match goal with
           | H : Forall P (_ :: _) |- _ => inversion H; clear H; subst
           end.
    change (P (F64.unrolled_sum
                 (F64.add r0 a0) (F64.add r1 a1) (F64.add r2 a2)
                 (F64.add r3 a3) (F64.add r4 a4) (F64.add r5 a5)
                 (F64.add r6 a6) (F64.add r7 a7) a')).
    apply IH; auto.
Qed.

Lemma pairwise_sum_closed (depth : nat) (a : list float) :
  Forall P a -> P (F64.pairwise_sum depth a).
Proof.
  revert a. induction depth as [| depth IH]; intros a Ha;
    destruct (list_eight a) as [Hs | (a0 & a1 & a2 & a3 & a4 & a5 & a6 & a7
                                        & a' & E)];
    try (rewrite pairwise_sum_short by exact Hs;
         apply fold_add_closed; assumption).
  - subst a. rewrite pairwise_sum_bottom.
    repeat match goal with
           | H : Forall P (_ :: _) |- _ => inversion H; clear H; subst
           end.
    apply unrolled_sum_closed; assumption.
  - destruct (le_lt_dec (List.length a) F64.pw_blocksize) as [Hb | Hb].
    + subst a. simpl List.length in Hb.
      rewrite pairwise_sum_block by lia.
      repeat match goal with
             | H : Forall P (_ :: _) |- _ => inversion H; clear H; subst
             end.
      apply unrolled_sum_closed; assumption.
    + rewrite pairwise_sum_cut by exact Hb.
      rewrite <- (firstn_skipn (F64.pw_split (List.length a)) a) in Ha.
      apply Forall_app in Ha. destruct Ha as [Hh Ht].
      apply P_add; apply IH; assumption.
Qed.

Lemma np_sum_closed (a : list float) : Forall P a -> P (F64.np_sum a).
Proof.
  intros Ha. unfold F64.np_sum. apply P_add; [exact P_zero |].
  apply pairwise_sum_closed, Ha.
Qed.

End SumClosed.

Section SumAbsorbing.

(** A property that an addition has as soon as one of its operands has it
    is a property of every sum with such a term. *)
Variable Q : float -> Prop.
Hypothesis Q_add_l : forall x y, Q x -> Q (F64.add x y).
Hypothesis Q_add_r : forall x y, Q y -> Q (F64.add x y).

Lemma fold_add_absorbing (l : list float) (acc : float) :
  Q acc \/ Exists Q l -> Q (fold_left F64.add l acc).
Proof.
  revert acc. induction l as [| x l IH]; intros acc [H | H]; simpl.
  - exact H.
  - inversion H.
  - apply IH. left. now apply Q_add_l.
  - apply IH. inversion H as [? ? Hx | ? ? Hl]; subst.
    + left. now apply Q_add_r.
    + right. exact Hl.
Qed.

Lemma unrolled_sum_absorbing (a : list float) :
  forall r0 r1 r2 r3 r4 r5 r6 r7,
    Exists Q [r0; r1; r2; r3; r4; r5; r6; r7] \/ Exists Q a ->
    Q (F64.unrolled_sum r0 r1 r2 r3 r4 r5 r6 r7 a).
Proof.
  induction a as [a Hs | a0 a1 a2 a3 a4 a5 a6 a7 a' IH] using list_ind8;
    intros r0 r1 r2 r3 r4 r5 r6 r7 H.
  - rewrite unrolled_sum_short by exact Hs.
    apply fold_add_absorbing. destruct H as [H | H]; [left | right; exact H].
    repeat match goal with
           | H : Exists Q (_ :: _) |- _ => inversion H; clear H; subst
           | H : Exists Q [] |- _ => inversion H
           end; auto 6.
  - change (Q (F64.unrolled_sum
                 (F64.add r0 a0) (F64.add r1 a1) (F64.add r2 a2)
                 (F64.add r3 a3) (F64.add r4 a4) (F64.add r5 a5)
                 (F64.add r6 a6) (F64.add r7 a7) a')).
    apply IH. destruct H as [H | H].
    + left.
      repeat match goal with
             | H : Exists Q (_ :: _) |- _ => inversion H; clear H; subst
             | H : Exists Q [] |- _ => inversion H
             end;
        repeat first [apply Exists_cons_hd; apply Q_add_l; assumption
                     | apply Exists_cons_tl].
    + do 8 (inversion H as [? ? Hx | ? ? Ht]; clear H; subst;
            [left;
             repeat first [apply Exists_cons_hd; apply Q_add_r; assumption
                          | apply Exists_cons_tl]
            | rename Ht into H]).
      right. exact H.
Qed.

Lemma pairwise_sum_absorbing (depth : nat) (a : list float) :
  Exists Q a -> Q (F64.pairwise_sum depth a).
Proof.
  revert a. induction depth as [| depth IH]; intros a Ha;
    destruct (list_eight a) as [Hs | (a0 & a1 & a2 & a3 & a4 & a5 & a6 & a7
                                        & a' & E)];
    try (rewrite pairwise_sum_short by exact Hs;
         apply fold_add_absorbing; right; assumption).
  - subst a. rewrite pairwise_sum_bottom.
    apply unrolled_sum_absorbing.
    change (a0 :: a1 :: a2 :: a3 :: a4 :: a5 :: a6 :: a7 :: a')
      with ([a0; a1; a2; a3; a4; a5; a6; a7] ++ a')%list in Ha.
    apply Exists_app in Ha. exact Ha.
  - destruct (le_lt_dec (List.length a) F64.pw_blocksize) as [Hb | Hb].
    + subst a. simpl List.length in Hb.
      rewrite pairwise_sum_block by lia.
      apply unrolled_sum_absorbing.
      change (a0 :: a1 :: a2 :: a3 :: a4 :: a5 :: a6 :: a7 :: a')
        with ([a0; a1; a2; a3; a4; a5; a6; a7] ++ a')%list in Ha.
      apply Exists_app in Ha. exact Ha.
    + rewrite pairwise_sum_cut by exact Hb.
      rewrite <- (firstn_skipn (F64.pw_split (List.length a)) a) in Ha.
      apply Exists_app in Ha. destruct Ha as [Hh | Ht].
      * apply Q_add_l, IH, Hh.
      * apply Q_add_r, IH, Ht.
Qed.

Lemma np_sum_absorbing (a : list float) : Exists Q a -> Q (F64.np_sum a).
Proof.
  intros Ha. unfold F64.np_sum. apply Q_add_r.
  apply pairwise_sum_absorbing, Ha.
Qed.

End SumAbsorbing.

(** *** Non-finite values spread through the mean *)

Lemma add_not_finite_l (x y : float) :
  F64.is_finite x = false -> F64.is_finite (F64.add x y) = false.
Proof.
  destruct x as [sx | sx | | sx mx ex]; try discriminate; intros _;
    destruct y as [sy | sy | | sy my ey]; try reflexivity;
    destruct sx, sy; reflexivity.
Qed.

Lemma add_not_finite_r (x y : float) :
  F64.is_finite y = false -> F64.is_finite (F64.add x y) = false.
Proof.
  destruct y as [sy | sy | | sy my ey]; try discriminate; intros _;
    destruct x as [sx | sx | | sx mx ex]; try reflexivity;
    destruct sx, sy; reflexivity.
Qed.

Lemma div_not_finite (x d : float) :
  F64.is_finite x = false -> F64.is_finite (F64.div x d) = false.
Proof.
  destruct x as [sx | sx | | sx mx ex]; try discriminate; intros _;
    destruct d; reflexivity.
Qed.

Lemma mul_not_finite (x c : float) :
  F64.is_finite x = false -> F64.is_finite (F64.mul x c) = false.
Proof.
  destruct x as [sx | sx | | sx mx ex]; try discriminate; intros _;
    destruct c; reflexivity.
Qed.

Lemma np_mean_not_finite (l : list float) :
  Exists (fun x => F64.is_finite x = false) l ->
  F64.is_finite (F64.np_mean l) = false.
Proof.
  intros H. unfold F64.np_mean. apply div_not_finite.
  apply (np_sum_absorbing (fun x => F64.is_finite x = false));
    [exact add_not_finite_l | exact add_not_finite_r | exact H].
Qed.

(** The percentage error of a pair whose actual value is zero is infinite,
    or NaN when the prediction is zero as well. *)
Lemma abs_pct_error_zero (tp : float * float) :
  F64.is_zero (fst tp) = true -> F64.isnan (snd tp) = false ->
  F64.is_finite (abs_pct_error tp) = false.
Proof.
  destruct tp as [t p]. simpl. unfold abs_pct_error. simpl.
  destruct t as [st | | |]; try discriminate. intros _.
  destruct p as [sp | sp | | sp mp ep]; try discriminate; intros _;
    destruct st; try destruct sp; reflexivity.
Qed.

Lemma not_finite_guard (x : float) :
  F64.is_finite x = false -> F64.isinf x || F64.isnan x = true.
Proof. destruct x; try discriminate; reflexivity. Qed.

(** C5, as amended.  Whenever the mean absolute percentage error over the
    retained pairs is not finite, and in particular whenever a retained pair
    (one whose prediction is not NaN) has an actual value equal to zero, the
    returned MAPE is exactly [0.0]; MAE and RMSE are the rounded mean absolute
    error and root mean squared error of the retained pairs all the same. *)
Theorem mape_guard (y_true y_pred : list float) :
  List.length y_true = List.length y_pred ->
  exists m,
    calculate_metrics y_true y_pred = Some m /\
    let l := valid_pairs y_true y_pred in
    (F64.is_finite (F64.np_mean (map abs_pct_error l)) = false ->
     MAPE m = F64.zero) /\
    ((exists t p, In (t, p) (combine y_true y_pred) /\
                  F64.is_zero t = true /\ F64.isnan p = false) ->
     MAPE m = F64.zero) /\
    (l <> [] ->
     MAE m = F64.np_round (F64.np_mean (map abs_error l)) 4 /\
     RMSE m = F64.np_round (F64.sqrt (F64.np_mean (map squared_error l))) 4).
Proof.
  intros Hlen. rewrite (calculate_metrics_pairs _ _ Hlen).
  eexists. split; [reflexivity |]. cbv zeta.
  assert (Hguard :
    F64.is_finite (F64.np_mean (map abs_pct_error (valid_pairs y_true y_pred)))
      = false ->
    MAPE match valid_pairs y_true y_pred with
         | [] => zero_metrics
         | l =>
             let mape :=
               F64.mul (F64.np_mean (map abs_pct_error l)) (F64.of_Z 100) in
             {| MAE := F64.np_round (F64.np_mean (map abs_error l)) 4;
                RMSE :=
                  F64.np_round (F64.sqrt (F64.np_mean (map squared_error l))) 4;
                MAPE :=
                  F64.np_round
                    (if F64.isinf mape || F64.isnan mape then F64.zero else mape)
                    2 |}
         end = F64.zero).
  { intros Hnf. destruct (valid_pairs y_true y_pred) as [| tp l]; [reflexivity |].
    cbv zeta. cbn [MAPE].
    rewrite (not_finite_guard _ (mul_not_finite _ (F64.of_Z 100) Hnf)).
    reflexivity. }
  split; [exact Hguard |]. split.
  - intros (t & p & Hin & Hz & Hp). apply Hguard.
    apply np_mean_not_finite, Exists_exists.
    exists (abs_pct_error (t, p)). split.
    + apply in_map. unfold valid_pairs. apply filter_In. split; [exact Hin |].
      unfold valid_pair. simpl. rewrite Hp.
      destruct t; try discriminate; reflexivity.
    + apply abs_pct_error_zero; assumption.
  - intros Hne. destruct (valid_pairs y_true y_pred); [congruence |].
    split; reflexivity.
Qed.

Lemma mape_guard_witness :
  exists m,
    calculate_metrics SampleMetrics.y_true_zero SampleMetrics.y_pred = Some m /\
    MAPE m = F64.zero.
Proof.
  destruct (mape_guard SampleMetrics.y_true_zero SampleMetrics.y_pred eq_refl)
    as (m & Hm & _ & Hzero & _).
  exists m. split; [exact Hm |].
  apply Hzero. exists (F64.of_Z 0), (F64.of_Z 3).
  split; [left; reflexivity | split; reflexivity].
Defined.

(** C5 as stated fails: a zero actual value whose prediction is NaN is
    masked out with its pair, and the MAPE of the remaining pairs is returned
    (here 100.0). *)
Lemma mape_guard_counterexample :
  ~ (forall y_true y_pred m,
       calculate_metrics y_true y_pred = Some m ->
       Exists (fun t => F64.eqb t (F64.of_Z 0) = true) y_true ->
       MAPE m = F64.zero).
Proof.
  intros H.
  specialize (H SampleMetrics.y_true_zero_masked SampleMetrics.y_pred_nan
                _ eq_refl).
  assert (Hz : Exists (fun t => F64.eqb t (F64.of_Z 0) = true)
                 SampleMetrics.y_true_zero_masked)
    by (left; reflexivity).
  specialize (H Hz). vm_compute in H. discriminate H.
Qed.

(** ** Insight generation *)

Lemma anomaly_rule_app (anomalies : list anomaly) (o : output) :
  anomaly_rule anomalies o =
  (fst o ++ fst (summary_part anomalies), snd o ++ snd (summary_part anomalies)).
Proof.
  unfold summary_part, anomaly_rule, emit_insight, emit_recommendation.
  destruct o as [ins recs]. destruct anomalies as [| a l]; simpl.
  - rewrite app_nil_r. reflexivity.
  - destruct (is_high a); simpl.
    + rewrite <- app_assoc. reflexivity.
    + destruct (filter is_high l); simpl.
      * rewrite app_nil_r. reflexivity.
      * rewrite <- app_assoc. reflexivity.
Qed.

(** Rule 3 emits the critical-volatility insight, if any, and then exactly
    one summary insight. *)
Lemma summary_part_cases (anomalies : list anomaly) :
  (anomalies = [] /\ summary_part anomalies = ([OperationalStability], [])) \/
  (anomalies <> [] /\ filter is_high anomalies = [] /\
   summary_part anomalies =
     ([StatisticalStability (List.length anomalies)], [])) \/
  (filter is_high anomalies <> [] /\
   summary_part anomalies =
     ([CriticalVolatility (List.length (filter is_high anomalies));
       StatisticalStability (List.length anomalies)], [RiskMitigation])).
Proof.
  unfold summary_part, anomaly_rule, emit_insight, emit_recommendation.
  destruct anomalies as [| a l]; [left; split; reflexivity |].
  right. destruct (filter is_high (a :: l)) eqn:E.
  - left. repeat split. discriminate.
  - right. split; [discriminate | reflexivity].
Qed.

Lemma trend_rule_shape (forecast : list forecast_row)
  (history : list actual_row) (o o' : output) :
  trend_rule forecast history o = Some o' ->
  exists trend trend_rec,
    is_trend trend = true /\ is_trend_recommendation trend_rec = true /\
    o' = (fst o ++ [trend], snd o ++ [trend_rec]).
Proof.
  unfold trend_rule.
  destruct (iloc_last history) as [h |]; [| discriminate].
  destruct (iloc_last forecast) as [f |]; [| discriminate].
  cbv zeta.
  match goal with
  | |- context [F64.gtb ?x (F64.of_Z 0)] => destruct (F64.gtb x (F64.of_Z 0))
  end;
  match goal with
  | |- context [F64.gtb ?x (F64.of_Z 10)] => destruct (F64.gtb x (F64.of_Z 10))
  end;
  intros [= <-]; do 2 eexists; (split; [| split; [| reflexivity]]); reflexivity.
Qed.

Lemma peak_rule_shape (forecast : list forecast_row)
  (history : list actual_row) (o o' : output) :
  peak_rule forecast history o = Some o' ->
  exists peak : option forecast_row,
    o' = (fst o ++ match peak with
                   | Some p => [ForecastPeak (f_yhat p) (f_ds p)]
                   | None => []
                   end,
          snd o ++ match peak with
                   | Some p => [PeakReadiness (f_ds p)]
                   | None => []
                   end).
Proof.
  unfold peak_rule.
  destruct (map a_ds history) as [| d ds]; [discriminate |].
  destruct (filter _ forecast) as [| f0 ff].
  - intros [= <-]. exists None. rewrite !app_nil_r. now destruct o.
  - destruct (idxmax None (f0 :: ff)) as [p |]; [| discriminate].
    intros [= <-]. exists (Some p). reflexivity.
Qed.

Lemma confidence_rule_shape (forecast : list forecast_row) (o o' : output) :
  confidence_rule forecast o = Some o' ->
  exists narrow : bool,
    o' = (fst o ++ [if narrow then HighConfidence else VariableForecast],
          snd o ++ (if narrow then [] else [DataRefinement])).
Proof.
  unfold confidence_rule.
  destruct (iloc_last forecast) as [last_point |]; [| discriminate].
  cbv zeta. destruct (F64.ltb _ (F64.of_Z 15)); intros [= <-].
  - exists true. unfold emit_insight. simpl. rewrite app_nil_r. reflexivity.
  - exists false. reflexivity.
Qed.

(** The two lists a successful run returns: rule 1, then rule 2 when there
    is a forecast beyond the history, then rule 3, then rule 4. *)
Lemma generate_insights_shape (forecast : list forecast_row)
  (anomalies : list anomaly) (history : list actual_row) (o : output) :
  generate_insights forecast anomalies history = Some o ->
  exists (trend : insight) (trend_rec : recommendation)
         (peak : option forecast_row) (narrow : bool),
    is_trend trend = true /\ is_trend_recommendation trend_rec = true /\
    fst o =
      [trend]
      ++ match peak with
         | Some p => [ForecastPeak (f_yhat p) (f_ds p)]
         | None => []
         end
      ++ fst (summary_part anomalies)
      ++ [if narrow then HighConfidence else VariableForecast] /\
    snd o =
      [trend_rec]
      ++ match peak with Some p => [PeakReadiness (f_ds p)] | None => [] end
      ++ snd (summary_part anomalies)
      ++ (if narrow then [] else [DataRefinement]).
Proof.
  unfold generate_insights, option_bind.
  destruct (trend_rule forecast history ([], [])) as [o1 |] eqn:E1;
    [| discriminate].
  destruct (peak_rule forecast history o1) as [o2 |] eqn:E2; [| discriminate].
  rewrite anomaly_rule_app. intros E4.
  apply trend_rule_shape in E1. destruct E1 as (trend & trend_rec & Ht & Hr & ->).
  apply peak_rule_shape in E2. destruct E2 as (peak & ->).
  apply confidence_rule_shape in E4. destruct E4 as (narrow & ->).
  exists trend, trend_rec, peak, narrow. simpl.
  rewrite <- !app_assoc. repeat split; assumption.
Qed.

Lemma existsb_is_high_filter (anomalies : list anomaly) :
  existsb is_high anomalies = true <-> filter is_high anomalies <> [].
Proof.
  induction anomalies as [| a l IH]; simpl.
  - split; [discriminate | congruence].
  - destruct (is_high a); simpl; [split; [discriminate | reflexivity] |].
    exact IH.
Qed.

(** Case analysis on a position of a list of at most five elements. *)
Ltac by_position n :=
  destruct n as [| [| [| [| [| n]]]]]; simpl in *;
  try discriminate; try (destruct n; discriminate).

(** C3.  In every run that returns, the insight at index 0 is the trend
    insight; the insights come in the order trend, peak (if any), anomaly
    summary, confidence; a critical-volatility insight is emitted exactly
    when some anomaly is of High severity, and it then stands strictly after
    the trend insight and strictly after the peak insight. *)
Theorem insight_order (forecast : list forecast_row)
  (anomalies : list anomaly) (history : list actual_row) (o : output) :
  generate_insights forecast anomalies history = Some o ->
  (exists trend, nth_error (fst o) 0 = Some trend /\ is_trend trend = true) /\
  (exists trend peak critical summary confidence,
      fst o = [trend] ++ peak ++ critical ++ [summary] ++ [confidence] /\
      is_trend trend = true /\
      (peak = [] \/ exists p, peak = [p] /\ is_peak p = true) /\
      (critical = [] \/ exists c, critical = [c] /\ is_critical c = true) /\
      is_anomaly_summary summary = true /\
      is_confidence confidence = true) /\
  ((exists c, In c (fst o) /\ is_critical c = true) <->
   existsb is_high anomalies = true) /\
  (forall i c,
      nth_error (fst o) i = Some c -> is_critical c = true ->
      (0 < i)%nat /\
      forall j x,
        nth_error (fst o) j = Some x ->
        is_trend x || is_peak x = true -> (j < i)%nat).
Proof.
  intros Hrun.
  destruct (generate_insights_shape _ _ _ _ Hrun)
    as (trend & trend_rec & peak & narrow & Ht & _ & Hfst & _).
  rewrite existsb_is_high_filter.
  destruct trend; try discriminate Ht.
  assert (Hconf : is_confidence
                    (if narrow then HighConfidence else VariableForecast) = true)
    by (destruct narrow; reflexivity).
  destruct (summary_part_cases anomalies)
    as [[Ha Hs] | [(Ha & Hh & Hs) | [Hh Hs]]];
    rewrite Hs in Hfst; simpl in Hfst; rewrite Hfst; clear Hfst Hs.
  - (* no anomaly *)
    split; [eexists; split; reflexivity |]. split; [| split].
    + exists (TrendInsight i d abs_trend_pct),
        (match peak with
         | Some p => [ForecastPeak (f_yhat p) (f_ds p)]
         | None => []
         end), [], OperationalStability,
        (if narrow then HighConfidence else VariableForecast).
      repeat split; auto.
      destruct peak; [right; eexists; split; reflexivity | left; reflexivity].
    + subst anomalies. simpl. split; [| congruence].
      intros (c & Hin & Hc).
      destruct peak, narrow; simpl in Hin;
        repeat (destruct Hin as [<- | Hin]; [discriminate Hc |]);
        contradiction.
    + intros n c Hn Hc.
      destruct peak, narrow; by_position n;
        injection Hn as <-; discriminate Hc.
  - (* anomalies, none of them High *)
    split; [eexists; split; reflexivity |]. split; [| split].
    + exists (TrendInsight i d abs_trend_pct),
        (match peak with
         | Some p => [ForecastPeak (f_yhat p) (f_ds p)]
         | None => []
         end), [], (StatisticalStability (List.length anomalies)),
        (if narrow then HighConfidence else VariableForecast).
      repeat split; auto.
      destruct peak; [right; eexists; split; reflexivity | left; reflexivity].
    + rewrite Hh. split; [| congruence].
      intros (c & Hin & Hc).
      destruct peak, narrow; simpl in Hin;
        repeat (destruct Hin as [<- | Hin]; [discriminate Hc |]);
        contradiction.
    + intros n c Hn Hc.
      destruct peak, narrow; by_position n;
        injection Hn as <-; discriminate Hc.
  - (* at least one High anomaly *)
    split; [eexists; split; reflexivity |]. split; [| split].
    + exists (TrendInsight i d abs_trend_pct),
        (match peak with
         | Some p => [ForecastPeak (f_yhat p) (f_ds p)]
         | None => []
         end),
        [CriticalVolatility (List.length (filter is_high anomalies))],
        (StatisticalStability (List.length anomalies)),
        (if narrow then HighConfidence else VariableForecast).
      repeat split; auto.
      * destruct peak; [right; eexists; split; reflexivity | left; reflexivity].
      * right. eexists. split; reflexivity.
    + split; [intros _; exact Hh |]. intros _.
      exists (CriticalVolatility (List.length (filter is_high anomalies))).
      split; [| reflexivity].
      destruct peak; simpl; auto.
    + intros n c Hn Hc.
      destruct peak, narrow; by_position n;
        injection Hn as <-; try discriminate Hc;
        (split; [lia |]); intros j x Hj Hx;
        by_position j; try lia;
        injection Hj as <-; discriminate Hx.
Qed.

Lemma insight_order_witness :
  exists o,
    generate_insights SampleInsights.forecast SampleInsights.anomalies
                      SampleInsights.history = Some o /\
    exists trend, nth_error (fst o) 0 = Some trend /\ is_trend trend = true.
Proof.
  eexists. split; [vm_compute; reflexivity |].
  apply (insight_order SampleInsights.forecast SampleInsights.anomalies
           SampleInsights.history).
  vm_compute. reflexivity.
Defined.

(** C9.  In every run that returns, the list of insights has between 3 and
    5 entries, among them a trend insight, an anomaly-summary insight and a
    confidence insight, and the list of recommendations has between 1 and 4
    entries, exactly one of them a trend recommendation; the same bounds hold
    for the lists of sentences handed to the caller. *)
Theorem insights_never_empty (forecast : list forecast_row)
  (anomalies : list anomaly) (history : list actual_row) (o : output) :
  generate_insights forecast anomalies history = Some o ->
  (3 <= List.length (fst o) <= 5)%nat /\
  existsb is_trend (fst o) = true /\
  existsb is_anomaly_summary (fst o) = true /\
  existsb is_confidence (fst o) = true /\
  (1 <= List.length (snd o) <= 4)%nat /\
  List.length (filter is_trend_recommendation (snd o)) = 1%nat /\
  (forall fmt_1f fmt_2f strftime str_of_nat,
      let d := insights_dict fmt_1f fmt_2f strftime str_of_nat o in
      (3 <= List.length (fst d) <= 5)%nat /\
      (1 <= List.length (snd d) <= 4)%nat).
Proof.
  intros Hrun.
  destruct (generate_insights_shape _ _ _ _ Hrun)
    as (trend & trend_rec & peak & narrow & Ht & Hr & Hfst & Hsnd).
  assert (Hlen : (3 <= List.length (fst o) <= 5)%nat /\
                 (1 <= List.length (snd o) <= 4)%nat).
  { rewrite Hfst, Hsnd.
    destruct (summary_part_cases anomalies)
      as [[_ Hs] | [(_ & _ & Hs) | [_ Hs]]];
      rewrite Hs; destruct peak, narrow; simpl; lia. }
  destruct Hlen as [Hi Hrec].
  split; [exact Hi |].
  split; [rewrite Hfst; simpl; rewrite Ht; reflexivity |].
  split.
  { rewrite Hfst.
    destruct (summary_part_cases anomalies)
      as [[_ Hs] | [(_ & _ & Hs) | [_ Hs]]];
      rewrite Hs; rewrite !existsb_app; simpl;
      rewrite ?orb_true_r; reflexivity. }
  split.
  { rewrite Hfst, !existsb_app. simpl.
    destruct narrow; simpl; rewrite ?orb_true_r; reflexivity. }
  split; [exact Hrec |].
  split.
  { rewrite Hsnd.
    destruct (summary_part_cases anomalies)
      as [[_ Hs] | [(_ & _ & Hs) | [_ Hs]]];
      rewrite Hs; destruct peak, narrow; simpl; rewrite Hr; reflexivity. }
  intros fmt_1f fmt_2f strftime str_of_nat. unfold insights_dict. simpl.
  rewrite !length_map. split; assumption.
Qed.

Lemma insights_never_empty_witness :
  exists o,
    generate_insights SampleInsights.forecast SampleInsights.anomalies
                      SampleInsights.history = Some o /\
    (3 <= List.length (fst o) <= 5)%nat.
Proof.
  eexists. split; [vm_compute; reflexivity |].
  apply (insights_never_empty SampleInsights.forecast SampleInsights.anomalies
           SampleInsights.history).
  vm_compute. reflexivity.
Defined.

(** A run returns as soon as there is a history, a forecast, and no NaN
    among the estimates. *)
Lemma idxmax_some (rows : list forecast_row) (b : forecast_row) :
  exists p, idxmax (Some b) rows = Some p.
Proof.
  revert b. induction rows as [| r rows IH]; intros b; simpl.
  - eauto.
  - destruct (F64.isnan (f_yhat r)); [apply IH |].
    destruct (F64.gtb (f_yhat r) (f_yhat b)); apply IH.
Qed.

Lemma iloc_last_some {A : Type} (l : list A) :
  l <> [] -> exists x, iloc_last l = Some x.
Proof.
  induction l as [| x l IH]; [congruence |]. intros _.
  destruct l as [| y l'].
  - exists x. reflexivity.
  - destruct IH as [z Hz].
    + discriminate.
    + exists z. exact Hz.
Qed.

Lemma generate_insights_returns (forecast : list forecast_row)
  (anomalies : list anomaly) (history : list actual_row) :
  history <> [] -> forecast <> [] ->
  Forall (fun f => F64.isnan (f_yhat f) = false) forecast ->
  exists o, generate_insights forecast anomalies history = Some o.
Proof.
  intros Hh Hf Hnan. unfold generate_insights, option_bind.
  destruct (iloc_last_some _ Hh) as [h Eh].
  destruct (iloc_last_some _ Hf) as [f Ef].
  assert (H1 : exists o1, trend_rule forecast history ([], []) = Some o1)
    by (unfold trend_rule; rewrite Eh, Ef; eauto).
  destruct H1 as [o1 ->].
  assert (H2 : exists o2, peak_rule forecast history o1 = Some o2).
  { unfold peak_rule. destruct history as [| a history]; [congruence |].
    simpl map. cbv iota.
    destruct (filter _ forecast) as [| f0 ff] eqn:E; [eauto |].
    assert (Hf0 : F64.isnan (f_yhat f0) = false).
    { assert (Hin : In f0 (filter (fun f1 : forecast_row =>
                                     f_ds f1 >? ds_max (a_ds a) (map a_ds history))
                                  forecast))
        by (rewrite E; left; reflexivity).
      apply filter_In in Hin. destruct Hin as [Hin _].
      rewrite Forall_forall in Hnan. apply Hnan, Hin. }
    simpl idxmax. rewrite Hf0.
    destruct (idxmax_some ff f0) as [p ->]. eauto. }
  destruct H2 as [o2 ->].
  unfold confidence_rule. rewrite Ef. cbv zeta.
  destruct (F64.ltb _ (F64.of_Z 15)); eauto.
Qed.

(** ** Column normalisation *)

Local Open Scope string_scope.

Lemma mem_In (x : string) (names : list string) :
  mem x names = true <-> In x names.
Proof.
  unfold mem. rewrite existsb_exists. split.
  - intros (y & Hy & He). apply String.eqb_eq in He. now subst.
  - intros H. exists x. split; [exact H | apply String.eqb_refl].
Qed.

(** *** Row selection *)

Lemma select_rows_map_self {A : Type} (f : A -> bool) (l : list A) :
  select_rows (map f l) l = filter f l.
Proof.
  unfold select_rows. induction l as [| x l IH]; simpl; [reflexivity |].
  destruct (f x); simpl; rewrite IH; reflexivity.
Qed.

Lemma select_rows_length_le {A B : Type} (f : A -> bool) (l : list A)
  (v : list B) :
  (List.length (select_rows (map f l) v) <= List.length (filter f l))%nat.
Proof.
  unfold select_rows. revert v.
  induction l as [| x l IH]; intros [| b v]; simpl; try lia.
  specialize (IH v). destruct (f x); simpl; lia.
Qed.

Lemma select_rows_all_true {A : Type} (mask : list bool) (v : list A) :
  Forall (fun b => b = true) mask ->
  (List.length v <= List.length mask)%nat ->
  select_rows mask v = v.
Proof.
  unfold select_rows. revert mask.
  induction v as [| x v IH]; intros [| b mask] Hall Hlen; simpl in *;
    try reflexivity; try lia.
  inversion Hall as [| ? ? Hb Hmask]; subst. simpl.
  rewrite IH; [reflexivity | assumption | lia].
Qed.

Lemma filter_column_all_true (mask : list bool) (c : column) :
  Forall (fun b => b = true) mask ->
  (column_length c <= List.length mask)%nat ->
  filter_column mask c = c.
Proof.
  intros Hall Hlen. destruct c; simpl in *;
    rewrite select_rows_all_true; auto.
Qed.

(** *** Selection of columns by name *)

Lemma filter_named_map (g : string * column -> string * column) (n : string)
  (cols : list (string * column)) :
  (forall c, fst (g c) = fst c) ->
  filter (fun c => String.eqb (fst c) n) (map g cols) =
  map g (filter (fun c => String.eqb (fst c) n) cols).
Proof.
  intros Hg. induction cols as [| c cols IH]; simpl; [reflexivity |].
  rewrite Hg. destruct (String.eqb (fst c) n); simpl; rewrite IH; reflexivity.
Qed.

Lemma filter_named_all (n : string) (cols : list (string * column)) :
  Forall (fun c => fst c = n) cols ->
  filter (fun c => String.eqb (fst c) n) cols = cols.
Proof.
  induction 1 as [| c cols Hc _ IH]; simpl; [reflexivity |].
  rewrite Hc, String.eqb_refl, IH. reflexivity.
Qed.

Lemma filter_named_none (n n' : string) (cols : list (string * column)) :
  n <> n' -> Forall (fun c => fst c = n) cols ->
  filter (fun c => String.eqb (fst c) n') cols = [].
Proof.
  intros Hne. induction 1 as [| c cols Hc _ IH]; simpl; [reflexivity |].
  rewrite Hc. destruct (String.eqb_spec n n'); [contradiction | exact IH].
Qed.

(** *** Detection of the two columns *)

Lemma detect_date_col_inv (df : DataFrame) (d : string) :
  detect_date_col df = Some d ->
  In d (column_names df) /\ mem (lower d) date_names = true.
Proof.
  unfold detect_date_col.
  destruct (mem "ds" (column_names df)) eqn:E.
  - intros [= <-]. split; [now apply mem_In | reflexivity].
  - intros H. apply find_some in H. exact H.
Qed.

Lemma numeric_cols_in (cols : list (string * column)) (names : list string)
  (c : string) :
  In c (select_dtypes_number (select_columns cols names)) -> In c names.
Proof.
  unfold select_dtypes_number, select_columns. intros H.
  apply in_map_iff in H. destruct H as (col & <- & Hc).
  apply filter_In in Hc. destruct Hc as [Hc _].
  apply in_flat_map in Hc. destruct Hc as (n & Hn & Hc).
  apply filter_In in Hc. destruct Hc as [_ Hc].
  apply String.eqb_eq in Hc. rewrite Hc. exact Hn.
Qed.

Lemma detect_target_col_inv (df : DataFrame) (d t : string) :
  detect_target_col df d = Some t ->
  (t = "y" /\ In "y" (column_names df)) \/
  (In t (column_names df) /\ t <> d).
Proof.
  unfold detect_target_col.
  destruct (mem "y" (column_names df)) eqn:Ey.
  - intros [= <-]. left. split; [reflexivity | now apply mem_In].
  - set (potential_targets :=
           filter (fun c => negb (String.eqb c d)) (column_names df)).
    assert (Hpot : forall c, In c potential_targets ->
                             In c (column_names df) /\ c <> d).
    { intros c Hc. apply filter_In in Hc. destruct Hc as [Hc Hd].
      split; [exact Hc |]. apply negb_true_iff in Hd.
      now apply String.eqb_neq. }
    assert (Hfind : forall f c, find f potential_targets = Some c ->
                                In c potential_targets).
    { intros f c Hf. apply find_some in Hf. tauto. }
    pose proof (numeric_cols_in (columns df) potential_targets) as Hnum.
    destruct (select_dtypes_number _) as [| c3 l].
    + destruct (find (fun col => String.eqb (lower col) "y") potential_targets)
        as [c1 |] eqn:E1;
      destruct (find (fun col => mem (lower col) common_names) potential_targets)
        as [c2 |] eqn:E2;
      repeat match goal with
             | |- context [falsy ?v] => destruct (falsy v)
             end;
      intros [= <-]; right; apply Hpot; eauto.
    + assert (H3 : In c3 potential_targets) by (apply Hnum; left; reflexivity).
      destruct (find (fun col => String.eqb (lower col) "y") potential_targets)
        as [c1 |] eqn:E1;
      destruct (find (fun col => mem (lower col) common_names) potential_targets)
        as [c2 |] eqn:E2;
      repeat match goal with
             | |- context [falsy ?v] => destruct (falsy v)
             end;
      intros [= <-]; right; apply Hpot; eauto.
Qed.

(** The date column is never the target column. *)
Lemma date_col_not_target (df : DataFrame) (d t : string) :
  detect_date_col df = Some d -> detect_target_col df d = Some t -> d <> t.
Proof.
  intros Hd Ht. apply detect_date_col_inv in Hd. destruct Hd as [_ Hd].
  apply detect_target_col_inv in Ht. destruct Ht as [[-> _] | [_ Ht]].
  - intros ->. discriminate Hd.
  - congruence.
Qed.

Lemma rename_fixes_ds_y (name : string) :
  name = "ds" \/ name = "y" -> rename "ds" "y" name = name.
Proof. intros [-> | ->]; reflexivity. Qed.

Section NormalizeProofs.

Variable parse_number : string -> option float.

(** A frame whose only [y] column is numeric and free of NaN goes through
    the coercion and the [dropna] unchanged. *)
Lemma coerce_and_dropna_normalized (df : DataFrame) :
  normalized df ->
  coerce_and_dropna parse_number (index df) (columns df) = Ok df.
Proof.
  intros (ds_cols & y & Hcols & Hne & Hds & Hy & Hidx).
  assert (Hnames : Forall (fun c : string * column => fst c = "ds") ds_cols)
    by (eapply Forall_impl; [| exact Hds]; simpl; tauto).
  unfold coerce_and_dropna. rewrite Hcols, filter_app.
  rewrite (filter_named_none "ds" "y") by (discriminate || assumption).
  simpl.
  assert (Hmask : Forall (fun b => b = true)
                    (map (fun v => negb (F64.isnan v)) y)).
  { apply Forall_map. eapply Forall_impl; [| exact Hy].
    simpl. intros v ->. reflexivity. }
  rewrite select_rows_all_true by (rewrite ?length_map; assumption).
  rewrite !map_app, !map_map. simpl.
  rewrite (select_rows_all_true _ y) by (rewrite ?length_map; auto).
  replace (map _ ds_cols) with ds_cols.
  - destruct df as [idx cols]. simpl in *. rewrite Hcols. reflexivity.
  - symmetry. rewrite <- (map_id ds_cols) at 2. apply map_ext_in.
    intros c Hc. rewrite Forall_forall in Hds.
    destruct (Hds c Hc) as [Hn Hl]. rewrite Hn. simpl.
    rewrite filter_column_all_true by (rewrite ?length_map; assumption).
    now destruct c.
Qed.

(** Applied to a frame of the normalized shape, [normalize_columns] returns
    it as it is. *)
Lemma normalize_columns_fixpoint (df : DataFrame) :
  normalized df -> normalize_columns parse_number df = Ok df.
Proof.
  intros Hn. pose proof Hn as (ds_cols & y & Hcols & Hne & Hds & Hy & Hidx).
  assert (Hnames : Forall (fun c : string * column => fst c = "ds") ds_cols)
    by (eapply Forall_impl; [| exact Hds]; simpl; tauto).
  assert (Hds_in : mem "ds" (column_names df) = true).
  { unfold column_names. rewrite Hcols. destruct ds_cols as [| c l];
      [congruence |]. inversion Hnames as [| ? ? Hc _]; subst.
    simpl. rewrite Hc. reflexivity. }
  assert (Hy_in : mem "y" (column_names df) = true).
  { apply mem_In. unfold column_names. rewrite Hcols, map_app.
    apply in_or_app. right. left. reflexivity. }
  unfold normalize_columns, detect_date_col, detect_target_col.
  rewrite Hds_in, Hy_in. simpl bind.
  replace (map _ (columns df)) with (columns df).
  - rewrite (coerce_and_dropna_normalized df Hn). simpl bind.
    destruct df as [idx cols]. simpl in *. f_equal. f_equal.
    rewrite Hcols. unfold select_columns. simpl.
    rewrite !filter_app, app_nil_r. simpl.
    rewrite (filter_named_all "ds") by assumption.
    rewrite (filter_named_none "ds" "y") by (discriminate || assumption).
    rewrite app_nil_r. reflexivity.
  - symmetry. rewrite <- (map_id (columns df)) at 2. apply map_ext_in.
    intros c Hc. rewrite rename_fixes_ds_y; [now destruct c |].
    rewrite Hcols in Hc. apply in_app_or in Hc. destruct Hc as [Hc | Hc].
    + left. rewrite Forall_forall in Hnames. now apply Hnames.
    + right. destruct Hc as [<- | []]. reflexivity.
Qed.

End NormalizeProofs.

Lemma filter_map_comm {A B : Type} (p : B -> bool) (g : A -> B) (l : list A) :
  filter p (map g l) = map g (filter (fun x => p (g x)) l).
Proof.
  induction l as [| x l IH]; simpl; [reflexivity |].
  destruct (p (g x)); simpl; rewrite IH; reflexivity.
Qed.

Lemma detect_date_col_ds (df : DataFrame) (d : string) :
  detect_date_col df = Some d -> In "ds" (column_names df) -> d = "ds".
Proof.
  unfold detect_date_col. intros H Hin. apply mem_In in Hin.
  rewrite Hin in H. now injection H.
Qed.

Lemma detect_target_col_y (df : DataFrame) (d t : string) :
  detect_target_col df d = Some t -> In "y" (column_names df) -> t = "y".
Proof.
  unfold detect_target_col. intros H Hin. apply mem_In in Hin.
  rewrite Hin in H. now injection H.
Qed.

(** Among the names of the frame, only the target is renamed to [y] and only
    the date column to [ds]. *)
Lemma rename_is_y (df : DataFrame) (d t n : string) :
  detect_target_col df d = Some t -> In n (column_names df) ->
  String.eqb (rename d t n) "y" = String.eqb n t.
Proof.
  intros Ht Hn. unfold rename.
  destruct (String.eqb_spec n t) as [-> | Hnt]; [reflexivity |].
  destruct (String.eqb_spec n d) as [-> | Hnd]; [reflexivity |].
  destruct (String.eqb_spec n "y") as [-> | _]; [| reflexivity].
  exfalso. apply Hnt. symmetry. exact (detect_target_col_y _ _ _ Ht Hn).
Qed.

Lemma rename_is_ds (df : DataFrame) (d t n : string) :
  detect_date_col df = Some d -> d <> t -> In n (column_names df) ->
  String.eqb (rename d t n) "ds" = String.eqb n d.
Proof.
  intros Hd Hdt Hn. unfold rename.
  destruct (String.eqb_spec n t) as [-> | Hnt].
  - destruct (String.eqb_spec t d); [congruence | reflexivity].
  - destruct (String.eqb_spec n d) as [-> | Hnd]; [reflexivity |].
    destruct (String.eqb_spec n "ds") as [-> | _]; [| reflexivity].
    exfalso. apply Hnd. symmetry. exact (detect_date_col_ds _ _ Hd Hn).
Qed.

Section NormalizeResult.

Variable parse_number : string -> option float.

Lemma filter_column_length (f : float -> bool) (y : list float) (c : column) :
  (column_length (filter_column (map f y) c) <= List.length (filter f y))%nat.
Proof. destruct c; simpl; apply select_rows_length_le. Qed.

(** What the coercion and the [dropna] return, read through the selection
    of the [ds] and [y] columns. *)
Lemma coerce_and_dropna_result (idx : list Z) (cols : list (string * column))
  (df' : DataFrame) :
  coerce_and_dropna parse_number idx cols = Ok df' ->
  (exists c, In c cols /\ fst c = "ds") ->
  normalized {| index := index df';
                columns := select_columns (columns df') ["ds"; "y"] |}.
Proof.
  unfold coerce_and_dropna. intros H (cd & Hcd & Hcdn).
  destruct (filter (fun c => String.eqb (fst c) "y") cols)
    as [| [n ycol] [| c' l]] eqn:Ey; try discriminate.
  injection H as <-. simpl.
  set (y := to_numeric parse_number ycol) in *.
  set (keep := fun v : float => negb (F64.isnan v)).
  set (g1 := fun c : string * column =>
               if String.eqb (fst c) "y" then (fst c, NumCol y) else c).
  set (g2 := fun c : string * column =>
               (fst c, filter_column (map keep y) (snd c))).
  assert (Hg1 : forall c, fst (g1 c) = fst c)
    by (intros c; unfold g1; destruct (String.eqb (fst c) "y"); reflexivity).
  assert (Hg2 : forall c, fst (g2 c) = fst c) by reflexivity.
  assert (Hn : n = "y").
  { assert (Hin : In (n, ycol) (filter (fun c => String.eqb (fst c) "y") cols))
      by (rewrite Ey; left; reflexivity).
    apply filter_In in Hin. destruct Hin as [_ Hin].
    now apply String.eqb_eq in Hin. }
  subst n.
  exists (map g2 (map g1 (filter (fun c => String.eqb (fst c) "ds") cols))),
         (filter keep y).
  split; [| split; [| split; [| split]]].
  - unfold select_columns. simpl. rewrite app_nil_r.
    rewrite !(filter_named_map g2) by assumption.
    rewrite !(filter_named_map g1) by assumption.
    rewrite Ey. simpl. unfold g1 at 2. simpl. unfold g2 at 2. simpl.
    rewrite select_rows_map_self. reflexivity.
  - intros Hnil. apply map_eq_nil, map_eq_nil in Hnil.
    assert (Hin : In cd (filter (fun c => String.eqb (fst c) "ds") cols))
      by (apply filter_In; split; [assumption | now apply String.eqb_eq]).
    rewrite Hnil in Hin. exact Hin.
  - rewrite !Forall_map. apply Forall_forall. intros c Hc.
    apply filter_In in Hc. destruct Hc as [_ Hc].
    apply String.eqb_eq in Hc. split.
    + rewrite Hg2, Hg1. exact Hc.
    + unfold g2. simpl. apply filter_column_length.
  - apply Forall_forall. intros v Hv. apply filter_In in Hv.
    destruct Hv as [_ Hv]. unfold keep in Hv. now apply negb_true_iff in Hv.
  - simpl. apply select_rows_length_le.
Qed.

(** Every frame returned by [normalize_columns] has the normalized
    shape. *)
Lemma normalize_columns_normalized (df r : DataFrame) :
  normalize_columns parse_number df = Ok r -> normalized r.
Proof.
  unfold normalize_columns.
  destruct (detect_date_col df) as [d |] eqn:Ed; [| discriminate].
  destruct (falsy (Some d)); [discriminate |]. simpl bind at 1.
  destruct (detect_target_col df d) as [t |] eqn:Et; [| discriminate].
  destruct (falsy (Some t)); [discriminate |]. simpl bind at 1.
  destruct (coerce_and_dropna _ _ _) as [df' |] eqn:Ec; [| discriminate].
  simpl. intros [= <-].
  apply (coerce_and_dropna_result _ _ _ Ec).
  pose proof (date_col_not_target _ _ _ Ed Et) as Hdt.
  apply detect_date_col_inv in Ed. destruct Ed as [Hd _].
  unfold column_names in Hd. apply in_map_iff in Hd.
  destruct Hd as (c & Hc & Hin).
  exists (rename d t (fst c), snd c). split.
  - apply in_map_iff. exists c. split; [reflexivity | assumption].
  - simpl. unfold rename. rewrite Hc.
    destruct (String.eqb_spec d t); [contradiction |].
    rewrite String.eqb_refl. reflexivity.
Qed.

(** C6.  Whatever frame [normalize_columns] returns, applying
    [normalize_columns] to it returns the very same frame. *)
Theorem normalize_columns_idempotent (df r : DataFrame) :
  normalize_columns parse_number df = Ok r ->
  normalize_columns parse_number r = Ok r.
Proof.
  intros H. apply normalize_columns_fixpoint.
  exact (normalize_columns_normalized _ _ H).
Qed.



End NormalizeResult.

Lemma normalize_columns_idempotent_witness :
  normalize_columns SampleFrames.parse_nothing SampleFrames.sales
    = Ok SampleFrames.sales_normalized /\
  normalize_columns SampleFrames.parse_nothing SampleFrames.sales_normalized
    = Ok SampleFrames.sales_normalized.
Proof.
  split; [reflexivity |].
  apply (normalize_columns_idempotent SampleFrames.parse_nothing
           SampleFrames.sales).
  reflexivity.
Defined.


(** *** Target selection against its specification *)

Lemma find_filter_names (f g : string -> bool) (cols : list (string * column)) :
  find f (filter g (map fst cols)) =
  option_map fst (find (fun c => f (fst c))
                       (filter (fun c => g (fst c)) cols)).
Proof.
  induction cols as [| c cols IH]; simpl; [reflexivity |].
  destruct (g (fst c)); simpl; [| exact IH].
  destruct (f (fst c)); [reflexivity | exact IH].
Qed.

Lemma head_filter_find (p : string * column -> bool)
  (cols : list (string * column)) :
  match map fst (filter p cols) with
  | c :: _ => Some c
  | [] => None
  end = option_map fst (find p cols).
Proof.
  induction cols as [| c cols IH]; simpl; [reflexivity |].
  destruct (p c); [reflexivity | exact IH].
Qed.

(** With distinct names, a name selects its one column. *)
Lemma filter_named_unique (cols : list (string * column)) (c : string * column) :
  NoDup (map fst cols) -> In c cols ->
  filter (fun c' => String.eqb (fst c') (fst c)) cols = [c].
Proof.
  induction cols as [| c0 cols IH]; simpl; intros Hnd Hin; [contradiction |].
  inversion Hnd as [| ? ? Hnot Hnd']; subst.
  destruct Hin as [-> | Hin].
  - rewrite String.eqb_refl. f_equal.
    destruct (filter _ cols) as [| c1 l] eqn:E; [reflexivity |].
    exfalso. apply Hnot.
    assert (H1 : In c1 (filter (fun c' => String.eqb (fst c') (fst c)) cols))
      by (rewrite E; left; reflexivity).
    apply filter_In in H1. destruct H1 as [H1 He].
    apply String.eqb_eq in He. rewrite <- He. now apply in_map.
  - destruct (String.eqb_spec (fst c0) (fst c)) as [He | _].
    + exfalso. apply Hnot. rewrite He. now apply in_map.
    + now apply IH.
Qed.

Lemma select_columns_filter (g : string -> bool)
  (cols l : list (string * column)) :
  NoDup (map fst cols) -> incl l cols ->
  select_columns cols (filter g (map fst l)) =
  filter (fun c => g (fst c)) l.
Proof.
  intros Hnd. unfold select_columns.
  induction l as [| c l IH]; simpl; intros Hincl; [reflexivity |].
  assert (Hl : incl l cols) by (intros x Hx; apply Hincl; now right).
  destruct (g (fst c)); simpl; [| now apply IH].
  rewrite (filter_named_unique cols c Hnd) by (apply Hincl; now left).
  simpl. f_equal. now apply IH.
Qed.

Lemma falsy_named (names : list string) (c : string) :
  ~ In "" names -> In c names -> falsy (Some c) = false.
Proof.
  intros Hno Hin. simpl. destruct (String.eqb_spec c ""); [| reflexivity].
  subst. contradiction.
Qed.

(** On a frame whose column names are distinct and not empty, the column
    [detect_target_col] returns is the one the specification selects. *)
Lemma detect_target_col_by_priority (df : DataFrame) (d : string) :
  NoDup (column_names df) -> ~ In "" (column_names df) ->
  detect_date_col df = Some d ->
  detect_target_col df d = target_by_priority df d.
Proof.
  intros Hnd Hno Hd. apply detect_date_col_inv in Hd. destruct Hd as [_ Hd].
  assert (Hdy : String.eqb "y" d = false).
  { destruct (String.eqb_spec "y" d); [subst; discriminate Hd | reflexivity]. }
  unfold detect_target_col, target_by_priority, column_names.
  set (others := filter (fun c => negb (String.eqb (fst c) d)) (columns df)).
  assert (Hothers : forall c, In c others -> In (fst c) (column_names df)).
  { intros c Hc. apply filter_In in Hc. destruct Hc as [Hc _].
    now apply in_map. }
  destruct (mem "y" (map fst (columns df))) eqn:Ey.
  - apply mem_In, in_map_iff in Ey. destruct Ey as (c & Hc & Hin).
    destruct (find (fun c0 => String.eqb (fst c0) "y") others) as [c1 |] eqn:E1.
    + apply find_some in E1. destruct E1 as [_ E1].
      apply String.eqb_eq in E1. now rewrite E1.
    + exfalso.
      assert (Hc' : In c others)
        by (apply filter_In; split; [assumption | now rewrite Hc, Hdy]).
      apply (find_none _ _ E1 c) in Hc'.
      rewrite Hc, String.eqb_refl in Hc'. discriminate.
  - assert (E1 : find (fun c0 => String.eqb (fst c0) "y") others = None).
    { destruct (find _ others) as [c1 |] eqn:E; [| reflexivity].
      apply find_some in E. destruct E as [Hin He].
      apply String.eqb_eq in He. apply Hothers in Hin.
      rewrite He in Hin. apply mem_In in Hin.
      unfold column_names in Hin. congruence. }
    rewrite E1.
    rewrite !(find_filter_names _ (fun c => negb (String.eqb c d))).
    fold others.
    destruct (find (fun c => String.eqb (lower (fst c)) "y") others)
      as [c2 |] eqn:E2; cbn [option_map].
    + rewrite (falsy_named (column_names df)); auto.
      apply Hothers. apply find_some in E2. tauto.
    + change (falsy None) with true. cbv iota.
      destruct (find (fun c => mem (lower (fst c)) common_names) others)
        as [c3 |] eqn:E3; cbn [option_map]; cbv beta iota.
      * rewrite (falsy_named (column_names df)); auto.
        apply Hothers. apply find_some in E3. tauto.
      * change (falsy None) with true. cbv iota.
        rewrite (select_columns_filter _ (columns df) (columns df))
          by (assumption || apply incl_refl).
        fold others. unfold select_dtypes_number.
        rewrite head_filter_find.
        destruct (find _ others); reflexivity.
Qed.

Section TargetSelection.

Variable parse_number : string -> option float.

Lemma coerce_and_dropna_error (idx : list Z) (cols : list (string * column))
  (e : error) :
  coerce_and_dropna parse_number idx cols = Raise e ->
  e = KeyError \/ e = TypeError.
Proof.
  unfold coerce_and_dropna.
  destruct (filter _ cols) as [| [n ycol] [| c' l]]; intros [= <-]; auto.
Qed.

(** On a frame whose column names are distinct and not empty and which has
    a date column, [normalize_columns] fails for want of a target column
    exactly when the specification selects none. *)
Lemma no_target_iff_none_by_priority (df : DataFrame) (d : string) :
  NoDup (column_names df) -> ~ In "" (column_names df) ->
  detect_date_col df = Some d ->
  (normalize_columns parse_number df = Raise NoTargetColumn <->
   target_by_priority df d = None).
Proof.
  intros Hnd Hno Hd.
  pose proof (detect_target_col_by_priority df d Hnd Hno Hd) as Ht.
  pose proof (detect_date_col_inv _ _ Hd) as [Hin _].
  unfold normalize_columns. rewrite Hd.
  rewrite (falsy_named _ _ Hno Hin). simpl bind at 1. rewrite Ht.
  destruct (target_by_priority df d) as [t |] eqn:Et.
  - apply detect_target_col_inv in Ht.
    assert (Hint : In t (column_names df))
      by (destruct Ht as [[-> ?] | [? _]]; auto).
    rewrite (falsy_named _ _ Hno Hint). simpl bind at 1.
    destruct (coerce_and_dropna _ _ _) as [df' | e] eqn:Ec; simpl.
    + split; discriminate.
    + apply coerce_and_dropna_error in Ec.
      split; [| discriminate]. intros [= ->]. destruct Ec; discriminate.
  - simpl. tauto.
Qed.

(** C7, the failing input.  A frame with a [ds] column and one numeric
    column named by the empty string: the specification selects that column,
    being the first numeric-typed one, [detect_target_col] picks it as well,
    and [normalize_columns] then rejects it and fails for want of a target
    column. *)
Theorem unnamed_numeric_column_rejected :
  detect_date_col SampleFrames.unnamed_numeric = Some "ds" /\
  target_by_priority SampleFrames.unnamed_numeric "ds" = Some "" /\
  detect_target_col SampleFrames.unnamed_numeric "ds" = Some "" /\
  normalize_columns parse_number SampleFrames.unnamed_numeric
    = Raise NoTargetColumn.
Proof. repeat split; reflexivity. Qed.

End TargetSelection.

(** * Further properties *)

Local Close Scope string_scope.

(** ** The order on binary64 values is a total preorder off NaN *)

Ltac compare_cases :=
  repeat match goal with
         | H : context [Z.compare ?x ?y] |- _ =>
             destruct (Z.compare_spec x y); subst
         | |- context [Z.compare ?x ?y] =>
             destruct (Z.compare_spec x y); subst
         | H : context [Pos.compare_cont Eq ?x ?y] |- _ =>
             change (Pos.compare_cont Eq x y) with (Pos.compare x y) in H;
             destruct (Pos.compare_spec x y); subst
         | |- context [Pos.compare_cont Eq ?x ?y] =>
             change (Pos.compare_cont Eq x y) with (Pos.compare x y);
             destruct (Pos.compare_spec x y); subst
         end.

Ltac order_cases a b c :=
  unfold F64.ltb, F64.leb, F64.gtb, SFltb, SFleb;
  destruct a as [[|] | [|] | | [|] ? ?];
  destruct b as [[|] | [|] | | [|] ? ?];
  destruct c as [[|] | [|] | | [|] ? ?];
  simpl; try discriminate; try reflexivity;
  compare_cases; simpl; intros; try discriminate; try reflexivity; try lia.

Lemma ltb_leb_trans (a b c : float) :
  F64.ltb a b = true -> F64.leb b c = true -> F64.ltb a c = true.
Proof. order_cases a b c. Qed.

Lemma leb_ltb_trans (a b c : float) :
  F64.leb a b = true -> F64.ltb b c = true -> F64.ltb a c = true.
Proof. order_cases a b c. Qed.



(** ** Rounding keeps the sign and never loses a positive integer *)

Lemma binary_round_aux_signed (s : bool) (m e : Z) (l : location) :
  signed s (binary_round_aux F64.prec F64.emax s m e l).
Proof.
  unfold binary_round_aux.
  destruct (shr_fexp F64.prec F64.emax m e l) as [mrs' e'].
  destruct (shr_fexp F64.prec F64.emax _ e' loc_Exact) as [mrs'' e''].
  destruct (shr_m mrs''); try reflexivity; try exact I.
  destruct (e'' <=? F64.emax - F64.prec); reflexivity.
Qed.

Lemma abs_binary_round_aux (s s' : bool) (m e : Z) (l : location) :
  SFabs (binary_round_aux F64.prec F64.emax s m e l) =
  SFabs (binary_round_aux F64.prec F64.emax s' m e l).
Proof.
  unfold binary_round_aux.
  destruct (shr_fexp F64.prec F64.emax m e l) as [mrs' e'].
  destruct (shr_fexp F64.prec F64.emax _ e' loc_Exact) as [mrs'' e''].
  destruct (shr_m mrs''); try reflexivity; try exact I.
  destruct (e'' <=? F64.emax - F64.prec); reflexivity.
Qed.

Lemma shr_1_m (mrs : shr_record) :
  0 <= shr_m mrs -> shr_m (shr_1 mrs) = Z.div2 (shr_m mrs).
Proof.
  destruct mrs as [m r s]. simpl. intros Hm.
  destruct m as [| p | p]; [reflexivity | | lia].
  destruct p; reflexivity.
Qed.

Lemma iter_pos_shr_1_m (p : positive) (mrs : shr_record) :
  0 <= shr_m mrs ->
  shr_m (iter_pos shr_1 p mrs) = Z.shiftr (shr_m mrs) (Zpos p).
Proof.
  revert mrs. induction p as [p IH | p IH |]; intros mrs Hm; simpl iter_pos.
  - assert (H1 : 0 <= shr_m (shr_1 mrs))
      by (rewrite shr_1_m by assumption; apply Z.div2_nonneg; assumption).
    assert (H2 : 0 <= shr_m (iter_pos shr_1 p (shr_1 mrs)))
      by (rewrite IH by assumption; apply Z.shiftr_nonneg; assumption).
    rewrite IH, IH, shr_1_m by assumption.
    rewrite Z.div2_spec, !Z.shiftr_shiftr by lia.
    f_equal. lia.
  - assert (H2 : 0 <= shr_m (iter_pos shr_1 p mrs))
      by (rewrite IH by assumption; apply Z.shiftr_nonneg; assumption).
    rewrite IH, IH by assumption.
    rewrite Z.shiftr_shiftr by lia. f_equal. lia.
  - rewrite shr_1_m by assumption. apply Z.div2_spec.
Qed.

Lemma digits2_pos_bounds (p : positive) :
  2 ^ (Zpos (digits2_pos p) - 1) <= Zpos p < 2 ^ Zpos (digits2_pos p).
Proof.
  induction p as [p IH | p IH |]; simpl digits2_pos.
  - rewrite Pos2Z.inj_succ.
    replace (Z.succ (Zpos (digits2_pos p)) - 1) with (Zpos (digits2_pos p)) by lia.
    rewrite Z.pow_succ_r by lia.
    assert (H : 2 ^ Zpos (digits2_pos p)
                = 2 * 2 ^ (Zpos (digits2_pos p) - 1)).
    { rewrite <- Z.pow_succ_r by lia. f_equal. lia. }
    lia.
  - rewrite Pos2Z.inj_succ.
    replace (Z.succ (Zpos (digits2_pos p)) - 1) with (Zpos (digits2_pos p)) by lia.
    rewrite Z.pow_succ_r by lia.
    assert (H : 2 ^ Zpos (digits2_pos p)
                = 2 * 2 ^ (Zpos (digits2_pos p) - 1)).
    { rewrite <- Z.pow_succ_r by lia. f_equal. lia. }
    lia.
  - simpl. lia.
Qed.

(** Shifting a positive mantissa to its working precision leaves it
    positive, as long as the exponent is not below the smallest one. *)
Lemma shr_fexp_pos (p : positive) (e : Z) (l : location) :
  emin F64.prec F64.emax <= e ->
  0 < shr_m (fst (shr_fexp F64.prec F64.emax (Zpos p) e l)) /\
  emin F64.prec F64.emax <= snd (shr_fexp F64.prec F64.emax (Zpos p) e l).
Proof.
  intros He. unfold shr_fexp, shr.
  assert (Hrec : shr_m (shr_record_of_loc (Zpos p) l) = Zpos p)
    by (destruct l as [| []]; reflexivity).
  destruct (fexp F64.prec F64.emax (Zdigits2 (Zpos p) + e) - e)
    as [| n | n] eqn:En; simpl fst; simpl snd;
    try (rewrite Hrec; split; [reflexivity | assumption]).
  rewrite iter_pos_shr_1_m by (rewrite Hrec; lia). rewrite Hrec.
  unfold fexp in En. simpl Zdigits2 in En.
  pose proof (digits2_pos_bounds p) as [Hlo _].
  assert (Hn : Zpos n = Zpos (digits2_pos p) - F64.prec) by lia.
  split; [| lia].
  rewrite Z.shiftr_div_pow2 by lia.
  apply Z.div_str_pos. split; [apply Z.pow_pos_nonneg; lia |].
  eapply Z.le_trans; [| exact Hlo].
  apply Z.pow_le_mono_r; [lia |]. rewrite Hn. unfold F64.prec. lia.
Qed.

Lemma round_nearest_even_pos (m : Z) (l : location) :
  0 < m -> 0 < round_nearest_even m l.
Proof.
  intros Hm. unfold round_nearest_even.
  destruct l as [| []]; try lia. destruct (Z.even m); lia.
Qed.

(** A positive mantissa rounds to a finite value or overflows to the
    infinity, never to zero or NaN. *)
Lemma binary_round_aux_pos (s : bool) (p : positive) (e : Z) (l : location) :
  emin F64.prec F64.emax <= e ->
  (exists m' e', binary_round_aux F64.prec F64.emax s (Zpos p) e l
                 = S754_finite s m' e') \/
  binary_round_aux F64.prec F64.emax s (Zpos p) e l = S754_infinity s.
Proof.
  intros He. unfold binary_round_aux.
  pose proof (shr_fexp_pos p e l He) as [H1 H1e].
  destruct (shr_fexp F64.prec F64.emax (Zpos p) e l) as [mrs' e'].
  simpl in H1, H1e.
  pose proof (round_nearest_even_pos _ (loc_of_shr_record mrs') H1) as H2.
  destruct (round_nearest_even (shr_m mrs') (loc_of_shr_record mrs'))
    as [| p2 | p2]; try lia.
  pose proof (shr_fexp_pos p2 e' loc_Exact H1e) as [H3 _].
  destruct (shr_fexp F64.prec F64.emax (Zpos p2) e' loc_Exact) as [mrs'' e''].
  simpl in H3. destruct (shr_m mrs'') as [| p3 | p3]; try lia.
  destruct (e'' <=? F64.emax - F64.prec); [left; eauto | right; reflexivity].
Qed.

(** The float of a positive integer is a positive finite value or [+inf]. *)
Lemma of_Z_pos (p : positive) :
  (exists m e, F64.of_Z (Zpos p) = S754_finite false m e) \/
  F64.of_Z (Zpos p) = S754_infinity false.
Proof.
  unfold F64.of_Z, binary_normalize, binary_round.
  destruct (shl_align p 0 (fexp F64.prec F64.emax (Zpos (digits2_pos p) + 0)))
    as [mz ez] eqn:E.
  apply binary_round_aux_pos.
  unfold shl_align in E.
  destruct (fexp F64.prec F64.emax (Zpos (digits2_pos p) + 0) - 0) eqn:En;
    injection E as <- <-; unfold fexp, emin, F64.prec, F64.emax in *; lia.
Qed.

(** ** Anomaly detection: edge behaviour *)

Lemma abs_signed (x : float) : signed false (F64.abs x).
Proof. destruct x; simpl; auto. Qed.

Lemma div_signed_negative (a b : float) :
  signed false a -> F64.ltb b F64.zero = true -> signed true (F64.div a b).
Proof.
  unfold F64.ltb, SFltb, F64.div.
  destruct a as [sa | sa | | sa ma ea]; simpl; intros Ha; subst;
    destruct b as [sb | [|] | | [|] mb eb]; simpl; try discriminate;
    intros _; auto.
  destruct (SFdiv_core_binary F64.prec F64.emax (Zpos ma) ea (Zpos mb) eb)
    as [[mz ez] lz].
  apply (binary_round_aux_signed true).
Qed.

Lemma mul_100_signed (s : bool) (x : float) :
  signed s x -> signed s (F64.mul x (F64.of_Z 100)).
Proof.
  change (F64.of_Z 100) with (S754_finite false 7036874417766400 (-46)).
  destruct x as [sx | sx | | sx mx ex]; simpl; intros Hx; subst; auto;
    try (destruct s; reflexivity).
  replace (xorb s false) with s by (destruct s; reflexivity).
  apply binary_round_aux_signed.
Qed.

Lemma classify_severity_negative (pct : float) :
  signed true pct -> classify_severity pct = Low.
Proof.
  unfold classify_severity. rewrite of_Z_20, of_Z_10.
  destruct pct as [s | s | | s m e]; simpl; intros; subst; reflexivity.
Qed.

(** X1.  An anomaly whose estimate is negative is always classified Low,
    however far the actual value lies from the estimate: dividing by the
    negative estimate makes the severity percentage negative (or NaN), which
    is above neither threshold. *)
Theorem negative_estimate_is_low (forecast : list forecast_row)
  (actuals : list actual_row) (a : anomaly) :
  In a (detect_anomalies forecast actuals) ->
  F64.ltb (an_yhat a) (F64.of_Z 0) = true ->
  signed true (severity_pct (an_y a) (an_yhat a)) /\
  an_severity_level a = Low.
Proof.
  intros Hin Hneg.
  destruct (detect_anomalies_inv _ _ _ Hin) as (r & _ & _ & ->).
  simpl in *.
  assert (Hpct : signed true (severity_pct (m_y r) (m_yhat r))).
  { unfold severity_pct. apply mul_100_signed, div_signed_negative.
    - apply abs_signed.
    - exact Hneg. }
  split; [exact Hpct | now apply classify_severity_negative].
Qed.

Lemma negative_estimate_is_low_witness :
  an_severity (anomaly_of SampleNegative.plunge) = F64.of_Z 40 /\
  an_severity_level (anomaly_of SampleNegative.plunge) = Low.
Proof.
  split; [reflexivity |].
  apply (negative_estimate_is_low SampleNegative.forecast
           SampleNegative.actuals (anomaly_of SampleNegative.plunge)).
  - vm_compute. left. reflexivity.
  - vm_compute. reflexivity.
Defined.

(** At most one forecast row carries a given timestamp when the timestamps
    of the forecast are distinct. *)
Lemma filter_ds_at_most_one (forecast : list forecast_row) (d : Z) :
  NoDup (map f_ds forecast) ->
  (List.length (filter (fun f => Z.eqb d (f_ds f)) forecast) <= 1)%nat.
Proof.
  induction forecast as [| f l IH]; simpl; intros Hnd; [lia |].
  inversion Hnd as [| ? ? Hnot Hnd']; subst.
  destruct (Z.eqb_spec d (f_ds f)) as [-> | _]; [| now apply IH].
  simpl. destruct (filter _ l) as [| f' l'] eqn:E; [simpl; lia |].
  exfalso. apply Hnot.
  assert (H : In f' (filter (fun f0 => f_ds f =? f_ds f0) l))
    by (rewrite E; left; reflexivity).
  apply filter_In in H. destruct H as [H He].
  apply Z.eqb_eq in He. rewrite He. now apply in_map.
Qed.

Lemma merge_length (actuals : list actual_row) (forecast : list forecast_row) :
  NoDup (map f_ds forecast) ->
  (List.length (merge actuals forecast) <= List.length actuals)%nat.
Proof.
  intros Hnd. unfold merge.
  induction actuals as [| a l IH]; simpl; [lia |].
  rewrite length_app, length_map.
  pose proof (filter_ds_at_most_one forecast (a_ds a) Hnd). lia.
Qed.

(** X2.  The join is an inner join: every anomaly carries a timestamp that
    occurs in the history and in the forecast, so a history without matching
    forecast rows yields no anomaly; and when the forecast timestamps are
    distinct there are at most as many anomalies as historical rows. *)
Theorem anomalies_within_history (forecast : list forecast_row)
  (actuals : list actual_row) :
  (forall a, In a (detect_anomalies forecast actuals) ->
             In (an_ds a) (map a_ds actuals) /\
             In (an_ds a) (map f_ds forecast)) /\
  ((forall x, In x (map a_ds actuals) -> ~ In x (map f_ds forecast)) ->
   detect_anomalies forecast actuals = []) /\
  (NoDup (map f_ds forecast) ->
   (List.length (detect_anomalies forecast actuals)
    <= List.length actuals)%nat).
Proof.
  assert (Hds : forall a, In a (detect_anomalies forecast actuals) ->
                          In (an_ds a) (map a_ds actuals) /\
                          In (an_ds a) (map f_ds forecast)).
  { intros a Hin. destruct (detect_anomalies_inv _ _ _ Hin) as (r & Hr & _ & ->).
    apply in_merge_iff in Hr. destruct Hr as (x & f & Hx & Hf & He & ->).
    simpl. split; [now apply in_map |]. rewrite He. now apply in_map. }
  split; [exact Hds |]. split.
  - intros Hdisj.
    destruct (detect_anomalies forecast actuals) as [| a l] eqn:E;
      [reflexivity |].
    exfalso. destruct (Hds a (or_introl eq_refl)) as [H1 H2].
    exact (Hdisj _ H1 H2).
  - intros Hnd. unfold detect_anomalies. rewrite length_map.
    eapply Nat.le_trans; [apply filter_length_le | now apply merge_length].
Qed.

Lemma anomalies_within_history_witness :
  (List.length (detect_anomalies Sample.forecast Sample.actuals)
   <= List.length Sample.actuals)%nat.
Proof.
  apply (anomalies_within_history Sample.forecast Sample.actuals).
  vm_compute. repeat constructor; simpl; intuition discriminate.
Defined.

(** X3.  A joined row whose actual value is NaN is never returned as an
    anomaly, and neither is a row whose two bounds are NaN: every comparison
    with NaN is false. *)
Theorem nan_is_never_anomalous (forecast : list forecast_row)
  (actuals : list actual_row) (r : merged_row) :
  F64.isnan (m_y r) = true \/
  (F64.isnan (m_yhat_lower r) = true /\ F64.isnan (m_yhat_upper r) = true) ->
  ~ In (anomaly_of r) (detect_anomalies forecast actuals).
Proof.
  intros H Hin. apply in_detect_anomalies in Hin. destruct Hin as [_ Hflag].
  unfold is_anomaly, F64.ltb, F64.gtb, SFltb in Hflag.
  destruct H as [Hy | [Hl Hu]].
  - destruct (m_y r); try discriminate.
    destruct (m_yhat_lower r), (m_yhat_upper r); discriminate.
  - destruct (m_yhat_lower r); try discriminate.
    destruct (m_yhat_upper r); try discriminate.
    destruct (m_y r); discriminate.
Qed.

Lemma nan_is_never_anomalous_witness :
  ~ In (anomaly_of {| m_ds := 1; m_y := F64.nan; m_yhat_lower := F64.of_Z 9;
                      m_yhat_upper := F64.of_Z 11; m_yhat := F64.of_Z 10 |})
       (detect_anomalies [Sample.fr 1 10 9 11]
                         [{| a_ds := 1; a_y := F64.nan |}]).
Proof.
  apply nan_is_never_anomalous. left. reflexivity.
Defined.

(** X4.  The classification is monotone: a larger severity percentage never
    gets a lower level. *)
Theorem classify_severity_monotone (pct pct' : float) :
  F64.leb pct pct' = true ->
  (severity_rank (classify_severity pct)
   <= severity_rank (classify_severity pct'))%nat.
Proof.
  intros Hle.
  destruct (classify_severity pct) eqn:E; simpl; [lia | |].
  - apply classify_severity_Medium in E. destruct E as [E _].
    assert (H : F64.gtb pct' (F64.of_Z 10) = true)
      by (unfold F64.gtb in *; eapply ltb_leb_trans; eassumption).
    unfold classify_severity. rewrite H.
    destruct (F64.gtb pct' (F64.of_Z 20)); simpl; lia.
  - apply classify_severity_High in E.
    assert (H : F64.gtb pct' (F64.of_Z 20) = true)
      by (unfold F64.gtb in *; eapply ltb_leb_trans; eassumption).
    unfold classify_severity. rewrite H. simpl. lia.
Qed.

Lemma classify_severity_monotone_witness :
  (severity_rank (classify_severity (F64.of_Z 15))
   <= severity_rank (classify_severity (F64.of_Z 25)))%nat.
Proof.
  apply classify_severity_monotone. reflexivity.
Defined.

(** ** Accuracy metrics: a perfect fit *)

Lemma sub_eqb_is_zero (t p : float) :
  F64.eqb t p = true -> F64.is_finite t = true ->
  F64.is_zero (F64.sub t p) = true.
Proof.
  intros He Hf. destruct (eqb_true_inv _ _ He) as [<- | [Ht Hp]].
  - destruct t as [s | s | | s m e]; try discriminate.
    + destruct s; reflexivity.
    + unfold F64.sub, SFsub. rewrite Z.sub_diag. reflexivity.
  - destruct t as [st | | |], p as [sp | | |]; try discriminate.
    destruct st, sp; reflexivity.
Qed.

Lemma add_zero_or_nan (x y : float) :
  zero_or_nan x -> zero_or_nan y -> zero_or_nan (F64.add x y).
Proof.
  intros [-> | ->] [-> | ->]; [left | right | right | right]; reflexivity.
Qed.

Lemma np_sum_zero (l : list float) :
  Forall (fun x => x = F64.zero) l -> F64.np_sum l = F64.zero.
Proof.
  apply (np_sum_closed (fun x => x = F64.zero)); [reflexivity |].
  intros x y -> ->. reflexivity.
Qed.

Lemma np_sum_zero_or_nan (l : list float) :
  Forall zero_or_nan l -> zero_or_nan (F64.np_sum l).
Proof.
  apply (np_sum_closed zero_or_nan);
    [left; reflexivity | exact add_zero_or_nan].
Qed.

Lemma of_nat_pos (n : nat) :
  (exists m e, F64.of_Z (Z.of_nat (S n)) = S754_finite false m e) \/
  F64.of_Z (Z.of_nat (S n)) = S754_infinity false.
Proof.
  destruct (Z.of_nat (S n)) as [| p | p] eqn:E; try lia. apply of_Z_pos.
Qed.

Lemma np_mean_zero (l : list float) :
  l <> [] -> Forall (fun x => x = F64.zero) l -> F64.np_mean l = F64.zero.
Proof.
  intros Hne Hl. unfold F64.np_mean.
  rewrite (np_sum_zero l Hl).
  destruct l as [| x l]; [congruence |]. simpl List.length.
  destruct (of_nat_pos (List.length l)) as [(m & e & ->) | ->]; reflexivity.
Qed.

Lemma np_mean_zero_or_nan (l : list float) :
  l <> [] -> Forall zero_or_nan l -> zero_or_nan (F64.np_mean l).
Proof.
  intros Hne Hl. unfold F64.np_mean.
  destruct (np_sum_zero_or_nan l Hl) as [-> | ->];
    [| right; reflexivity].
  destruct l as [| x l]; [congruence |]. simpl List.length.
  destruct (of_nat_pos (List.length l)) as [(m & e & ->) | ->];
    left; reflexivity.
Qed.

Lemma combine_all_valid (y_true y_pred : list float) :
  Forall2 (fun t p => F64.eqb t p = true /\ F64.is_finite t = true)
          y_true y_pred ->
  valid_pairs y_true y_pred = combine y_true y_pred /\
  Forall (fun tp => F64.eqb (fst tp) (snd tp) = true /\
                    F64.is_finite (fst tp) = true)
         (combine y_true y_pred).
Proof.
  unfold valid_pairs.
  induction 1 as [| t p lt lp [He Hf] _ [IH1 IH2]]; simpl; [auto |].
  assert (Hv : valid_pair (t, p) = true).
  { unfold valid_pair. simpl.
    destruct t; try discriminate Hf; destruct p; try reflexivity;
      discriminate He. }
  rewrite Hv, IH1. split; [reflexivity |]. constructor; auto.
Qed.

(** X5.  When every prediction equals its actual value and the values are
    finite, the three metrics are all [0.0], also when some actual value is
    zero: the MAPE term of such a pair is NaN and the guard returns [0.0]. *)
Theorem perfect_fit_metrics (y_true y_pred : list float) :
  Forall2 (fun t p => F64.eqb t p = true /\ F64.is_finite t = true)
          y_true y_pred ->
  calculate_metrics y_true y_pred = Some zero_metrics.
Proof.
  intros Hfit.
  rewrite (calculate_metrics_pairs _ _ (Forall2_length Hfit)).
  destruct (combine_all_valid _ _ Hfit) as [-> Hall].
  destruct (combine y_true y_pred) as [| tp l] eqn:E; [reflexivity |].
  assert (Hne : forall f : float * float -> float,
             map f (combine y_true y_pred) <> []).
  { intros f Hnil. apply map_eq_nil in Hnil. congruence. }
  rewrite <- E in *. clear E tp l.
  assert (Hsub : Forall (fun tp => F64.is_zero (F64.sub (fst tp) (snd tp)) = true)
                   (combine y_true y_pred)).
  { eapply Forall_impl; [| exact Hall]. intros tp [He Hf].
    now apply sub_eqb_is_zero. }
  assert (Hmae : F64.np_mean (map abs_error (combine y_true y_pred)) = F64.zero).
  { apply np_mean_zero; [apply Hne |]. apply Forall_map.
    eapply Forall_impl; [| exact Hsub]. intros tp. unfold abs_error.
    destruct (F64.sub (fst tp) (snd tp)); try discriminate. reflexivity. }
  assert (Hmse : F64.np_mean (map squared_error (combine y_true y_pred))
                 = F64.zero).
  { apply np_mean_zero; [apply Hne |]. apply Forall_map.
    eapply Forall_impl; [| exact Hsub]. intros tp. unfold squared_error.
    destruct (F64.sub (fst tp) (snd tp)) as [s | | |]; try discriminate.
    destruct s; reflexivity. }
  assert (Hmape : zero_or_nan
                    (F64.np_mean (map abs_pct_error (combine y_true y_pred)))).
  { apply np_mean_zero_or_nan; [apply Hne |]. apply Forall_map.
    rewrite Forall_forall in Hall, Hsub. apply Forall_forall.
    intros tp Hin. specialize (Hall tp Hin). specialize (Hsub tp Hin).
    destruct Hall as [_ Hf]. unfold abs_pct_error.
    revert Hsub Hf. generalize (F64.sub (fst tp) (snd tp)).
    intros d Hd Hf. destruct d as [s | | |]; try discriminate.
    destruct (fst tp) as [st | | | st mt et]; try discriminate;
      [right | left]; reflexivity. }
  cbv zeta. rewrite Hmae, Hmse.
  destruct Hmape as [-> | ->]; reflexivity.
Qed.

Lemma perfect_fit_metrics_witness :
  calculate_metrics SamplePerfect.y_true SamplePerfect.y_pred
  = Some zero_metrics.
Proof.
  apply perfect_fit_metrics.
  repeat constructor.
Defined.

(** ** Accuracy metrics: symmetry *)

Lemma abs_binary_normalize_opp (z e : Z) :
  SFabs (binary_normalize F64.prec F64.emax z e false) =
  SFabs (binary_normalize F64.prec F64.emax (- z) e false).
Proof.
  destruct z as [| p | p]; simpl; [reflexivity | |];
    unfold binary_round;
    destruct (shl_align p e _) as [mz ez]; apply abs_binary_round_aux.
Qed.

(** The distance between two values does not depend on their order. *)
Lemma abs_sub_comm (a b : float) :
  F64.abs (F64.sub a b) = F64.abs (F64.sub b a).
Proof.
  unfold F64.abs, F64.sub.
  destruct a as [sa | sa | | sa ma ea], b as [sb | sb | | sb mb eb];
    try reflexivity; try (destruct sa, sb; reflexivity).
  unfold SFsub. rewrite (Z.min_comm eb ea).
  rewrite abs_binary_normalize_opp. do 2 f_equal. lia.
Qed.

Lemma mul_self_abs (d d' : float) :
  F64.abs d = F64.abs d' -> F64.mul d d = F64.mul d' d'.
Proof.
  unfold F64.abs, F64.mul.
  destruct d as [s | s | | s m e], d' as [s' | s' | | s' m' e'];
    simpl; intros H; try discriminate H; try reflexivity;
    try (destruct s, s'; reflexivity).
  injection H as -> ->. destruct s, s'; reflexivity.
Qed.

Lemma valid_pairs_swap (a b : list float) :
  valid_pairs b a = map (fun tp => (snd tp, fst tp)) (valid_pairs a b).
Proof.
  unfold valid_pairs. revert b.
  induction a as [| x a IH]; intros [| y b]; simpl; try reflexivity.
  assert (Hv : valid_pair (y, x) = valid_pair (x, y))
    by (unfold valid_pair; simpl; apply andb_comm).
  rewrite Hv. destruct (valid_pair (x, y)); simpl; rewrite IH; reflexivity.
Qed.

(** X6.  MAE and RMSE do not change when the actual and the predicted
    values are exchanged (MAPE does, as it divides by the actual value); when
    the lengths differ the two calls raise together or return the same zero
    metrics together. *)
Theorem mae_rmse_symmetric (y_true y_pred : list float) :
  option_map MAE (calculate_metrics y_true y_pred)
    = option_map MAE (calculate_metrics y_pred y_true) /\
  option_map RMSE (calculate_metrics y_true y_pred)
    = option_map RMSE (calculate_metrics y_pred y_true).
Proof.
  destruct (Nat.eqb (List.length y_true) (List.length y_pred)) eqn:El.
  - apply Nat.eqb_eq in El.
    rewrite (calculate_metrics_pairs _ _ El).
    rewrite (calculate_metrics_pairs _ _ (eq_sym El)).
    rewrite (valid_pairs_swap y_true y_pred).
    destruct (valid_pairs y_true y_pred) as [| tp l]; [split; reflexivity |].
    set (l' := tp :: l).
    assert (Hmae : map abs_error (map (fun tp => (snd tp, fst tp)) l')
                   = map abs_error l').
    { rewrite map_map. apply map_ext. intros [t p]. unfold abs_error. simpl.
      apply abs_sub_comm. }
    assert (Hmse : map squared_error (map (fun tp => (snd tp, fst tp)) l')
                   = map squared_error l').
    { rewrite map_map. apply map_ext. intros [t p]. unfold squared_error.
      simpl. apply mul_self_abs, abs_sub_comm. }
    cbv zeta. simpl option_map. unfold l' in *.
    simpl map in Hmae, Hmse |- *. rewrite Hmae, Hmse. split; reflexivity.
  - apply Nat.eqb_neq in El.
    rewrite (calculate_metrics_mismatch _ _ El).
    rewrite (calculate_metrics_mismatch y_pred y_true) by congruence.
    destruct y_true as [| t [| t' y_true]];
      destruct y_pred as [| p [| p' y_pred]]; split; reflexivity.
Qed.

(** ** Accuracy metrics: arrays of different lengths *)

(** X23.  On arrays of different lengths [calculate_metrics] raises, with
    one exception: when one array is empty and the other holds a single
    value, the mask is empty, it selects nothing from either array, and the
    three metrics are [0.0]. *)
Theorem metrics_of_unequal_lengths (y_true y_pred : list float) :
  List.length y_true <> List.length y_pred ->
  calculate_metrics y_true y_pred =
  if Nat.eqb (List.length y_true + List.length y_pred) 1
  then Some zero_metrics else None.
Proof.
  intros Hlen. rewrite (calculate_metrics_mismatch _ _ Hlen).
  destruct y_true as [| t [| t' y_true]];
    destruct y_pred as [| p [| p' y_pred]];
    try reflexivity; exfalso; apply Hlen; reflexivity.
Qed.

Lemma metrics_of_unequal_lengths_witness :
  calculate_metrics [] SampleMetrics.y_pred_one = Some zero_metrics /\
  calculate_metrics SampleMetrics.y_true_zero SampleMetrics.y_pred_one = None.
Proof.
  split.
  - apply (metrics_of_unequal_lengths [] SampleMetrics.y_pred_one).
    discriminate.
  - apply (metrics_of_unequal_lengths SampleMetrics.y_true_zero
             SampleMetrics.y_pred_one).
    discriminate.
Defined.

(** ** Column normalisation: errors and result *)

Local Open Scope string_scope.

Lemma date_name_not_empty (d : string) :
  mem (lower d) date_names = true -> falsy (Some d) = false.
Proof.
  intros H. simpl. destruct (String.eqb_spec d ""); [| reflexivity].
  subst. discriminate H.
Qed.

Lemma detect_date_col_none (df : DataFrame) :
  detect_date_col df = None <->
  Forall (fun n => mem (lower n) date_names = false) (column_names df).
Proof.
  unfold detect_date_col. split.
  - destruct (mem "ds" (column_names df)); [discriminate |].
    intros H. apply Forall_forall. intros n Hn.
    exact (find_none _ _ H n Hn).
  - intros H. rewrite Forall_forall in H.
    destruct (mem "ds" (column_names df)) eqn:E.
    + apply mem_In in E. apply H in E. discriminate E.
    + destruct (find _ (column_names df)) as [d |] eqn:Ef; [| reflexivity].
      apply find_some in Ef. destruct Ef as [Hin Hd].
      rewrite (H d Hin) in Hd. discriminate.
Qed.

Section NormalizeErrors.

Variable parse_number : string -> option float.

(** X7.  [normalize_columns] fails for want of a date column exactly when no
    column name, lower-cased, is one of [date], [ds], [timestamp], [time];
    this is checked first, so a frame with neither a date nor a target column
    reports the missing date column. *)
Theorem no_date_column_iff (df : DataFrame) :
  normalize_columns parse_number df = Raise NoDateColumn <->
  Forall (fun n => mem (lower n) date_names = false) (column_names df).
Proof.
  rewrite <- detect_date_col_none. unfold normalize_columns.
  destruct (detect_date_col df) as [d |] eqn:Ed.
  - apply detect_date_col_inv in Ed. destruct Ed as [_ Ed].
    rewrite (date_name_not_empty d Ed). simpl bind at 1.
    split; [| discriminate]. intros H. exfalso.
    destruct (detect_target_col df d) as [t |]; [| discriminate H].
    destruct (falsy (Some t)); [discriminate H |]. simpl bind at 1 in H.
    destruct (coerce_and_dropna _ _ _) as [df' | e] eqn:Ec; [discriminate H |].
    apply coerce_and_dropna_error in Ec. simpl in H.
    injection H as ->. destruct Ec; discriminate.
  - simpl. split; reflexivity.
Qed.



End NormalizeErrors.


(** *** The frame that is returned *)

Lemma filter_renamed (df : DataFrame) (d t : string) (c : string * column)
  (new : string) :
  NoDup (column_names df) -> In c (columns df) ->
  (forall n, In n (column_names df) ->
             String.eqb (rename d t n) new = String.eqb n (fst c)) ->
  filter (fun x => String.eqb (fst x) new)
         (map (fun x => (rename d t (fst x), snd x)) (columns df))
  = [(new, snd c)].
Proof.
  intros Hnd Hc Hren. rewrite filter_map_comm. simpl fst.
  rewrite (filter_ext_in _ (fun x => String.eqb (fst x) (fst c))).
  - rewrite (filter_named_unique _ c Hnd Hc). simpl. f_equal. f_equal.
    apply String.eqb_eq. rewrite Hren by (now apply in_map).
    apply String.eqb_refl.
  - intros x Hx. apply Hren. now apply in_map.
Qed.

Section NormalizeFrame.

Variable parse_number : string -> option float.

(** X9.  On a frame with distinct column names [normalize_columns] never
    fails otherwise than for want of a date or of a target column; when it
    returns, the frame has exactly the two columns [ds] and [y] in this order:
    [y] holds the coerced values of the target column that are not NaN, [ds]
    and the row labels hold the entries of the same rows, in their order. *)
Theorem normalize_columns_result (df : DataFrame) :
  NoDup (column_names df) ->
  match normalize_columns parse_number df with
  | Ok r =>
      exists d t dcol tcol,
        detect_date_col df = Some d /\ detect_target_col df d = Some t /\
        In (d, dcol) (columns df) /\ In (t, tcol) (columns df) /\
        let y := to_numeric parse_number tcol in
        let keep := map (fun v => negb (F64.isnan v)) y in
        r = {| index := select_rows keep (index df);
               columns :=
                 [("ds", filter_column keep dcol);
                  ("y", NumCol (filter (fun v => negb (F64.isnan v)) y))] |}
  | Raise e => e = NoDateColumn \/ e = NoTargetColumn
  end.
Proof.
  intros Hnd. unfold normalize_columns.
  destruct (detect_date_col df) as [d |] eqn:Ed; [| simpl; auto].
  destruct (falsy (Some d)); [simpl; auto |]. simpl bind at 1.
  destruct (detect_target_col df d) as [t |] eqn:Et; [| simpl; auto].
  destruct (falsy (Some t)); [simpl; auto |]. simpl bind at 1.
  pose proof (date_col_not_target _ _ _ Ed Et) as Hdt.
  assert (Hdin : In d (column_names df))
    by (apply detect_date_col_inv in Ed; tauto).
  assert (Htin : In t (column_names df)).
  { destruct (detect_target_col_inv _ _ _ Et) as [[-> H] | [H _]]; exact H. }
  unfold column_names in Hdin, Htin.
  apply in_map_iff in Hdin. destruct Hdin as ([d' dcol] & Hd' & Hdc).
  apply in_map_iff in Htin. destruct Htin as ([t' tcol] & Ht' & Htc).
  simpl in Hd', Ht'. subst d' t'.
  assert (Hy : filter (fun x => String.eqb (fst x) "y")
                 (map (fun x => (rename d t (fst x), snd x)) (columns df))
               = [("y", tcol)]).
  { apply (filter_renamed df d t (t, tcol) "y" Hnd Htc).
    intros n Hn. exact (rename_is_y df d t n Et Hn). }
  assert (Hds : filter (fun x => String.eqb (fst x) "ds")
                  (map (fun x => (rename d t (fst x), snd x)) (columns df))
                = [("ds", dcol)]).
  { apply (filter_renamed df d t (d, dcol) "ds" Hnd Hdc).
    intros n Hn. exact (rename_is_ds df d t n Ed Hdt Hn). }
  unfold coerce_and_dropna. rewrite Hy. simpl bind. cbv zeta.
  exists d, t, dcol, tcol.
  repeat (split; [first [assumption | reflexivity] |]).
  f_equal. unfold select_columns. simpl flat_map. rewrite app_nil_r.
  rewrite !(filter_named_map
              (fun c => (fst c, filter_column _ (snd c)))) by reflexivity.
  rewrite !(filter_named_map
              (fun c => if String.eqb (fst c) "y" then _ else c))
    by (intros c; destruct (String.eqb (fst c) "y"); reflexivity).
  rewrite Hy, Hds. simpl. rewrite select_rows_map_self. reflexivity.
Qed.

End NormalizeFrame.

Lemma normalize_columns_result_witness :
  exists r,
    normalize_columns SampleFrames.parse_nothing SampleFrames.sales = Ok r /\
    column_names r = ["ds"; "y"].
Proof.
  assert (Hnd : NoDup (column_names SampleFrames.sales)).
  { unfold column_names. simpl. repeat constructor; simpl;
      intuition discriminate. }
  pose proof (normalize_columns_result SampleFrames.parse_nothing
                SampleFrames.sales Hnd) as H.
  destruct (normalize_columns SampleFrames.parse_nothing SampleFrames.sales)
    as [r | e] eqn:E; [| vm_compute in E; discriminate E].
  exists r. split; [reflexivity |].
  destruct H as (d & t & dcol & tcol & _ & _ & _ & _ & H).
  cbv zeta in H. rewrite H. reflexivity.
Defined.

(** *** Rows stay aligned *)

Lemma select_rows_length_eq {A : Type} (mask : list bool) (v : list A) :
  List.length v = List.length mask ->
  List.length (select_rows mask v) = List.length (filter (fun b => b) mask).
Proof.
  unfold select_rows. revert mask.
  induction v as [| x v IH]; intros [| b mask] Hlen; simpl in *;
    try reflexivity; try discriminate.
  injection Hlen as Hlen. destruct b; simpl; rewrite (IH _ Hlen); reflexivity.
Qed.

Lemma filter_column_length_eq (mask : list bool) (c : column) :
  column_length c = List.length mask ->
  column_length (filter_column mask c)
  = List.length (filter (fun b => b) mask).
Proof. destruct c; simpl; apply select_rows_length_eq. Qed.

Lemma filter_true_length_le (mask : list bool) :
  (List.length (filter (fun b => b) mask) <= List.length mask)%nat.
Proof. apply filter_length_le. Qed.

Section NormalizeShape.

Variable parse_number : string -> option float.

Lemma to_numeric_length (c : column) :
  List.length (to_numeric parse_number c) = column_length c.
Proof. destruct c; simpl; [reflexivity | apply length_map]. Qed.

Lemma coerce_and_dropna_well_formed (idx : list Z)
  (cols : list (string * column)) (df' : DataFrame) :
  Forall (fun c => column_length (snd c) = List.length idx) cols ->
  coerce_and_dropna parse_number idx cols = Ok df' ->
  well_formed df' /\ (List.length (index df') <= List.length idx)%nat.
Proof.
  intros Hwf. unfold coerce_and_dropna.
  destruct (filter (fun c => String.eqb (fst c) "y") cols)
    as [| [n ycol] [| c' l]] eqn:Ey; try discriminate.
  intros [= <-].
  assert (Hin : In (n, ycol) cols).
  { assert (H : In (n, ycol) (filter (fun c => String.eqb (fst c) "y") cols))
      by (rewrite Ey; left; reflexivity).
    apply filter_In in H. tauto. }
  rewrite Forall_forall in Hwf.
  assert (Hy : List.length (to_numeric parse_number ycol) = List.length idx)
    by (rewrite to_numeric_length; exact (Hwf _ Hin)).
  set (mask := map (fun v => negb (F64.isnan v)) (to_numeric parse_number ycol)).
  assert (Hmask : List.length mask = List.length idx)
    by (unfold mask; rewrite length_map; exact Hy).
  unfold well_formed. simpl. split.
  - rewrite select_rows_length_eq by (symmetry; exact Hmask).
    rewrite !Forall_map. apply Forall_forall. intros c Hc. simpl.
    apply filter_column_length_eq.
    destruct (String.eqb (fst c) "y"); simpl.
    + rewrite Hy. symmetry. exact Hmask.
    + rewrite (Hwf c Hc). symmetry. exact Hmask.
  - rewrite select_rows_length_eq by (symmetry; exact Hmask).
    rewrite <- Hmask. apply filter_true_length_le.
Qed.

(** X10.  On a frame in which every column has one value per row label,
    [normalize_columns] returns a frame of the same kind: rows are dropped
    from the labels and from every column together, and none is added. *)
Theorem normalize_columns_well_formed (df r : DataFrame) :
  well_formed df ->
  normalize_columns parse_number df = Ok r ->
  well_formed r /\
  (List.length (index r) <= List.length (index df))%nat.
Proof.
  intros Hwf. unfold normalize_columns.
  destruct (detect_date_col df) as [d |]; [| discriminate].
  destruct (falsy (Some d)); [discriminate |]. simpl bind at 1.
  destruct (detect_target_col df d) as [t |]; [| discriminate].
  destruct (falsy (Some t)); [discriminate |]. simpl bind at 1.
  destruct (coerce_and_dropna _ _ _) as [df' |] eqn:Ec; [| discriminate].
  simpl. intros [= <-].
  apply coerce_and_dropna_well_formed in Ec.
  - destruct Ec as [Hwf' Hlen]. split; [| exact Hlen].
    unfold well_formed in *. simpl. rewrite Forall_forall in Hwf'.
    apply Forall_forall. intros c Hc. apply Hwf'.
    repeat (apply in_app_or in Hc; destruct Hc as [Hc | Hc];
            [apply filter_In in Hc; tauto |]).
    contradiction.
  - unfold well_formed in Hwf. rewrite Forall_map. exact Hwf.
Qed.

End NormalizeShape.

Lemma normalize_columns_well_formed_witness :
  well_formed SampleFrames.sales_normalized /\
  (List.length (index SampleFrames.sales_normalized)
   <= List.length (index SampleFrames.sales))%nat.
Proof.
  apply (normalize_columns_well_formed SampleFrames.parse_nothing
           SampleFrames.sales SampleFrames.sales_normalized).
  - repeat constructor.
  - reflexivity.
Defined.

(** ** Insight generation: when it fails *)

Local Close Scope string_scope.

Lemma iloc_last_none {A : Type} (l : list A) : iloc_last l = None <-> l = [].
Proof.
  split; [| intros ->; reflexivity].
  destruct l as [| x l]; [reflexivity |]. intros H. exfalso.
  destruct (iloc_last_some (x :: l)) as [y Hy]; [discriminate | congruence].
Qed.

Lemma idxmax_none (rows : list forecast_row) :
  idxmax None rows = None <->
  Forall (fun r => F64.isnan (f_yhat r) = true) rows.
Proof.
  induction rows as [| r rows IH]; simpl.
  - split; [constructor | reflexivity].
  - destruct (F64.isnan (f_yhat r)) eqn:E.
    + rewrite IH. split; [now constructor |].
      intros H. now inversion H.
    + split.
      * intros H. destruct (idxmax_some rows r) as [p Hp]. congruence.
      * intros H. inversion H. congruence.
Qed.

Lemma peak_rule_future (forecast : list forecast_row)
  (history : list actual_row) (o : output) :
  history <> [] ->
  peak_rule forecast history o =
  match future_of forecast history with
  | [] => Some o
  | _ :: _ =>
      match idxmax None (future_of forecast history) with
      | None => None
      | Some peak =>
          Some (emit_recommendation (PeakReadiness (f_ds peak))
                  (emit_insight (ForecastPeak (f_yhat peak) (f_ds peak)) o))
      end
  end.
Proof.
  intros Hne. unfold peak_rule, future_of.
  destruct history as [| a history]; [congruence |]. simpl map. cbv iota.
  destruct (filter _ forecast); reflexivity.
Qed.

(** X11.  [generate_insights] raises in three cases only: the history is
    empty, the forecast is empty, or there are forecast rows after the last
    historical day and the estimate of every one of them is NaN. *)
Theorem generate_insights_raises_iff (forecast : list forecast_row)
  (anomalies : list anomaly) (history : list actual_row) :
  generate_insights forecast anomalies history = None <->
  history = [] \/ forecast = [] \/
  (future_of forecast history <> [] /\
   Forall (fun r => F64.isnan (f_yhat r) = true) (future_of forecast history)).
Proof.
  unfold generate_insights, option_bind.
  destruct (iloc_last history) as [h |] eqn:Eh.
  - assert (Hh : history <> [])
      by (intros ->; discriminate Eh).
    destruct (iloc_last forecast) as [f |] eqn:Ef.
    + assert (Hf : forecast <> []) by (intros ->; discriminate Ef).
      assert (H1 : exists o1, trend_rule forecast history ([], []) = Some o1)
        by (unfold trend_rule; rewrite Eh, Ef; eauto).
      destruct H1 as [o1 ->].
      rewrite (peak_rule_future _ _ _ Hh).
      assert (Hconf : forall o, confidence_rule forecast o <> None).
      { intros o. unfold confidence_rule. rewrite Ef. cbv zeta.
        destruct (F64.ltb _ (F64.of_Z 15)); discriminate. }
      destruct (future_of forecast history) as [| r rows] eqn:Efut.
      * split; [intros H; now apply Hconf in H |].
        intros [H | [H | [H _]]]; congruence.
      * destruct (idxmax None (r :: rows)) as [p |] eqn:Ep.
        -- split; [intros H; now apply Hconf in H |].
           intros [H | [H | [_ H]]]; try congruence.
           apply idxmax_none in H. congruence.
        -- split; [| reflexivity]. intros _. right. right.
           split; [discriminate | now apply idxmax_none].
    + apply iloc_last_none in Ef. unfold trend_rule. rewrite Eh.
      subst forecast. simpl. split; auto.
  - apply iloc_last_none in Eh. subst history. simpl. split; auto.
Qed.

(** ** Insight generation: the peak *)







Lemma generate_insights_steps (forecast : list forecast_row)
  (anomalies : list anomaly) (history : list actual_row) (o : output) :
  generate_insights forecast anomalies history = Some o ->
  exists o1 o2,
    trend_rule forecast history ([], []) = Some o1 /\
    peak_rule forecast history o1 = Some o2 /\
    confidence_rule forecast (anomaly_rule anomalies o2) = Some o.
Proof.
  unfold generate_insights, option_bind.
  destruct (trend_rule forecast history ([], [])) as [o1 |]; [| discriminate].
  destruct (peak_rule forecast history o1) as [o2 |] eqn:E2; [| discriminate].
  intros H. exists o1, o2. auto.
Qed.





(** ** Insight generation: recommendations follow insights *)

Lemma summary_risk (anomalies : list anomaly) :
  In RiskMitigation (snd (summary_part anomalies)) <->
  filter is_high anomalies <> [].
Proof.
  destruct (summary_part_cases anomalies)
    as [[Ha ->] | [(Ha & Hh & ->) | [Hh ->]]]; simpl.
  - subst anomalies. simpl. split; [contradiction | congruence].
  - rewrite Hh. split; [contradiction | congruence].
  - split; auto.
Qed.

Lemma summary_critical (anomalies : list anomaly) :
  (exists n, In (CriticalVolatility n) (fst (summary_part anomalies))) <->
  filter is_high anomalies <> [].
Proof.
  destruct (summary_part_cases anomalies)
    as [[Ha ->] | [(Ha & Hh & ->) | [Hh ->]]]; simpl.
  - subst anomalies. simpl. split; [| congruence].
    intros (n & [H | []]). discriminate H.
  - rewrite Hh. split; [| congruence].
    intros (n & [H | []]). discriminate H.
  - split; [auto |]. intros _. eexists. left. reflexivity.
Qed.

Lemma summary_recommendations (anomalies : list anomaly) (r : recommendation) :
  In r (snd (summary_part anomalies)) -> r = RiskMitigation.
Proof.
  destruct (summary_part_cases anomalies)
    as [[Ha ->] | [(Ha & Hh & ->) | [Hh ->]]]; simpl;
    intros H; try contradiction. destruct H as [<- | []]. reflexivity.
Qed.

Lemma summary_insights (anomalies : list anomaly) (i : insight) :
  In i (fst (summary_part anomalies)) ->
  is_critical i = true \/ is_anomaly_summary i = true.
Proof.
  destruct (summary_part_cases anomalies)
    as [[Ha ->] | [(Ha & Hh & ->) | [Hh ->]]]; simpl;
    intros H; repeat (destruct H as [<- | H]; [auto |]); contradiction.
Qed.

(** X13.  Beyond the trend recommendation, each recommendation goes with one
    insight of the same run: risk mitigation with the critical-volatility
    insight (some anomaly is of High severity), data refinement with the
    variable-forecast insight, peak readiness with the peak insight of the
    same day; the two confidence insights exclude each other. *)
Theorem recommendations_follow_insights (forecast : list forecast_row)
  (anomalies : list anomaly) (history : list actual_row) (o : output) :
  generate_insights forecast anomalies history = Some o ->
  (In RiskMitigation (snd o) <-> existsb is_high anomalies = true) /\
  (In RiskMitigation (snd o) <->
   exists n, In (CriticalVolatility n) (fst o)) /\
  (In DataRefinement (snd o) <-> In VariableForecast (fst o)) /\
  (In VariableForecast (fst o) <-> ~ In HighConfidence (fst o)) /\
  (forall t, In (PeakReadiness t) (snd o) <->
             exists v, In (ForecastPeak v t) (fst o)).
Proof.
  intros Hrun.
  destruct (generate_insights_shape _ _ _ _ Hrun)
    as (trend & trend_rec & peak & narrow & Ht & Hr & -> & ->).
  rewrite existsb_is_high_filter.
  pose proof (summary_risk anomalies) as Hrisk.
  pose proof (summary_critical anomalies) as Hcrit.
  pose proof (summary_recommendations anomalies) as Hrecs.
  pose proof (summary_insights anomalies) as Hins.
  set (P_i := match peak with
              | Some p => [ForecastPeak (f_yhat p) (f_ds p)]
              | None => []
              end).
  set (P_r := match peak with
              | Some p => [PeakReadiness (f_ds p)]
              | None => []
              end).
  set (C := if narrow then HighConfidence else VariableForecast).
  set (D := if narrow then [] else [DataRefinement]).
  assert (HPi : forall i, In i P_i -> is_peak i = true)
    by (intros i; unfold P_i; destruct peak; simpl;
        [intros [<- | []]; reflexivity | contradiction]).
  assert (HPr : forall r, In r P_r -> exists t, r = PeakReadiness t)
    by (intros r; unfold P_r; destruct peak; simpl;
        [intros [<- | []]; eauto | contradiction]).
  assert (HD : forall r, In r D -> r = DataRefinement)
    by (intros r; unfold D; destruct narrow; simpl;
        [contradiction | intros [<- | []]; reflexivity]).
  assert (HC : is_confidence C = true) by (unfold C; destruct narrow; reflexivity).
  simpl fst. simpl snd.
  assert (Hrisk_in : In RiskMitigation ([trend_rec] ++ P_r ++ snd (summary_part anomalies) ++ D)
                     <-> filter is_high anomalies <> []).
  { rewrite !in_app_iff. split.
    - intros [[H | []] | [H | [H | H]]].
      + subst trend_rec. discriminate Hr.
      + apply HPr in H. destruct H as [t H]. discriminate H.
      + now apply Hrisk.
      + apply HD in H. discriminate H.
    - intros H. right. right. left. now apply Hrisk. }
  split; [exact Hrisk_in |]. split.
  { rewrite Hrisk_in, <- Hcrit. split.
    - intros [n H]. exists n. rewrite !in_app_iff. auto.
    - intros [n H]. exists n. rewrite !in_app_iff in H.
      destruct H as [[H | []] | [H | [H | [H | []]]]].
      + subst trend. discriminate Ht.
      + apply HPi in H. discriminate H.
      + exact H.
      + unfold C in H. destruct narrow; discriminate H. }
  split.
  { rewrite !in_app_iff. split.
    - intros [[H | []] | [H | [H | H]]].
      + subst trend_rec. discriminate Hr.
      + apply HPr in H. destruct H as [t H]. discriminate H.
      + apply Hrecs in H. discriminate H.
      + unfold D in H. unfold C. destruct narrow; [contradiction |].
        right. right. right. left. reflexivity.
    - intros [[H | []] | [H | [H | [H | []]]]].
      + subst trend. discriminate Ht.
      + apply HPi in H. discriminate H.
      + apply Hins in H. destruct H; discriminate.
      + unfold C in H. unfold D. destruct narrow; [discriminate H |].
        right. right. right. left. reflexivity. }
  split.
  { rewrite !in_app_iff. split.
    - intros [[H | []] | [H | [H | [H | []]]]] Hhigh;
        try (subst trend; discriminate Ht);
        try (apply HPi in H; discriminate H);
        try (apply Hins in H; destruct H; discriminate).
      unfold C in H. destruct narrow; [discriminate H |].
      destruct Hhigh as [[Hh | []] | [Hh | [Hh | [Hh | []]]]].
      + subst trend. discriminate Ht.
      + apply HPi in Hh. discriminate Hh.
      + apply Hins in Hh. destruct Hh; discriminate.
      + discriminate Hh.
    - intros Hno. right. right. right. left. unfold C.
      destruct narrow; [| reflexivity].
      exfalso. apply Hno. right. right. right. left. reflexivity. }
  intros t. rewrite !in_app_iff. split.
  - intros [[H | []] | [H | [H | H]]].
    + subst trend_rec. discriminate Hr.
    + unfold P_r in H. destruct peak as [p |]; [| contradiction].
      destruct H as [H | []]. injection H as <-.
      exists (f_yhat p). rewrite !in_app_iff. right. left. left. reflexivity.
    + apply Hrecs in H. discriminate H.
    + apply HD in H. discriminate H.
  - intros [v H]. rewrite !in_app_iff in H.
    destruct H as [[H | []] | [H | [H | [H | []]]]].
    + subst trend. discriminate Ht.
    + unfold P_i in H. destruct peak as [p |]; [| contradiction].
      destruct H as [H | []]. injection H as _ <-.
      right. left. left. reflexivity.
    + apply Hins in H. destruct H; discriminate.
    + unfold C in H. destruct narrow; discriminate H.
Qed.

Lemma recommendations_follow_insights_witness :
  exists o,
    generate_insights SampleInsights.forecast SampleInsights.anomalies
                      SampleInsights.history = Some o /\
    (In RiskMitigation (snd o) <->
     existsb is_high SampleInsights.anomalies = true).
Proof.
  destruct (generate_insights SampleInsights.forecast SampleInsights.anomalies
              SampleInsights.history) as [o |] eqn:E;
    [| vm_compute in E; discriminate E].
  exists o. split; [reflexivity |].
  exact (proj1 (recommendations_follow_insights _ _ _ _ E)).
Defined.

(** ** Insight generation: the trend *)

Lemma later_rules_append (forecast : list forecast_row)
  (anomalies : list anomaly) (history : list actual_row) (o1 o2 o : output) :
  peak_rule forecast history o1 = Some o2 ->
  confidence_rule forecast (anomaly_rule anomalies o2) = Some o ->
  exists ins recs, fst o = fst o1 ++ ins /\ snd o = snd o1 ++ recs.
Proof.
  intros E2 E4. apply peak_rule_shape in E2. destruct E2 as (peak & ->).
  rewrite anomaly_rule_app in E4. apply confidence_rule_shape in E4.
  destruct E4 as (narrow & ->). simpl.
  rewrite <- !app_assoc. eauto.
Qed.

(** What rule 1 emits, and how its recommendation goes with its insight. *)
Lemma trend_rule_consistent (forecast : list forecast_row)
  (history : list actual_row) (o o' : output) :
  trend_rule forecast history o = Some o' ->
  exists i d pct rec,
    o' = (fst o ++ [TrendInsight i d pct], snd o ++ [rec]) /\
    signed false pct /\
    (i = Significant <-> F64.gtb pct (F64.of_Z 10) = true) /\
    (rec = ScaleOperations <-> d = growth /\ i = Significant) /\
    (rec = MonitorSteadyGrowth <-> d = growth /\ i <> Significant) /\
    (rec = CostOptimization <-> d = decline).
Proof.
  unfold trend_rule.
  destruct (iloc_last history) as [h |]; [| discriminate].
  destruct (iloc_last forecast) as [f |]; [| discriminate].
  cbv zeta.
  set (pct := F64.abs _).
  assert (Hs : signed false pct) by apply abs_signed.
  destruct (F64.gtb _ (F64.of_Z 0)) eqn:E0;
    destruct (F64.gtb pct (F64.of_Z 10)) eqn:E10;
    try destruct (F64.gtb pct (F64.of_Z 3)) eqn:E3;
    intros [= <-]; do 4 eexists;
    (split; [reflexivity |]); (split; [exact Hs |]);
    repeat split; intros; try discriminate; try congruence;
    try (match goal with H : _ /\ _ |- _ => destruct H end;
         try discriminate; try congruence).
Qed.

(** X14.  The first insight is the trend insight and the first
    recommendation follows it: scale operations for a Significant growth,
    monitor steady growth for any other growth, cost optimization for a
    decline of any size. *)
Theorem trend_recommendation_follows_insight (forecast : list forecast_row)
  (anomalies : list anomaly) (history : list actual_row) (o : output) :
  generate_insights forecast anomalies history = Some o ->
  exists i d pct rec ins recs,
    fst o = TrendInsight i d pct :: ins /\ snd o = rec :: recs /\
    signed false pct /\
    (i = Significant <-> F64.gtb pct (F64.of_Z 10) = true) /\
    (rec = ScaleOperations <-> d = growth /\ i = Significant) /\
    (rec = MonitorSteadyGrowth <-> d = growth /\ i <> Significant) /\
    (rec = CostOptimization <-> d = decline).
Proof.
  intros Hrun.
  destruct (generate_insights_steps _ _ _ _ Hrun) as (o1 & o2 & E1 & E2 & E4).
  apply trend_rule_consistent in E1.
  destruct E1 as (i & d & pct & rec & -> & Hs & H).
  destruct (later_rules_append _ _ _ _ _ _ E2 E4) as (ins & recs & Hi & Hr).
  exists i, d, pct, rec, ins, recs. simpl in Hi, Hr. auto.
Qed.

Lemma trend_recommendation_follows_insight_witness :
  exists o i d pct rec ins recs,
    generate_insights SampleInsights.forecast SampleInsights.anomalies
                      SampleInsights.history = Some o /\
    fst o = TrendInsight i d pct :: ins /\ snd o = rec :: recs /\
    (rec = CostOptimization <-> d = decline).
Proof.
  destruct (generate_insights SampleInsights.forecast SampleInsights.anomalies
              SampleInsights.history) as [o |] eqn:E;
    [| vm_compute in E; discriminate E].
  destruct (trend_recommendation_follows_insight _ _ _ _ E)
    as (i & d & pct & rec & ins & recs & Hi & Hr & _ & _ & _ & _ & H).
  exists o, i, d, pct, rec, ins, recs. auto.
Defined.

(** X15.  When the last historical value is a zero the trend percentage
    divides by it.  With a positive last estimate the percentage is the
    infinity that has the sign of that zero: a Significant growth with the
    scale-operations recommendation after [+0.0], a Significant decline with
    the cost-optimization recommendation after [-0.0].  With a last estimate
    that is zero as well the percentage is NaN, which reads as a Minimal
    decline. *)
Theorem trend_after_zero (forecast : list forecast_row)
  (anomalies : list anomaly) (history : list actual_row) (o : output)
  (h : actual_row) (f : forecast_row) (s : bool) :
  iloc_last history = Some h -> iloc_last forecast = Some f ->
  a_y h = S754_zero s ->
  generate_insights forecast anomalies history = Some o ->
  (F64.ltb (F64.of_Z 0) (f_yhat f) = true ->
   hd_error (fst o)
     = Some (TrendInsight Significant (if s then decline else growth) F64.inf) /\
   hd_error (snd o) = Some (if s then CostOptimization else ScaleOperations)) /\
  (F64.is_zero (f_yhat f) = true ->
   hd_error (fst o) = Some (TrendInsight Minimal decline F64.nan) /\
   hd_error (snd o) = Some CostOptimization).
Proof.
  intros Eh Ef Hz Hrun.
  destruct (generate_insights_steps _ _ _ _ Hrun) as (o1 & o2 & E1 & E2 & E4).
  destruct (later_rules_append _ _ _ _ _ _ E2 E4) as (ins & recs & -> & ->).
  unfold trend_rule in E1. rewrite Eh, Ef, Hz in E1. cbv zeta in E1.
  split.
  - intros Hpos.
    destruct (f_yhat f) as [sf | sf | | sf mf ef]; try discriminate Hpos;
      destruct sf; try discriminate Hpos;
      destruct s; injection E1 as <-; split; reflexivity.
  - intros H0.
    destruct (f_yhat f) as [sf | | |]; try discriminate H0.
    destruct sf, s; injection E1 as <-; split; reflexivity.
Qed.

Lemma trend_after_zero_witness :
  exists o,
    generate_insights SampleEdges.forecast_up [] (SampleEdges.history_zero true)
      = Some o /\
    hd_error (fst o) = Some (TrendInsight Significant decline F64.inf) /\
    hd_error (snd o) = Some CostOptimization.
Proof.
  destruct (generate_insights SampleEdges.forecast_up []
              (SampleEdges.history_zero true)) as [o |] eqn:E;
    [| vm_compute in E; discriminate E].
  exists o. split; [reflexivity |].
  apply (proj1 (trend_after_zero SampleEdges.forecast_up []
                  (SampleEdges.history_zero true) o
                  {| a_ds := 2; a_y := S754_zero true |} (Sample.fr 3 5 4 6) true
                  eq_refl eq_refl eq_refl E)).
  reflexivity.
Defined.

(** ** Insight generation: confidence below zero *)

Lemma shr_fexp_nonneg (m e : Z) (l : location) :
  0 <= m -> 0 <= shr_m (fst (shr_fexp F64.prec F64.emax m e l)).
Proof.
  intros Hm. unfold shr_fexp, shr.
  assert (Hrec : shr_m (shr_record_of_loc m l) = m)
    by (destruct l as [| []]; reflexivity).
  destruct (fexp F64.prec F64.emax (Zdigits2 m + e) - e) as [| n | n];
    simpl fst; try (rewrite Hrec; exact Hm).
  rewrite iter_pos_shr_1_m by (rewrite Hrec; exact Hm).
  rewrite Hrec. now apply Z.shiftr_nonneg.
Qed.

Lemma round_nearest_even_nonneg (m : Z) (l : location) :
  0 <= m -> 0 <= round_nearest_even m l.
Proof.
  intros Hm. unfold round_nearest_even.
  destruct l as [| []]; try lia. destruct (Z.even m); lia.
Qed.

(** Rounding a mantissa that is not negative never gives NaN. *)
Lemma binary_round_aux_not_nan (s : bool) (m e : Z) (l : location) :
  0 <= m -> F64.isnan (binary_round_aux F64.prec F64.emax s m e l) = false.
Proof.
  intros Hm. unfold binary_round_aux.
  pose proof (shr_fexp_nonneg m e l Hm) as H1.
  destruct (shr_fexp F64.prec F64.emax m e l) as [mrs' e']. simpl in H1.
  pose proof (round_nearest_even_nonneg _ (loc_of_shr_record mrs') H1) as H2.
  pose proof (shr_fexp_nonneg _ e' loc_Exact H2) as H3.
  destruct (shr_fexp F64.prec F64.emax _ e' loc_Exact) as [mrs'' e''].
  simpl in H3. destruct (shr_m mrs'') as [| p | p]; try lia; [reflexivity |].
  destruct (e'' <=? F64.emax - F64.prec); reflexivity.
Qed.

Lemma SFdiv_core_binary_nonneg (m1 m2 : positive) (e1 e2 q e' : Z)
  (l : location) :
  SFdiv_core_binary F64.prec F64.emax (Zpos m1) e1 (Zpos m2) e2 = (q, e', l) ->
  0 <= q.
Proof.
  unfold SFdiv_core_binary.
  set (s := _ - _ - Z.min _ _).
  set (m' := match s with
             | 0 => Zpos m1
             | Zpos _ => Z.shiftl (Zpos m1) s
             | Zneg _ => 0
             end).
  assert (Hm' : 0 <= m').
  { unfold m'. destruct s; try lia. apply Z.shiftl_nonneg. lia. }
  pose proof (Z.div_pos m' (Zpos m2) Hm' eq_refl) as Hq.
  unfold Z.div in Hq.
  destruct (Z.div_eucl m' (Zpos m2)) as [q0 r0].
  intros [= <- _ _]. exact Hq.
Qed.






(** ** The metrics step of the forecast entry point *)

Lemma merge_isin (df : list actual_row) (forecast : list forecast_row) :
  merge df (filter (fun f => existsb (Z.eqb (f_ds f)) (map a_ds df)) forecast)
  = merge df forecast.
Proof.
  unfold merge.
  assert (H : forall l : list actual_row,
             incl l df ->
             flat_map
               (fun a =>
                  map (fun f => {| m_ds := a_ds a; m_y := a_y a;
                                   m_yhat_lower := f_yhat_lower f;
                                   m_yhat_upper := f_yhat_upper f;
                                   m_yhat := f_yhat f |})
                      (filter (fun f => a_ds a =? f_ds f)
                              (filter (fun f => existsb (Z.eqb (f_ds f))
                                                        (map a_ds df))
                                      forecast))) l
             = flat_map
                 (fun a =>
                    map (fun f => {| m_ds := a_ds a; m_y := a_y a;
                                     m_yhat_lower := f_yhat_lower f;
                                     m_yhat_upper := f_yhat_upper f;
                                     m_yhat := f_yhat f |})
                        (filter (fun f => a_ds a =? f_ds f) forecast)) l).
  { induction l as [| a l IH]; intros Hincl; simpl; [reflexivity |].
    rewrite IH by (intros x Hx; apply Hincl; now right).
    f_equal. f_equal.
    assert (Ha : In (a_ds a) (map a_ds df))
      by (apply in_map, Hincl; now left).
    clear -Ha. induction forecast as [| f fs IHf]; simpl; [reflexivity |].
    destruct (existsb (Z.eqb (f_ds f)) (map a_ds df)) eqn:E; simpl.
    - rewrite IHf. reflexivity.
    - destruct (Z.eqb_spec (a_ds a) (f_ds f)) as [He | _]; [| exact IHf].
      exfalso. assert (Hex : existsb (Z.eqb (f_ds f)) (map a_ds df) = true).
      { apply existsb_exists. exists (a_ds a). split; [exact Ha |].
        rewrite He. apply Z.eqb_refl. }
      congruence. }
  apply H, incl_refl.
Qed.

(** X17.  In [generate_forecast] the metrics are those of the pairs
    (actual, estimate) of the very rows [detect_anomalies] examines, the
    inner join of history and forecast on the timestamp; the call never
    raises, the two arrays being columns of one frame; and when no timestamp
    matches the three metrics are [0.0]. *)
Theorem history_metrics_over_join (forecast : list forecast_row)
  (df : list actual_row) :
  history_metrics forecast df
    = calculate_metrics (map m_y (merge df forecast))
                        (map m_yhat (merge df forecast)) /\
  (exists m, history_metrics forecast df = Some m) /\
  (merge df forecast = [] -> history_metrics forecast df = Some zero_metrics).
Proof.
  unfold history_metrics. cbv zeta. rewrite merge_isin.
  split; [reflexivity |]. split.
  - rewrite calculate_metrics_pairs by (rewrite !length_map; reflexivity).
    eauto.
  - intros ->. reflexivity.
Qed.

Lemma history_metrics_over_join_witness :
  history_metrics Sample.forecast [Sample.ar 7 3] = Some zero_metrics.
Proof.
  apply (history_metrics_over_join Sample.forecast [Sample.ar 7 3]).
  reflexivity.
Defined.

(** ** The column check of the forecast entry point *)

Local Open Scope string_scope.

Section EnsureColumns.

Variable parse_number : string -> option float.

Lemma normalized_has_ds_y (df : DataFrame) :
  normalized df ->
  mem "ds" (column_names df) = true /\ mem "y" (column_names df) = true.
Proof.
  intros (ds_cols & y & Hcols & Hne & Hds & _).
  unfold column_names. rewrite Hcols, map_app. split; apply mem_In.
  - destruct ds_cols as [| c l]; [congruence |].
    inversion Hds as [| ? ? [Hc _] _]; subst. simpl. left. exact Hc.
  - apply in_or_app. right. left. reflexivity.
Qed.

(** X18.  The column check accepts a frame returned by [normalize_columns]
    as it is, without normalizing again (this is the frame the report route
    hands to [generate_forecast]); whatever frame the check lets through has
    a [ds] and a [y] column; and the only errors are the check's own and the
    non-[ValueError] exceptions of the normalization. *)
Theorem ensure_columns_after_normalize (df : DataFrame) :
  (forall r, normalize_columns parse_number df = Ok r ->
             ensure_columns parse_number r = inl r) /\
  (forall r, ensure_columns parse_number df = inl r ->
             In "ds" (column_names r) /\ In "y" (column_names r)) /\
  (forall e, ensure_columns parse_number df = inr e ->
             e = MissingColumns \/ e = Uncaught KeyError \/
             e = Uncaught TypeError).
Proof.
  split; [| split].
  - intros r Hr. apply normalize_columns_normalized in Hr.
    destruct (normalized_has_ds_y r Hr) as [Hds Hy].
    unfold ensure_columns. rewrite Hds, Hy. reflexivity.
  - intros r. unfold ensure_columns.
    destruct (mem "ds" (column_names df)) eqn:Eds;
      destruct (mem "y" (column_names df)) eqn:Ey; simpl;
      try (destruct (normalize_columns parse_number df) as [r' | []] eqn:En;
           intros [= <-]; apply normalize_columns_normalized in En;
           destruct (normalized_has_ds_y _ En); split; now apply mem_In).
    intros [= <-]. split; now apply mem_In.
  - intros e. unfold ensure_columns.
    destruct (negb (mem "ds" (column_names df))
              || negb (mem "y" (column_names df))); [| discriminate].
    destruct (normalize_columns parse_number df) as [r' | []];
      intros [= <-]; auto.
Qed.

End EnsureColumns.

Lemma ensure_columns_after_normalize_witness :
  ensure_columns SampleFrames.parse_nothing SampleFrames.sales_normalized
  = inl SampleFrames.sales_normalized.
Proof.
  apply (ensure_columns_after_normalize SampleFrames.parse_nothing
           SampleFrames.sales).
  reflexivity.
Defined.

(** ** The text of the report *)

Lemma clean_text_keeps (c : ascii) (s : string) :
  is_star c = false -> clean_text (String c s) = String c (clean_text s).
Proof.
  intros Hc. destruct s as [| c' s']; simpl; [reflexivity |].
  rewrite Hc. reflexivity.
Qed.

Lemma has_double_star_cons (c : ascii) (s : string) :
  has_double_star (String c s) =
  match s with
  | EmptyString => false
  | String c' _ => (is_star c && is_star c') || has_double_star s
  end.
Proof. reflexivity. Qed.

Lemma clean_text_props (n : nat) (s : string) :
  (String.length s <= n)%nat ->
  has_double_star (clean_text s) = false /\
  (has_double_star s = false -> clean_text s = s).
Proof.
  revert s. induction n as [| n IH]; intros s Hlen.
  - destruct s; simpl in Hlen; [split; reflexivity | lia].
  - destruct s as [| c [| c' s'']]; try (split; reflexivity).
    simpl in Hlen.
    destruct (IH s'' ltac:(lia)) as [IH1 IH1'].
    destruct (IH (String c' s'') ltac:(simpl; lia)) as [IH2 IH2'].
    change (clean_text (String c (String c' s'')))
      with (if is_star c && is_star c' then clean_text s''
            else String c (clean_text (String c' s''))).
    rewrite (has_double_star_cons c (String c' s'')).
    destruct (is_star c && is_star c') eqn:E.
    + split; [exact IH1 | discriminate].
    + split.
      * rewrite has_double_star_cons.
        apply andb_false_iff in E. destruct E as [Ec | Ec'].
        -- destruct (clean_text (String c' s'')) eqn:Ect; [reflexivity |].
           rewrite IH2, Ec. reflexivity.
        -- rewrite (clean_text_keeps c' s'' Ec'), Ec'.
           rewrite andb_false_r. rewrite <- (clean_text_keeps c' s'' Ec').
           exact IH2.
      * simpl orb. intros H. rewrite (IH2' H). reflexivity.
Qed.

(** X19.  The text printed for an insight never has two stars side by side,
    cleaning a second time changes nothing, and a text without a pair of stars
    (such as the sentences of [generate_insights], which mark bold with tags)
    is printed as it is. *)
Theorem clean_text_removes_double_stars (insight : string) :
  has_double_star (clean_text insight) = false /\
  clean_text (clean_text insight) = clean_text insight /\
  (has_double_star insight = false -> clean_text insight = insight).
Proof.
  destruct (clean_text_props (String.length insight) insight (Nat.le_refl _))
    as [H1 H2].
  split; [exact H1 |]. split; [| exact H2].
  apply (clean_text_props (String.length (clean_text insight))
           (clean_text insight) (Nat.le_refl _)).
  exact H1.
Qed.

Lemma clean_text_removes_double_stars_witness :
  clean_text "<b>Forecast Peak</b>: a high" = "<b>Forecast Peak</b>: a high".
Proof.
  apply clean_text_removes_double_stars. reflexivity.
Defined.

(** ** Accuracy metrics: sign and NaN *)

Local Close Scope string_scope.

Lemma binary_round_signed (s : bool) (m : positive) (e : Z) :
  signed s (binary_round F64.prec F64.emax s m e).
Proof.
  unfold binary_round. destruct (shl_align m e _) as [mz ez].
  apply binary_round_aux_signed.
Qed.

Lemma binary_round_not_nan (s : bool) (m : positive) (e : Z) :
  F64.isnan (binary_round F64.prec F64.emax s m e) = false.
Proof.
  unfold binary_round. destruct (shl_align m e _) as [mz ez].
  apply binary_round_aux_not_nan. lia.
Qed.

Lemma of_nat_signed (n : nat) : signed false (F64.of_Z (Z.of_nat n)).
Proof.
  unfold F64.of_Z, binary_normalize.
  destruct (Z.of_nat n) as [| p | p] eqn:E; try lia; [reflexivity |].
  apply binary_round_signed.
Qed.

Lemma add_signed_false (x y : float) :
  signed false x -> signed false y -> signed false (F64.add x y).
Proof.
  unfold F64.add.
  destruct x as [sx | sx | | sx mx ex], y as [sy | sy | | sy my ey];
    simpl; intros Hx Hy; subst; try reflexivity; try exact I.
  apply binary_round_signed.
Qed.

Lemma div_signed_false (x y : float) :
  signed false x -> signed false y -> signed false (F64.div x y).
Proof.
  unfold F64.div.
  destruct x as [sx | sx | | sx mx ex], y as [sy | sy | | sy my ey];
    simpl; intros Hx Hy; subst; try reflexivity; try exact I.
  destruct (SFdiv_core_binary _ _ _ _ _ _) as [[q e'] l].
  apply (binary_round_aux_signed false).
Qed.

Lemma mul_signed_false (x y : float) :
  signed false x -> signed false y -> signed false (F64.mul x y).
Proof.
  unfold F64.mul.
  destruct x as [sx | sx | | sx mx ex], y as [sy | sy | | sy my ey];
    simpl; intros Hx Hy; subst; try reflexivity; try exact I.
  apply (binary_round_aux_signed false).
Qed.

Lemma mul_self_signed (d : float) : signed false (F64.mul d d).
Proof.
  unfold F64.mul. destruct d as [s | s | | s m e]; simpl;
    try (destruct s; reflexivity); auto.
  replace (xorb s s) with false by (destruct s; reflexivity).
  apply (binary_round_aux_signed false).
Qed.

Lemma sqrt_signed_false (x : float) :
  signed false x -> signed false (F64.sqrt x).
Proof.
  destruct x as [s | s | | s m e]; intros Hx; simpl in Hx; subst;
    try reflexivity.
  unfold F64.sqrt, SFsqrt.
  destruct (SFsqrt_core_binary F64.prec F64.emax (Zpos m) e) as [[q e'] l].
  apply (binary_round_aux_signed false).
Qed.

Lemma rint_steps_nonneg (m : positive) (d : Z) :
  0 < d ->
  0 <= match 2 * (Zpos m mod d) ?= d with
       | Lt => Zpos m / d
       | Gt => Zpos m / d + 1
       | Eq => if Z.even (Zpos m / d) then Zpos m / d else Zpos m / d + 1
       end.
Proof.
  intros Hd. assert (Hq : 0 <= Zpos m / d) by (apply Z.div_pos; lia).
  destruct (2 * (Zpos m mod d) ?= d); [destruct (Z.even _) | |]; lia.
Qed.

Lemma rint_signed (s : bool) (x : float) : signed s x -> signed s (F64.rint x).
Proof.
  destruct x as [sx | sx | | sx m e]; simpl; auto. intros ->.
  destruct (0 <=? e) eqn:Ee; [reflexivity |].
  apply Z.leb_gt in Ee.
  pose proof (rint_steps_nonneg m (2 ^ (- e))
                ltac:(apply Z.pow_pos_nonneg; lia)) as Hn.
  destruct (match 2 * (Zpos m mod 2 ^ (- e)) ?= 2 ^ (- e) with
            | Lt => _ | Gt => _ | Eq => _ end) as [| n | n];
    try lia; [reflexivity |].
  destruct s; apply binary_round_signed.
Qed.

Lemma rint_not_nan (x : float) :
  F64.isnan x = false -> F64.isnan (F64.rint x) = false.
Proof.
  destruct x as [sx | sx | | sx m e]; simpl; auto. intros _.
  destruct (0 <=? e) eqn:Ee; [reflexivity |].
  destruct (match 2 * (Zpos m mod 2 ^ (- e)) ?= 2 ^ (- e) with
            | Lt => _ | Gt => _ | Eq => _ end) as [| n | n];
    [reflexivity | |]; destruct sx; apply binary_round_not_nan.
Qed.

Lemma div_finite_not_nan (x : float) (m : positive) (e : Z) :
  F64.isnan x = false ->
  F64.isnan (F64.div x (S754_finite false m e)) = false.
Proof.
  unfold F64.div. destruct x as [sx | sx | | sx mx ex]; simpl;
    intros Hx; try discriminate; try reflexivity.
  destruct (SFdiv_core_binary _ _ _ _ _ _) as [[q e'] l] eqn:E.
  apply binary_round_aux_not_nan.
  exact (SFdiv_core_binary_nonneg _ _ _ _ _ _ _ E).
Qed.

Lemma mul_finite_not_nan (x : float) (m : positive) (e : Z) :
  F64.isnan x = false ->
  F64.isnan (F64.mul x (S754_finite false m e)) = false.
Proof.
  unfold F64.mul. destruct x as [sx | sx | | sx mx ex]; simpl;
    intros Hx; try discriminate; try reflexivity.
  apply binary_round_aux_not_nan. lia.
Qed.

Lemma factor_4 : F64.of_Z (10 ^ 4) = S754_finite false 5497558138880000 (-39).
Proof. reflexivity. Qed.

Lemma factor_2 : F64.of_Z (10 ^ 2) = S754_finite false 7036874417766400 (-46).
Proof. reflexivity. Qed.

Lemma np_round_signed (x : float) (d : Z) :
  d = 2 \/ d = 4 -> signed false x -> signed false (F64.np_round x d).
Proof.
  intros Hd Hx. unfold F64.np_round. cbv zeta.
  assert (Hf : signed false (F64.of_Z (10 ^ d)))
    by (destruct Hd as [-> | ->]; reflexivity).
  apply div_signed_false; [| exact Hf].
  apply rint_signed, mul_signed_false; assumption.
Qed.

Lemma np_round_not_nan (x : float) (d : Z) :
  d = 2 \/ d = 4 -> F64.isnan x = false -> F64.isnan (F64.np_round x d) = false.
Proof.
  intros Hd Hx. unfold F64.np_round. cbv zeta.
  destruct Hd as [-> | ->]; rewrite ?factor_2, ?factor_4;
    apply div_finite_not_nan, rint_not_nan, mul_finite_not_nan; exact Hx.
Qed.

Lemma np_mean_signed (l : list float) :
  Forall (signed false) l -> signed false (F64.np_mean l).
Proof.
  intros Hl. unfold F64.np_mean.
  apply div_signed_false; [| apply of_nat_signed].
  apply (np_sum_closed (signed false));
    [reflexivity | exact add_signed_false | exact Hl].
Qed.

Lemma Forall_map_all {A B : Type} (f : A -> B) (P : B -> Prop) (l : list A) :
  (forall x, P (f x)) -> Forall P (map f l).
Proof. intros H. rewrite Forall_map. apply Forall_forall. auto. Qed.

(** X20.  On float64 arrays no metric is ever negative: whenever
    [calculate_metrics] returns, MAE, RMSE and MAPE each have a clear sign
    bit or are NaN.  (Integer arrays are another matter: their difference
    and its absolute value wrap around.) *)
Theorem metrics_never_negative (y_true y_pred : list float) (m : metrics) :
  calculate_metrics y_true y_pred = Some m ->
  signed false (MAE m) /\ signed false (RMSE m) /\ signed false (MAPE m).
Proof.
  intros H. apply calculate_metrics_some in H. subst m.
  destruct (valid_pairs y_true y_pred) as [| tp l];
    [repeat split; reflexivity |].
  set (l' := tp :: l). cbv zeta. cbn [MAE RMSE MAPE].
  split; [| split].
  - apply np_round_signed; [auto |]. apply np_mean_signed.
    apply (Forall_map_all abs_error (signed false) (tp :: l)).
    intros x. apply abs_signed.
  - apply np_round_signed; [auto |].
    apply sqrt_signed_false, np_mean_signed.
    apply (Forall_map_all squared_error (signed false) (tp :: l)).
    intros x. apply mul_self_signed.
  - apply np_round_signed; [auto |].
    destruct (F64.isinf _ || F64.isnan _); [reflexivity |].
    apply mul_100_signed, np_mean_signed.
    apply (Forall_map_all abs_pct_error (signed false) (tp :: l)).
    intros x. apply abs_signed.
Qed.

Lemma metrics_never_negative_witness :
  signed false
    (MAE {| MAE := F64.inf; RMSE := F64.inf; MAPE := F64.zero |}).
Proof.
  apply (metrics_never_negative SampleMetrics.y_true_inf
           SampleMetrics.y_pred_one).
  reflexivity.
Defined.

(** X21.  The returned MAPE is never NaN, whatever the input: the guard
    replaces a NaN or infinite percentage by [0.0] before it is rounded. *)
Theorem mape_never_nan (y_true y_pred : list float) (m : metrics) :
  calculate_metrics y_true y_pred = Some m -> F64.isnan (MAPE m) = false.
Proof.
  intros H. apply calculate_metrics_some in H. subst m.
  destruct (valid_pairs y_true y_pred) as [| tp l]; [reflexivity |].
  set (l' := tp :: l). cbv zeta. cbn [MAPE].
  apply np_round_not_nan; [auto |].
  destruct (F64.isinf _ || F64.isnan _) eqn:E; [reflexivity |].
  apply orb_false_iff in E. tauto.
Qed.

Lemma mape_never_nan_witness :
  F64.isnan (MAPE {| MAE := F64.inf; RMSE := F64.inf; MAPE := F64.zero |})
  = false.
Proof.
  apply (mape_never_nan SampleMetrics.y_true_inf SampleMetrics.y_pred_one).
  reflexivity.
Defined.

(** ** Anomaly detection: chronological order *)

Lemma StronglySorted_map_filter {A : Type} (g : A -> Z) (p : A -> bool)
  (l : list A) :
  StronglySorted Z.lt (map g l) -> StronglySorted Z.lt (map g (filter p l)).
Proof.
  induction l as [| x l IH]; simpl; intros H; [constructor |].
  inversion H as [| ? ? Hs Hall]; subst.
  destruct (p x); simpl; [| now apply IH].
  constructor; [now apply IH |].
  rewrite Forall_map in *. rewrite Forall_forall in *.
  intros y Hy. apply Hall. apply filter_In in Hy. tauto.
Qed.

Lemma merge_sorted (actuals : list actual_row) (forecast : list forecast_row) :
  NoDup (map f_ds forecast) ->
  StronglySorted Z.lt (map a_ds actuals) ->
  StronglySorted Z.lt (map m_ds (merge actuals forecast)).
Proof.
  intros Hnd. induction actuals as [| a l IH]; simpl; intros Hs;
    [constructor |].
  inversion Hs as [| ? ? Hs' Hall]; subst.
  specialize (IH Hs').
  fold (merge l forecast).
  assert (Hlater : Forall (Z.lt (a_ds a)) (map m_ds (merge l forecast))).
  { rewrite Forall_map. apply Forall_forall. intros r Hr.
    apply in_merge_iff in Hr. destruct Hr as (x & f & Hx & _ & _ & ->).
    simpl. rewrite Forall_forall in Hall. apply Hall. now apply in_map. }
  pose proof (filter_ds_at_most_one forecast (a_ds a) Hnd) as Hone.
  destruct (filter (fun f => a_ds a =? f_ds f) forecast) as [| f [| f' fs]];
    simpl in Hone; try lia; simpl.
  - exact IH.
  - constructor; assumption.
Qed.

(** X22.  When the forecast timestamps are distinct and the history is in
    chronological order, the anomalies come out in chronological order, each
    day at most once. *)
Theorem anomalies_chronological (forecast : list forecast_row)
  (actuals : list actual_row) :
  NoDup (map f_ds forecast) ->
  StronglySorted Z.lt (map a_ds actuals) ->
  StronglySorted Z.lt (map an_ds (detect_anomalies forecast actuals)).
Proof.
  intros Hnd Hs. unfold detect_anomalies. cbv zeta. rewrite map_map.
  change (fun x : merged_row => an_ds (anomaly_of x)) with m_ds.
  apply StronglySorted_map_filter. now apply merge_sorted.
Qed.

Lemma anomalies_chronological_witness :
  StronglySorted Z.lt
    (map an_ds (detect_anomalies Sample.forecast Sample.actuals)).
Proof.
  apply anomalies_chronological.
  - vm_compute. repeat constructor; simpl; intuition discriminate.
  - vm_compute. repeat constructor.
Defined.
